(** * Chat Hub memory: the proxy service and the LangChain message history

    A shallow embedding of
    - [packages/cli/src/modules/chat-hub/chat-hub-proxy.service.ts] in its two
      revisions (correlation by parent message id, and by turn id), and
    - [packages/@n8n/nodes-langchain/nodes/memory/MemoryChatHub/ChatHubMessageHistory.ts],
    together with the JavaScript values and the JSON text codec they rely on. *)

From Stdlib Require Import String Ascii List Arith Lia Bool.
From stdpp Require Import base option list strings gmap.

Local Open Scope nat_scope.
#[local] Arguments String.append !_ _ / : simpl nomatch.

(** ** JavaScript values and JSON text *)

Module Js.

(** The JavaScript values that flow through the memory code.  A number is kept
    as its JSON literal: the code only carries numbers through, it never
    computes with them. *)
#[local] Unset Elimination Schemes.
Inductive JsVal : Type :=
| JUndefined
| JNull
| JBool (b : bool)
| JNum (lit : string)
| JStr (s : string)
| JArr (items : list JsVal)
| JObj (fields : list (string * JsVal)).
#[local] Set Elimination Schemes.

(** [typeof v]. *)
Definition typeof (v : JsVal) : string :=
  match v with
  | JUndefined => "undefined"
  | JNull => "object"
  | JBool _ => "boolean"
  | JNum _ => "number"
  | JStr _ => "string"
  | JArr _ => "object"
  | JObj _ => "object"
  end.

(** [a ?? b]. *)
Definition nullish (a b : JsVal) : JsVal :=
  match a with
  | JUndefined | JNull => b
  | _ => a
  end.

(** First binding of [k] in the property list of an object. *)
Fixpoint lookup_field (k : string) (fields : list (string * JsVal)) : option JsVal :=
  match fields with
  | [] => None
  | (k', v) :: rest => if String.eqb k k' then Some v else lookup_field k rest
  end.

(** [v.k] for a property name [k] that is neither an array index nor
    [length]: a [TypeError] ([None]) on [null] and [undefined], the property
    of an object, [undefined] on everything else. *)
Definition get_prop (v : JsVal) (k : string) : option JsVal :=
  match v with
  | JUndefined | JNull => None
  | JObj fields => Some (default JUndefined (lookup_field k fields))
  | _ => Some JUndefined
  end.

(** *** Characters *)

Definition dquote : ascii := ascii_of_nat 34.
Definition backslash : ascii := ascii_of_nat 92.

Definition is_digit (c : ascii) : bool :=
  (48 <=? nat_of_ascii c) && (nat_of_ascii c <=? 57).

Definition is_ws (c : ascii) : bool :=
  let n := nat_of_ascii c in
  (n =? 32) || (n =? 9) || (n =? 10) || (n =? 13).

Definition hex_char (n : nat) : ascii :=
  if n <? 10 then ascii_of_nat (48 + n) else ascii_of_nat (87 + n).

Definition hex_val (c : ascii) : option nat :=
  let n := nat_of_ascii c in
  if (48 <=? n) && (n <=? 57) then Some (n - 48)
  else if (97 <=? n) && (n <=? 102) then Some (n - 87)
  else if (65 <=? n) && (n <=? 70) then Some (n - 55)
  else None.

(** *** JSON.stringify *)

(** QuoteJSONString on one character of a string held as UTF-8 bytes. *)
Definition escape_char (c : ascii) : string :=
  let n := nat_of_ascii c in
  if n =? 34 then String backslash (String dquote EmptyString)
  else if n =? 92 then String backslash (String backslash EmptyString)
  else if n =? 8 then String backslash "b"
  else if n =? 12 then String backslash "f"
  else if n =? 10 then String backslash "n"
  else if n =? 13 then String backslash "r"
  else if n =? 9 then String backslash "t"
  else if n <? 32 then
    String backslash
      (String "u" (String "0" (String "0"
        (String (hex_char (n / 16)) (String (hex_char (n mod 16)) EmptyString)))))
  else String c EmptyString.

Fixpoint quote_body (s : string) : string :=
  match s with
  | EmptyString => EmptyString
  | String c r => escape_char c +:+ quote_body r
  end.

Definition quote (s : string) : string :=
  String dquote (quote_body s +:+ String dquote EmptyString).

(** Texts joined by commas. *)
Fixpoint commas (l : list string) : string :=
  match l with
  | [] => EmptyString
  | [x] => x
  | x :: r => x +:+ "," +:+ commas r
  end.

(** [JSON.stringify(v)] without indentation; [None] is the result
    [undefined].  An [undefined] array element is written [null], an
    [undefined] property is left out.  A number is written as the literal
    it holds, the properties in the order of the list, a string byte by
    byte: this is the text JavaScript prints for a number held as the
    literal [Number.prototype.toString] writes, for properties in
    JavaScript's order and for well-formed strings (the values of
    [Canonical.canonical]); JavaScript prints the double, lists array
    indices first and escapes a lone surrogate. *)
Fixpoint stringify (v : JsVal) : option string :=
  match v with
  | JUndefined => None
  | JNull => Some "null"
  | JBool true => Some "true"
  | JBool false => Some "false"
  | JNum lit => Some lit
  | JStr s => Some (quote s)
  | JArr items =>
      Some ("[" +:+ commas (map (fun x => default "null" (stringify x)) items) +:+ "]")
  | JObj fields =>
      Some ("{" +:+
            commas (omap (fun kv => (fun t => quote (fst kv) +:+ ":" +:+ t) <$> stringify (snd kv))
                         fields) +:+ "}")
  end.

(** [JSON.stringify(v)] as a JavaScript value. *)
Definition JSON_stringify (v : JsVal) : JsVal :=
  match stringify v with
  | Some s => JStr s
  | None => JUndefined
  end.

#[local] Set Warnings "-abstract-large-number".

(** *** JSON.parse *)

Fixpoint skip_ws (s : string) : string :=
  match s with
  | String c r => if is_ws c then skip_ws r else s
  | EmptyString => s
  end.

(** [strip_prefix p s] is what follows [p] in [s]. *)
Fixpoint strip_prefix (p s : string) : option string :=
  match p, s with
  | EmptyString, _ => Some s
  | String a p', String b s' => if Ascii.eqb a b then strip_prefix p' s' else None
  | String _ _, EmptyString => None
  end.

(** The longest run of digits at the head of a text, and the rest. *)
Fixpoint span_digits (s : string) : string * string :=
  match s with
  | String c r =>
      if is_digit c then (String c (fst (span_digits r)), snd (span_digits r))
      else (EmptyString, s)
  | EmptyString => (EmptyString, EmptyString)
  end.

(** One digit or more. *)
Definition digits1 (s : string) : option (string * string) :=
  match span_digits s with
  | (EmptyString, _) => None
  | (d, t) => Some (d, t)
  end.

(** The integer part of a number: [0], or a non-zero digit and digits. *)
Definition scan_int (s : string) : option (string * string) :=
  match s with
  | String c r =>
      if Ascii.eqb c "0" then Some ("0", r)
      else if is_digit c then Some (String c (fst (span_digits r)), snd (span_digits r))
      else None
  | EmptyString => None
  end.

(** The optional fraction: a point and digits. *)
Definition scan_frac (s : string) : option (string * string) :=
  match s with
  | String c r =>
      if Ascii.eqb c "." then
        match digits1 r with
        | Some (d, t) => Some (String c d, t)
        | None => None
        end
      else Some (EmptyString, s)
  | EmptyString => Some (EmptyString, s)
  end.

(** The optional exponent: [e] or [E], an optional sign, digits. *)
Definition scan_exp (s : string) : option (string * string) :=
  match s with
  | String c r =>
      if Ascii.eqb c "e" || Ascii.eqb c "E" then
        match r with
        | String g r' =>
            if Ascii.eqb g "+" || Ascii.eqb g "-" then
              match digits1 r' with
              | Some (d, t) => Some (String c (String g d), t)
              | None => None
              end
            else
              match digits1 r with
              | Some (d, t) => Some (String c d, t)
              | None => None
              end
        | EmptyString => None
        end
      else Some (EmptyString, s)
  | EmptyString => Some (EmptyString, s)
  end.

Definition scan_unsigned (s : string) : option (string * string) :=
  match scan_int s with
  | Some (i, s1) =>
      match scan_frac s1 with
      | Some (f, s2) =>
          match scan_exp s2 with
          | Some (e, s3) => Some (i +:+ f +:+ e, s3)
          | None => None
          end
      | None => None
      end
  | None => None
  end.

(** A JSON number literal at the head of a text, and the rest. *)
Definition scan_number (s : string) : option (string * string) :=
  match s with
  | String c r =>
      if Ascii.eqb c "-" then
        match scan_unsigned r with
        | Some (l, t) => Some (String c l, t)
        | None => None
        end
      else scan_unsigned s
  | EmptyString => None
  end.

(** The character a one-letter escape stands for. *)
Definition simple_escape (e : ascii) : option ascii :=
  let n := nat_of_ascii e in
  if n =? 34 then Some dquote
  else if n =? 92 then Some backslash
  else if n =? 47 then Some "/"%char
  else if n =? 98 then Some (ascii_of_nat 8)
  else if n =? 102 then Some (ascii_of_nat 12)
  else if n =? 110 then Some (ascii_of_nat 10)
  else if n =? 114 then Some (ascii_of_nat 13)
  else if n =? 116 then Some (ascii_of_nat 9)
  else None.

Definition hex4 (a b c d : ascii) : option nat :=
  match hex_val a, hex_val b, hex_val c, hex_val d with
  | Some x, Some y, Some z, Some w => Some (((x * 16 + y) * 16 + z) * 16 + w)
  | _, _, _, _ => None
  end.

(** The characters of a string literal after its opening quote, up to the
    closing quote: a byte of the text, or the UTF-16 code unit that a
    four-digit escape names. *)
Fixpoint scan_string (s : string) : option (list (ascii + nat) * string) :=
  match s with
  | EmptyString => None
  | String c r =>
      if Ascii.eqb c dquote then Some ([], r)
      else if Ascii.eqb c backslash then
        match r with
        | String e r1 =>
            if Ascii.eqb e "u" then
              match r1 with
              | String h1 (String h2 (String h3 (String h4 r2))) =>
                  match hex4 h1 h2 h3 h4 with
                  | Some n =>
                      match scan_string r2 with
                      | Some (l, t) => Some (inr n :: l, t)
                      | None => None
                      end
                  | None => None
                  end
              | _ => None
              end
            else
              match simple_escape e with
              | Some b =>
                  match scan_string r1 with
                  | Some (l, t) => Some (inl b :: l, t)
                  | None => None
                  end
              | None => None
              end
        | EmptyString => None
        end
      else if nat_of_ascii c <? 32 then None
      else
        match scan_string r with
        | Some (l, t) => Some (inl c :: l, t)
        | None => None
        end
  end.

(** UTF-8 bytes of a code point. *)
Definition utf8 (cp : nat) : string :=
  if cp <? 128 then String (ascii_of_nat cp) EmptyString
  else if cp <? 2048 then
    String (ascii_of_nat (192 + cp / 64))
      (String (ascii_of_nat (128 + cp mod 64)) EmptyString)
  else if cp <? 65536 then
    String (ascii_of_nat (224 + cp / 4096))
      (String (ascii_of_nat (128 + (cp / 64) mod 64))
        (String (ascii_of_nat (128 + cp mod 64)) EmptyString))
  else
    String (ascii_of_nat (240 + cp / 262144))
      (String (ascii_of_nat (128 + (cp / 4096) mod 64))
        (String (ascii_of_nat (128 + (cp / 64) mod 64))
          (String (ascii_of_nat (128 + cp mod 64)) EmptyString))).

Definition is_high_surrogate (n : nat) : bool := (55296 <=? n) && (n <=? 56319).
Definition is_low_surrogate (n : nat) : bool := (56320 <=? n) && (n <=? 57343).

(** The string a scanned literal denotes, as UTF-8 bytes: an escaped
    surrogate pair is one code point; a lone escaped surrogate is kept as
    the three bytes of its own value. *)
Fixpoint decode_units (l : list (ascii + nat)) : string :=
  match l with
  | [] => EmptyString
  | inl b :: r => String b (decode_units r)
  | inr hi :: r =>
      match r with
      | inr lo :: r' =>
          if is_high_surrogate hi && is_low_surrogate lo
          then utf8 (65536 + (hi - 55296) * 1024 + (lo - 56320)) +:+ decode_units r'
          else utf8 hi +:+ decode_units r
      | _ => utf8 hi +:+ decode_units r
      end
  end.

(** [obj[k] = v] while an object literal is read: a repeated name keeps
    its first place and takes the later value. *)
Fixpoint set_field (k : string) (v : JsVal) (fields : list (string * JsVal))
  : list (string * JsVal) :=
  match fields with
  | [] => [(k, v)]
  | (k', v') :: rest =>
      if String.eqb k k' then (k', v) :: rest else (k', v') :: set_field k v rest
  end.

Definition build_object (members : list (string * JsVal)) : list (string * JsVal) :=
  fold_left (fun acc kv => set_field (fst kv) (snd kv) acc) members [].

(** A JSON value at the head of a text (after blanks), and the rest.  The
    fuel bounds the nesting and the number of elements read. *)
Fixpoint parse_value (fuel : nat) (s : string) : option (JsVal * string) :=
  match fuel with
  | O => None
  | S f =>
      match skip_ws s with
      | EmptyString => None
      | String c r =>
          if Ascii.eqb c "[" then
            match skip_ws r with
            | String c' r' =>
                if Ascii.eqb c' "]" then Some (JArr [], r')
                else
                  match parse_elements f r with
                  | Some (items, t) => Some (JArr items, t)
                  | None => None
                  end
            | EmptyString => None
            end
          else if Ascii.eqb c "{" then
            match skip_ws r with
            | String c' r' =>
                if Ascii.eqb c' "}" then Some (JObj [], r')
                else
                  match parse_members f r with
                  | Some (members, t) => Some (JObj (build_object members), t)
                  | None => None
                  end
            | EmptyString => None
            end
          else if Ascii.eqb c dquote then
            match scan_string r with
            | Some (l, t) => Some (JStr (decode_units l), t)
            | None => None
            end
          else if Ascii.eqb c "n" then
            match strip_prefix "ull" r with
            | Some t => Some (JNull, t)
            | None => None
            end
          else if Ascii.eqb c "t" then
            match strip_prefix "rue" r with
            | Some t => Some (JBool true, t)
            | None => None
            end
          else if Ascii.eqb c "f" then
            match strip_prefix "alse" r with
            | Some t => Some (JBool false, t)
            | None => None
            end
          else
            match scan_number (String c r) with
            | Some (lit, t) => Some (JNum lit, t)
            | None => None
            end
      end
  end
with parse_elements (fuel : nat) (s : string) : option (list JsVal * string) :=
  match fuel with
  | O => None
  | S f =>
      match parse_value f s with
      | Some (v, r) =>
          match skip_ws r with
          | String c r' =>
              if Ascii.eqb c "," then
                match parse_elements f r' with
                | Some (vs, t) => Some (v :: vs, t)
                | None => None
                end
              else if Ascii.eqb c "]" then Some ([v], r')
              else None
          | EmptyString => None
          end
      | None => None
      end
  end
with parse_members (fuel : nat) (s : string) : option (list (string * JsVal) * string) :=
  match fuel with
  | O => None
  | S f =>
      match skip_ws s with
      | String q r =>
          if Ascii.eqb q dquote then
            match scan_string r with
            | Some (l, r1) =>
                match skip_ws r1 with
                | String c r2 =>
                    if Ascii.eqb c ":" then
                      match parse_value f r2 with
                      | Some (v, r3) =>
                          match skip_ws r3 with
                          | String c' r4 =>
                              if Ascii.eqb c' "," then
                                match parse_members f r4 with
                                | Some (ms, t) => Some ((decode_units l, v) :: ms, t)
                                | None => None
                                end
                              else if Ascii.eqb c' "}" then Some ([(decode_units l, v)], r4)
                              else None
                          | EmptyString => None
                          end
                      | None => None
                      end
                    else None
                | EmptyString => None
                end
            | None => None
            end
          else None
      | EmptyString => None
      end
  end.

(** [JSON.parse(s)]: [None] is a [SyntaxError].  The value keeps each
    number as the literal of the text and the properties in the order of
    the text, where JavaScript holds the double and lists array indices
    first: what is read is the value JavaScript reads for the texts of
    [Canonical.canonical] values. *)
Definition JSON_parse (s : string) : option JsVal :=
  match parse_value (2 * String.length s + 2) s with
  | Some (v, r) =>
      match skip_ws r with
      | EmptyString => Some v
      | String _ _ => None
      end
  | None => None
  end.

(** *** JSON values *)

(** No name occurs twice. *)
Fixpoint distinct (l : list string) : bool :=
  match l with
  | [] => true
  | k :: r => negb (existsb (String.eqb k) r) && distinct r
  end.

(** The values JSON text can hold: no [undefined] inside, every number a
    JSON number literal, no property name twice in one object. *)
Fixpoint representable (v : JsVal) : bool :=
  match v with
  | JUndefined => false
  | JNull | JBool _ | JStr _ => true
  | JNum lit =>
      match scan_number lit with
      | Some (l, EmptyString) => String.eqb l lit
      | _ => false
      end
  | JArr items => forallb representable items
  | JObj fields =>
      forallb (fun kv => representable (snd kv)) fields && distinct (map fst fields)
  end.

(** Number of values in a value. *)
Fixpoint nodes (v : JsVal) : nat :=
  match v with
  | JArr items => S (list_sum (map nodes items))
  | JObj fields => S (list_sum (map (fun kv => nodes (snd kv)) fields))
  | _ => 1
  end.

(** What [scan_string] reads back from [quote_body s]. *)
Definition unit_of (c : ascii) : ascii + nat :=
  let n := nat_of_ascii c in
  if (n <? 32) && negb ((n =? 8) || (n =? 9) || (n =? 10) || (n =? 12) || (n =? 13))
  then inr n else inl c.

(** A text at which a number literal ends: its end, or a character that
    continues no literal. *)
Definition number_stops (rest : string) : bool :=
  match rest with
  | EmptyString => true
  | String c _ =>
      negb (is_digit c || Ascii.eqb c "." || Ascii.eqb c "e" || Ascii.eqb c "E")
  end.

(** The first character of the text of a JSON value. *)
Definition value_start (c : ascii) : bool :=
  is_digit c || Ascii.eqb c "-" || Ascii.eqb c "[" || Ascii.eqb c "{" || Ascii.eqb c dquote
  || Ascii.eqb c "n" || Ascii.eqb c "t" || Ascii.eqb c "f".

Definition starts_value (s : string) : bool :=
  match s with
  | String c _ => value_start c
  | EmptyString => false
  end.

(** A text at which the text of a value may end inside an array or an
    object, or at the end of the whole text. *)
Definition value_stops (rest : string) : bool :=
  match rest with
  | EmptyString => true
  | String c _ => Ascii.eqb c "," || Ascii.eqb c "]" || Ascii.eqb c "}"
  end.

End Js.

(** ** Errors *)

Inductive ErrorClass :=
| PlainError          (* [new Error(...)] *)
| UnexpectedError
| UserError
| TypeError           (* a property read on [null] or [undefined] *)
| QueryFailedError    (* raised by the persistence layer *)
| StructuralError.    (* a parent chain that is not a chain *)

Record Error := mkError { errorClass : ErrorClass; errorMessage : string }.

#[global] Instance ErrorClass_eq_dec : EqDecision ErrorClass.
Proof. solve_decision. Defined.
#[global] Instance Error_eq_dec : EqDecision Error.
Proof. solve_decision. Defined.

(** A synchronous result: a value, or the error thrown. *)
#[global] Instance Result_ret : MRet (sum Error) := fun A a => inr a.
#[global] Instance Result_bind : MBind (sum Error) :=
  fun A B f r => match r with inr a => f a | inl e => inl e end.

(** ** Rows *)

(** A chat message of a session: a node of the conversation tree. *)
Module ChatHubMessage.
Record t := mk {
  id : string;
  sessionId : string;
  parentId : option string;
  role : string;
  turnId : option string;
  createdAt : nat
}.
End ChatHubMessage.

(** A memory row.  The row is keyed by [turnId] in the turn scheme and by
    [parentMessageId] in the parent-message scheme; each revision of the
    service fills its own column. *)
Module ChatHubMemory.
Record t := mk {
  id : string;
  sessionId : string;
  memoryNodeId : string;
  turnId : option string;
  parentMessageId : option string;
  role : string;
  content : string;
  name : option string;
  createdAt : nat
}.
End ChatHubMemory.

(** What [createMemoryEntry] is given: a row without its creation time. *)
Module NewMemory.
Record t := mk {
  id : string;
  sessionId : string;
  memoryNodeId : string;
  turnId : option string;
  parentMessageId : option string;
  role : string;
  content : string;
  name : option string
}.
End NewMemory.

(** What [getMemory] returns for a row. *)
Module ChatHubMemoryEntry.
Record t := mk {
  id : string;
  role : string;
  content : string;
  name : option string;
  createdAt : nat
}.
End ChatHubMemoryEntry.

Module ChatHubSession.
Record t := mk {
  id : string;
  ownerId : string;
  title : string;
  lastMessageAt : nat;
  tools : list string;
  provider : string;
  credentialId : option string;
  model : option string;
  workflowId : option string;
  agentId : option string;
  agentName : string
}.
End ChatHubSession.

(** ** The history utilities ([chat-hub-history.utils], not among the sources) *)

Module History.

(** Modelled from the spec: the index from message id to message ("an
    index from id to node in an arena-style mapping"); the file
    [chat-hub-history.utils] is missing. *)
Definition messageIndex (messages : list ChatHubMessage.t) : gmap string ChatHubMessage.t :=
  list_to_map ((fun m => (ChatHubMessage.id m, m)) <$> messages).

(** Modelled from the spec: "if no head is given, the head is the message
    with the greatest createdAt (ties broken by insertion order)"; the file
    [chat-hub-history.utils] is missing. *)
Definition later (best : option ChatHubMessage.t) (m : ChatHubMessage.t)
  : option ChatHubMessage.t :=
  match best with
  | None => Some m
  | Some b =>
      if ChatHubMessage.createdAt b <=? ChatHubMessage.createdAt m then Some m else Some b
  end.

Definition latest (messages : list ChatHubMessage.t) : option ChatHubMessage.t :=
  fold_left later messages None.

(** Modelled from the spec: the "structural-corruption error" of the cycle
    check; the file [chat-hub-history.utils] is missing. *)
Definition corruption : Error :=
  mkError StructuralError "Cycle detected in chat message history".

(** Modelled from the spec: "start at head, repeatedly move to parentId
    until null", with "a defensive cycle check (bounded by total message
    count)" that "must fail fast with a structural-corruption error"; the
    file [chat-hub-history.utils] is missing.  [budget] is the number of
    messages the walk may still visit; an id that names no message ends the
    walk like [null]. *)
Fixpoint walk (index : gmap string ChatHubMessage.t) (budget : nat) (cur : option string)
  : Error + list ChatHubMessage.t :=
  match cur with
  | None => inr []
  | Some i =>
      match index !! i with
      | None => inr []
      | Some m =>
          match budget with
          | O => inl corruption
          | S b =>
              match walk index b (ChatHubMessage.parentId m) with
              | inr up => inr (m :: up)
              | inl e => inl e
              end
          end
      end
  end.

(** Modelled from the spec: the head the walk starts at, the given one or
    the latest message; the file [chat-hub-history.utils] is missing. *)
Definition headOf (messages : list ChatHubMessage.t) (head : option string) : option string :=
  match head with
  | Some h => Some h
  | None => ChatHubMessage.id <$> latest messages
  end.

(** Modelled from the spec: "given the full ordered list of ChatMessage
    rows for a session and an optional head identifier, produce the ordered
    sequence of messages from the tree root to the head, inclusive" (walk,
    "then reverse"); the file [chat-hub-history.utils] is missing. *)
Definition buildMessageHistory (messages : list ChatHubMessage.t) (head : option string)
  : Error + list ChatHubMessage.t :=
  match walk (messageIndex messages) (length messages) (headOf messages head) with
  | inr up => inr (rev up)
  | inl e => inl e
  end.

(** Keeps the first occurrence of each id, in order. *)
Fixpoint dedup (l : list string) : list string :=
  match l with
  | [] => []
  | x :: r => x :: List.filter (fun y => negb (String.eqb y x)) (dedup r)
  end.

(** Modelled from the spec: "collect the turnId of every AI message on the
    path, preserving path order, skipping nulls" into an "ordered,
    de-duplicated sequence"; the file [chat-hub-history.utils] is missing. *)
Definition extractTurnIds (chain : list ChatHubMessage.t) : list string :=
  dedup (omap (fun m => if String.eqb (ChatHubMessage.role m) "ai"
                        then ChatHubMessage.turnId m else None) chain).

(** Modelled from the spec: "collect the id of every human message on the
    path, preserving path order" into an "ordered, de-duplicated sequence";
    the file [chat-hub-history.utils] is missing. *)
Definition extractHumanMessageIds (chain : list ChatHubMessage.t) : list string :=
  dedup (map ChatHubMessage.id
           (List.filter (fun m => String.eqb (ChatHubMessage.role m) "human") chain)).

(** *** Forests and cycles *)

(** The parent of the message [i], when [i] names a message that has one. *)
Definition parentOf (index : gmap string ChatHubMessage.t) (i : string) : option string :=
  match index !! i with
  | Some m => ChatHubMessage.parentId m
  | None => None
  end.

(** [n] parent steps up from [cur]. *)
Fixpoint ancestor (index : gmap string ChatHubMessage.t) (n : nat) (cur : option string)
  : option string :=
  match n with
  | O => cur
  | S k => ancestor index k (match cur with Some i => parentOf index i | None => None end)
  end.

(** Following parents from [cur] ends at a message without parent. *)
Inductive reachesRoot (index : gmap string ChatHubMessage.t) : option string -> Prop :=
| atRoot : reachesRoot index None
| stepUp (i : string) (m : ChatHubMessage.t) :
    index !! i = Some m ->
    reachesRoot index (ChatHubMessage.parentId m) ->
    reachesRoot index (Some i).

(** "Each message has at most one parent; a session's messages form a
    forest rooted at parent-less messages": ids are unique, and every
    message reaches a root. *)
Definition validForest (messages : list ChatHubMessage.t) : Prop :=
  List.NoDup (map ChatHubMessage.id messages)
  /\ forall m, In m messages ->
     reachesRoot (messageIndex messages) (Some (ChatHubMessage.id m)).

(** A parent-pointer cycle can be reached from [head]: some message [x] up
    from [head] is its own ancestor. *)
Definition cycleFrom (index : gmap string ChatHubMessage.t) (head : string) : Prop :=
  exists x n k,
    ancestor index n (Some head) = Some x /\ 0 < k /\ ancestor index k (Some x) = Some x.

End History.

(** ** The repositories, and programs over them *)

Module Repo.

(** The calls the service makes on its three repositories, on [uuid()] and
    on the clock ([new Date()]).  Logging is left out. *)
Inductive Cmd :=
| getManyBySessionId (sessionId : string)
| getAllMemoryForNode (sessionId memoryNodeId : string)
| getMemoryByTurnIds (sessionId memoryNodeId : string) (turnIds : list string)
| getMemoryByParentMessageIds (sessionId memoryNodeId : string) (parentMessageIds : list string)
| createMemoryEntry (entry : NewMemory.t)
| deleteBySessionAndNode (sessionId memoryNodeId : string)
| existsById (sessionId ownerId : string)
| createChatSession (session : ChatHubSession.t)
| uuid
| newDate.

(** What a call answers. *)
Definition Resp (c : Cmd) : Type :=
  match c with
  | getManyBySessionId _ => list ChatHubMessage.t
  | getAllMemoryForNode _ _ => list ChatHubMemory.t
  | getMemoryByTurnIds _ _ _ => list ChatHubMemory.t
  | getMemoryByParentMessageIds _ _ _ => list ChatHubMemory.t
  | createMemoryEntry _ => unit
  | deleteBySessionAndNode _ _ => unit
  | existsById _ _ => bool
  | createChatSession _ => unit
  | uuid => string
  | newDate => nat
  end.

(** A call on the memory repository. *)
Definition isMemoryCall (c : Cmd) : bool :=
  match c with
  | getAllMemoryForNode _ _ | getMemoryByTurnIds _ _ _
  | getMemoryByParentMessageIds _ _ _ | createMemoryEntry _
  | deleteBySessionAndNode _ _ => true
  | _ => false
  end.

(** An asynchronous function: it returns, throws, or awaits a call and
    goes on with the answer. *)
Inductive Prog (A : Type) : Type :=
| Ret (a : A)
| Throw (e : Error)
| Vis (c : Cmd) (k : Resp c -> Prog A).
Arguments Ret {A} a.
Arguments Throw {A} e.
Arguments Vis {A} c k.

Fixpoint bind {A B : Type} (p : Prog A) (f : A -> Prog B) : Prog B :=
  match p with
  | Ret a => f a
  | Throw e => Throw e
  | Vis c k => Vis c (fun r => bind (k r) f)
  end.

(** [await c]. *)
Definition call (c : Cmd) : Prog (Resp c) := Vis c Ret.

(** A synchronous result that may be a thrown error. *)
Definition lift {A : Type} (r : Error + A) : Prog A :=
  match r with
  | inr a => Ret a
  | inl e => Throw e
  end.

#[global] Instance Prog_ret : MRet Prog := @Ret.
#[global] Instance Prog_bind : MBind Prog := fun A B f p => bind p f.

(** A method of an object with private state of type [St] (the variables
    its closure captured): a program from the state to a result and the
    state after. *)
Definition Op (St A : Type) : Type := St -> Prog (A * St).

#[global] Instance Op_ret {St} : MRet (Op St) := fun A a st => Ret (a, st).
#[global] Instance Op_bind {St} : MBind (Op St) :=
  fun A B f p st => bind (p st) (fun r => f (fst r) (snd r)).

(** A program that leaves the state alone. *)
Definition pure {St A : Type} (p : Prog A) : Op St A :=
  fun st => bind p (fun a => Ret (a, st)).

(** *** The store *)

Record World := mkWorld {
  messages : list ChatHubMessage.t;
  memories : list ChatHubMemory.t;
  sessions : list ChatHubSession.t;
  uuidSource : nat -> string;
  uuidCount : nat;
  clock : nat;
  calls : list Cmd
}.

Definition duplicateKey : Error :=
  mkError QueryFailedError "duplicate key value violates unique constraint".

Definition ofSessionAndNode (sessionId memoryNodeId : string) (r : ChatHubMemory.t) : bool :=
  String.eqb (ChatHubMemory.sessionId r) sessionId
  && String.eqb (ChatHubMemory.memoryNodeId r) memoryNodeId.

Definition keyIn (ids : list string) (key : option string) : bool :=
  match key with
  | Some k => existsb (String.eqb k) ids
  | None => false
  end.

Definition stamp (e : NewMemory.t) (now : nat) : ChatHubMemory.t :=
  ChatHubMemory.mk (NewMemory.id e) (NewMemory.sessionId e) (NewMemory.memoryNodeId e)
    (NewMemory.turnId e) (NewMemory.parentMessageId e) (NewMemory.role e)
    (NewMemory.content e) (NewMemory.name e) now.

(** Modelled from the spec: the query shapes of the persistence layer
    (the message list of a session, listBySessionAndNode,
    listByCorrelationIds, the session check "by id scoped to owner"); the
    repository classes are missing.  Tables are kept in insertion order,
    which is creation order. *)
Definition messagesOf (sid : string) (w : World) : list ChatHubMessage.t :=
  List.filter (fun m => String.eqb (ChatHubMessage.sessionId m) sid) (messages w).

Definition memoryOf (sid nid : string) (w : World) : list ChatHubMemory.t :=
  List.filter (ofSessionAndNode sid nid) (memories w).

Definition memoryByTurnIds (sid nid : string) (ids : list string) (w : World)
  : list ChatHubMemory.t :=
  List.filter (fun r => ofSessionAndNode sid nid r && keyIn ids (ChatHubMemory.turnId r))
              (memories w).

Definition memoryByParentMessageIds (sid nid : string) (ids : list string) (w : World)
  : list ChatHubMemory.t :=
  List.filter (fun r => ofSessionAndNode sid nid r
                        && keyIn ids (ChatHubMemory.parentMessageId r))
              (memories w).

Definition sessionExists (sid owner : string) (w : World) : bool :=
  existsb (fun s => String.eqb (ChatHubSession.id s) sid
                    && String.eqb (ChatHubSession.ownerId s) owner) (sessions w).

(** The session id is a unique key. *)
Definition sessionIdTaken (sid : string) (w : World) : bool :=
  existsb (fun s => String.eqb (ChatHubSession.id s) sid) (sessions w).

(** The store after a memory row is appended, after the memory of a node
    is cleared, after a session row is inserted, after a uuid is drawn. *)
Definition appended (e : NewMemory.t) (w : World) : World :=
  mkWorld (messages w) (memories w ++ [stamp e (clock w)]) (sessions w)
          (uuidSource w) (uuidCount w) (S (clock w)) (calls w).

Definition cleared (sid nid : string) (w : World) : World :=
  mkWorld (messages w) (List.filter (fun r => negb (ofSessionAndNode sid nid r)) (memories w))
          (sessions w) (uuidSource w) (uuidCount w) (clock w) (calls w).

Definition inserted (s : ChatHubSession.t) (w : World) : World :=
  mkWorld (messages w) (memories w) (sessions w ++ [s])
          (uuidSource w) (uuidCount w) (clock w) (calls w).

Definition drawn (w : World) : World :=
  mkWorld (messages w) (memories w) (sessions w)
          (uuidSource w) (S (uuidCount w)) (clock w) (calls w).

(** Modelled from the spec: what each call answers and does to the store
    (append "single-row insert", clear, and the session insert that fails
    on a duplicate key); the repository classes are missing. *)
Definition answer (c : Cmd) (w : World) : (Error + Resp c) * World :=
  match c return (Error + Resp c) * World with
  | getManyBySessionId sid => (inr (messagesOf sid w), w)
  | getAllMemoryForNode sid nid => (inr (memoryOf sid nid w), w)
  | getMemoryByTurnIds sid nid ids => (inr (memoryByTurnIds sid nid ids w), w)
  | getMemoryByParentMessageIds sid nid ids => (inr (memoryByParentMessageIds sid nid ids w), w)
  | createMemoryEntry e => (inr tt, appended e w)
  | deleteBySessionAndNode sid nid => (inr tt, cleared sid nid w)
  | existsById sid owner => (inr (sessionExists sid owner w), w)
  | createChatSession s =>
      if sessionIdTaken (ChatHubSession.id s) w then (inl duplicateKey, w)
      else (inr tt, inserted s w)
  | uuid => (inr (uuidSource w (uuidCount w)), drawn w)
  | newDate => (inr (clock w), w)
  end.

(** The call is recorded, then answered. *)
Definition record (c : Cmd) (w : World) : World :=
  mkWorld (messages w) (memories w) (sessions w)
          (uuidSource w) (uuidCount w) (clock w) (calls w ++ [c]).

Definition perform (c : Cmd) (w : World) : (Error + Resp c) * World :=
  answer c (record c w).

(** The calls made on the memory repository so far. *)
Definition memoryCalls (w : World) : list Cmd := List.filter isMemoryCall (calls w).

(** A program run to its end, alone. *)
Fixpoint run {A : Type} (p : Prog A) (w : World) : (Error + A) * World :=
  match p with
  | Ret a => (inr a, w)
  | Throw e => (inl e, w)
  | Vis c k =>
      match perform c w with
      | (inr r, w') => run (k r) w'
      | (inl e, w') => (inl e, w')
      end
  end.

(** One step of a program: up to its next [await]. *)
Definition step {A : Type} (p : Prog A) (w : World) : Prog A * World :=
  match p with
  | Vis c k =>
      match perform c w with
      | (inr r, w') => (k r, w')
      | (inl e, w') => (Throw e, w')
      end
  | _ => (p, w)
  end.

(** Two programs on one store, interleaved at their [await]s: [true]
    lets the first one take a step, [false] the second. *)
Fixpoint interleave {A B : Type} (schedule : list bool) (p : Prog A) (q : Prog B) (w : World)
  : Prog A * Prog B * World :=
  match schedule with
  | [] => (p, q, w)
  | true :: s => let '(p', w') := step p w in interleave s p' q w'
  | false :: s => let '(q', w') := step q w in interleave s p q' w'
  end.

End Repo.

(** ** Workflows, and the interface the memory node is handed *)

Module Workflow.

Record INode := mkNode {
  id : string;
  type : string;
  parameters : Js.JsVal
}.

Record t := mk {
  workflowId : option string;     (* [workflow.id] *)
  name : option string;
  nodes : list INode              (* [Object.values(workflow.nodes)] *)
}.

End Workflow.

(** [IChatHubMemoryService]: the methods of the object a memory node is
    handed.  [St] is the private state of the object; [Title] is what
    [ensureSession] takes (an optional title in the first revision, nothing
    in the second). *)
Record IChatHubMemoryService (St Title : Type) := mkService {
  getOwnerId : string;
  getMemory : Repo.Op St (list ChatHubMemoryEntry.t);
  addHumanMessage : string -> Repo.Op St unit;
  addAIMessage : string -> Repo.Op St unit;
  addToolMessage : string -> string -> Js.JsVal -> Js.JsVal -> Repo.Op St unit;
  clearMemory : Repo.Op St unit;
  ensureSession : Title -> Repo.Op St unit
}.
Arguments mkService {St Title}.
Arguments getOwnerId {St Title}.
Arguments getMemory {St Title}.
Arguments addHumanMessage {St Title}.
Arguments addAIMessage {St Title}.
Arguments addToolMessage {St Title}.
Arguments clearMemory {St Title}.
Arguments ensureSession {St Title}.

(** The three ways a row is written through a service object. *)
Inductive Write :=
| writeHuman (content : string)
| writeAI (content : string)
| writeTool (toolCallId toolName : string) (toolInput toolOutput : Js.JsVal).

Definition write {St Title : Type} (service : IChatHubMemoryService St Title) (x : Write)
  : Repo.Op St unit :=
  match x with
  | writeHuman c => addHumanMessage service c
  | writeAI c => addAIMessage service c
  | writeTool i n a b => addToolMessage service i n a b
  end.

Fixpoint writeAll {St Title : Type} (service : IChatHubMemoryService St Title)
    (l : list Write) : Repo.Op St unit :=
  match l with
  | [] => mret tt
  | x :: r => _ ← write service x; writeAll service r
  end.

(** What is common to the two revisions of [chat-hub-proxy.service.ts]. *)
Module Proxy.
Import Js Repo.

Definition CHAT_HUB_MEMORY_TYPE : string := "@n8n/n8n-nodes-langchain.memoryChatHub".
Definition CHAT_TRIGGER_NODE_TYPE : string := "@n8n/n8n-nodes-langchain.chatTrigger".

Definition ALLOWED_NODES : list string := [CHAT_HUB_MEMORY_TYPE].
Definition NAME_FALLBACK : string := "Workflow Chat".

Definition isAllowedNode (s : string) : bool := existsb (String.eqb s) ALLOWED_NODES.

(** [s.trim() === ''] on a string held as UTF-8 bytes: every character is
    white space or a line terminator of ECMAScript. *)
Fixpoint blank (s : string) : bool :=
  match s with
  | EmptyString => true
  | String c r =>
      let n := nat_of_ascii c in
      if ((9 <=? n) && (n <=? 13)) || (n =? 32) then blank r
      else
        match r with
        | String d r1 =>
            let m := nat_of_ascii d in
            if (n =? 194) && (m =? 160) then blank r1
            else
              match r1 with
              | String e r2 =>
                  let k := nat_of_ascii e in
                  if ((n =? 225) && (m =? 154) && (k =? 128))
                     || ((n =? 226) && (m =? 128)
                         && (((128 <=? k) && (k <=? 138)) || (k =? 168) || (k =? 169) || (k =? 175)))
                     || ((n =? 226) && (m =? 129) && (k =? 159))
                     || ((n =? 227) && (m =? 128) && (k =? 128))
                     || ((n =? 239) && (m =? 187) && (k =? 191))
                  then blank r2
                  else false
              | EmptyString => false
              end
        | EmptyString => false
        end
  end.

(** [base?.k]. *)
Definition optional_get (base : JsVal) (k : string) : JsVal :=
  default JUndefined (get_prop base k).

(** A string that is truthy: present and not empty. *)
Definition truthy (o : option string) : option string :=
  match o with
  | Some s => if String.eqb s EmptyString then None else Some s
  | None => None
  end.

(** [extractAgentName]: the [agentName] parameter of the first chat trigger
    node when it is a string that is not blank, else the workflow's name
    when it is not blank, else the fallback. *)
Definition extractAgentName (workflow : Workflow.t) : string :=
  let chatTriggerNode :=
    List.find (fun n => String.eqb (Workflow.type n) CHAT_TRIGGER_NODE_TYPE)
              (Workflow.nodes workflow) in
  let agentName :=
    match chatTriggerNode with
    | Some n => optional_get (Workflow.parameters n) "agentName"
    | None => JUndefined
    end in
  match agentName with
  | JStr a =>
      if negb (blank a) then a
      else
        match truthy (Workflow.name workflow) with
        | Some n => if negb (blank n) then n else NAME_FALLBACK
        | None => NAME_FALLBACK
        end
  | _ =>
      match truthy (Workflow.name workflow) with
      | Some n => if negb (blank n) then n else NAME_FALLBACK
      | None => NAME_FALLBACK
      end
  end.

(** The title of a created session as the specification words it: the
    caller-given title when one is provided; otherwise the chat trigger
    node's non-blank [agentName] parameter; otherwise the workflow's
    non-blank name; otherwise the fixed default. *)
Definition providedTitle (title : option string) : option string :=
  match title with
  | Some t => if String.eqb t EmptyString then None else Some t
  | None => None
  end.

Definition triggerAgentName (workflow : Workflow.t) : option string :=
  match List.find (fun n => String.eqb (Workflow.type n) CHAT_TRIGGER_NODE_TYPE)
                  (Workflow.nodes workflow) with
  | Some n =>
      match get_prop (Workflow.parameters n) "agentName" with
      | Some (JStr a) => if blank a then None else Some a
      | _ => None
      end
  | None => None
  end.

Definition workflowName (workflow : Workflow.t) : option string :=
  match Workflow.name workflow with
  | Some n => if blank n then None else Some n
  | None => None
  end.

Definition expectedTitle (title : option string) (workflow : Workflow.t) : string :=
  match providedTitle title, triggerAgentName workflow, workflowName workflow with
  | Some t, _, _ => t
  | None, Some a, _ => a
  | None, None, Some n => n
  | None, None, None => "Workflow Chat"
  end.

(** The entry [getMemory] returns for a row. *)
Definition toEntry (r : ChatHubMemory.t) : ChatHubMemoryEntry.t :=
  ChatHubMemoryEntry.mk (ChatHubMemory.id r) (ChatHubMemory.role r) (ChatHubMemory.content r)
    (ChatHubMemory.name r) (ChatHubMemory.createdAt r).

(** The session row [ensureSession] creates. *)
Definition newSession (sessionId ownerId sessionTitle : string) (now : nat)
    (workflowId : option string) (agentName : string) : ChatHubSession.t :=
  ChatHubSession.mk sessionId ownerId sessionTitle now [] "n8n" None None workflowId None agentName.

(** The content of a tool row. *)
Definition toolContent (toolCallId toolName : string) (toolInput toolOutput : JsVal) : string :=
  match stringify (JObj [("toolCallId", JStr toolCallId); ("toolName", JStr toolName);
                         ("toolInput", toolInput); ("toolOutput", toolOutput)]) with
  | Some s => s
  | None => EmptyString
  end.

End Proxy.

(** ** [chat-hub-proxy.service.ts], first revision: memory keyed by parent message id *)

Module ParentScheme.
Import Js Repo Proxy.

Definition validateRequest (node : Workflow.INode) : Error + unit :=
  if isAllowedNode (Workflow.type node) then inr tt
  else inl (mkError PlainError "This proxy is only available for Chat Hub Memory nodes").

Definition ownerRequired : Error :=
  mkError PlainError
    "Owner ID is required for Chat Hub Memory. For manual executions, ensure the user context is available.".

(** The variables captured by the closures of [makeChatHubOperations]. *)
Record Closure := mkClosure {
  resolvedParentMessageId : option string;
  parentMessageIdResolved : bool
}.

(** [indexOf] and [splice(index, 1)]: the first occurrence leaves. *)
Fixpoint removeFirst (x : string) (l : list string) : list string :=
  match l with
  | [] => []
  | y :: r => if String.eqb y x then r else y :: removeFirst x r
  end.

(** The ids [getMemory] filters the memory by: the human message ids of the
    chain, without the current parent message id when regenerating, with it
    otherwise. *)
Definition lookupIds (excludeCurrentFromMemory : bool) (parentMessageId : string)
    (humanMessageIds : list string) : list string :=
  if excludeCurrentFromMemory then removeFirst parentMessageId humanMessageIds
  else if existsb (String.eqb parentMessageId) humanMessageIds then humanMessageIds
  else humanMessageIds ++ [parentMessageId].

(** The ids of the human messages on a path, in path order. *)
Definition humanIdsOnPath (path : list ChatHubMessage.t) : list string :=
  map ChatHubMessage.id
      (List.filter (fun m => String.eqb (ChatHubMessage.role m) "human") path).

(** The filter set as the specification words it: the ids of the human
    messages on the path in path order; the current parent message id is
    removed from it when regenerating, and appended otherwise when absent. *)
Definition filterSet (regenerating : bool) (parentMessageId : string)
    (path : list ChatHubMessage.t) : list string :=
  if regenerating
  then List.filter (fun i => negb (String.eqb i parentMessageId)) (humanIdsOnPath path)
  else if bool_decide (parentMessageId ∈ humanIdsOnPath path) then humanIdsOnPath path
  else humanIdsOnPath path ++ [parentMessageId].

Section Operations.
Variables (sessionId memoryNodeId : string).
Variable initialParentMessageId : option string.
Variable excludeCurrentFromMemory : bool.
Variable ownerId : string.
Variable workflowId : option string.
Variable agentName : string.

Definition initialClosure : Closure :=
  mkClosure initialParentMessageId
            (match initialParentMessageId with Some _ => true | None => false end).

Definition resolveParentMessageId : Op Closure (option string) :=
  fun cl =>
    if parentMessageIdResolved cl then Ret (resolvedParentMessageId cl, cl)
    else
      chatMessages ← call (getManyBySessionId sessionId);
      messageChain ← lift (History.buildMessageHistory chatMessages None);
      let humanMessageIds := History.extractHumanMessageIds messageChain in
      let resolved := last humanMessageIds in
      Ret (resolved, mkClosure resolved true).

Definition getMemory : Op Closure (list ChatHubMemoryEntry.t) :=
  parentMessageId ← resolveParentMessageId;
  match truthy parentMessageId with
  | Some pid =>
      chatMessages ← pure (call (getManyBySessionId sessionId));
      messageChain ← pure (lift (History.buildMessageHistory chatMessages (Some pid)));
      let humanMessageIds :=
        lookupIds excludeCurrentFromMemory pid (History.extractHumanMessageIds messageChain) in
      match humanMessageIds with
      | [] => mret []
      | _ :: _ =>
          memoryEntries ← pure (call (getMemoryByParentMessageIds sessionId memoryNodeId
                                                                   humanMessageIds));
          mret (map toEntry memoryEntries)
      end
  | None =>
      memoryEntries ← pure (call (getAllMemoryForNode sessionId memoryNodeId));
      mret (map toEntry memoryEntries)
  end.

Definition addHumanMessage (content : string) : Op Closure unit :=
  parentMessageId ← resolveParentMessageId;
  id ← pure (call uuid);
  pure (call (createMemoryEntry
          (NewMemory.mk id sessionId memoryNodeId None parentMessageId "human" content
                        (Some "User")))).

Definition addAIMessage (content : string) : Op Closure unit :=
  parentMessageId ← resolveParentMessageId;
  id ← pure (call uuid);
  pure (call (createMemoryEntry
          (NewMemory.mk id sessionId memoryNodeId None parentMessageId "ai" content
                        (Some "AI")))).

Definition addToolMessage (toolCallId toolName : string) (toolInput toolOutput : JsVal)
  : Op Closure unit :=
  parentMessageId ← resolveParentMessageId;
  id ← pure (call uuid);
  let content := toolContent toolCallId toolName toolInput toolOutput in
  pure (call (createMemoryEntry
          (NewMemory.mk id sessionId memoryNodeId None parentMessageId "tool" content
                        (Some toolName)))).

Definition clearMemory : Op Closure unit :=
  pure (call (deleteBySessionAndNode sessionId memoryNodeId)).

Definition ensureSession (title : option string) : Op Closure unit :=
  pure (
    exists_ ← call (existsById sessionId ownerId);
    if exists_ : bool then mret tt
    else
      let sessionTitle := default agentName (truthy title) in
      now ← call newDate;
      call (createChatSession (newSession sessionId ownerId sessionTitle now workflowId agentName))).

Definition makeChatHubOperations : IChatHubMemoryService Closure (option string) :=
  mkService ownerId getMemory addHumanMessage addAIMessage addToolMessage clearMemory
            ensureSession.

End Operations.

(** [getChatHubProxy]: the service object and the initial values of the
    variables its closures capture, or the error thrown. *)
Definition getChatHubProxy (workflow : Workflow.t) (node : Workflow.INode)
    (sessionId memoryNodeId : string) (parentMessageId : option string)
    (excludeCurrentFromMemory : bool) (ownerId : option string)
  : Error + (IChatHubMemoryService Closure (option string) * Closure) :=
  match validateRequest node with
  | inl e => inl e
  | inr _ =>
      match truthy ownerId with
      | None => inl ownerRequired
      | Some owner =>
          let workflowId := Workflow.workflowId workflow in
          let agentName := extractAgentName workflow in
          inr (makeChatHubOperations sessionId memoryNodeId excludeCurrentFromMemory
                                     owner workflowId agentName,
               initialClosure parentMessageId)
      end
  end.

End ParentScheme.

(** ** [chat-hub-proxy.service.ts], second revision: memory keyed by turn id *)

Module TurnScheme.
Import Js Repo Proxy.

Definition validateRequest (node : Workflow.INode) : Error + unit :=
  if isAllowedNode (Workflow.type node) then inr tt
  else inl (mkError UnexpectedError "This proxy is only available for Chat Hub Memory nodes").

Definition ownerRequired : Error :=
  mkError UserError "Chat Hub Memory is only available on Chat hub and manual executions.".

Section Operations.
Variables (sessionId memoryNodeId : string).
Variable providedTurnId : option string.
Variable turnId : string.     (* [providedTurnId ?? uuid()] *)
Variable ownerId : string.
Variable workflowId : option string.
Variable agentName : string.

Definition getMemory : Op unit (list ChatHubMemoryEntry.t) :=
  pure (
    match providedTurnId with
    | None =>
        memoryEntries ← call (getAllMemoryForNode sessionId memoryNodeId);
        mret (map toEntry memoryEntries)
    | Some _ =>
        chatMessages ← call (getManyBySessionId sessionId);
        match chatMessages with
        | [] => mret []
        | _ :: _ =>
            messageChain ← lift (History.buildMessageHistory chatMessages None);
            let turnIds := History.extractTurnIds messageChain in
            match turnIds with
            | [] => mret []
            | _ :: _ =>
                memoryEntries ← call (getMemoryByTurnIds sessionId memoryNodeId turnIds);
                mret (map toEntry memoryEntries)
            end
        end
    end).

Definition addHumanMessage (content : string) : Op unit unit :=
  pure (
    id ← call uuid;
    call (createMemoryEntry
            (NewMemory.mk id sessionId memoryNodeId (Some turnId) None "human" content
                          (Some "User")))).

Definition addAIMessage (content : string) : Op unit unit :=
  pure (
    id ← call uuid;
    call (createMemoryEntry
            (NewMemory.mk id sessionId memoryNodeId (Some turnId) None "ai" content
                          (Some "AI")))).

Definition addToolMessage (toolCallId toolName : string) (toolInput toolOutput : JsVal)
  : Op unit unit :=
  pure (
    id ← call uuid;
    let content := toolContent toolCallId toolName toolInput toolOutput in
    call (createMemoryEntry
            (NewMemory.mk id sessionId memoryNodeId (Some turnId) None "tool" content
                          (Some toolName)))).

Definition clearMemory : Op unit unit :=
  pure (call (deleteBySessionAndNode sessionId memoryNodeId)).

Definition ensureSession (_ : unit) : Op unit unit :=
  pure (
    exists_ ← call (existsById sessionId ownerId);
    if exists_ : bool then mret tt
    else
      let sessionTitle := agentName in
      now ← call newDate;
      call (createChatSession (newSession sessionId ownerId sessionTitle now workflowId agentName))).

Definition operations : IChatHubMemoryService unit unit :=
  mkService ownerId getMemory addHumanMessage addAIMessage addToolMessage clearMemory
            ensureSession.

End Operations.

(** [makeChatHubOperations]: the turn id is the given one, or a uuid drawn
    once, here; the methods share it. *)
Definition makeChatHubOperations (sessionId memoryNodeId : string)
    (providedTurnId : option string) (ownerId : string) (workflowId : option string)
    (agentName : string) : Prog (IChatHubMemoryService unit unit) :=
  turnId ← match providedTurnId with
           | Some t => mret t
           | None => call uuid
           end;
  mret (operations sessionId memoryNodeId providedTurnId turnId ownerId workflowId agentName).

Definition getChatHubProxy (workflow : Workflow.t) (node : Workflow.INode)
    (sessionId memoryNodeId : string) (turnId : option string) (ownerId : option string)
  : Prog (IChatHubMemoryService unit unit) :=
  _ ← lift (validateRequest node);
  match truthy ownerId with
  | None => Throw ownerRequired
  | Some owner =>
      let workflowId := Workflow.workflowId workflow in
      let agentName := extractAgentName workflow in
      makeChatHubOperations sessionId memoryNodeId turnId owner workflowId agentName
  end.

End TurnScheme.

(** ** [ChatHubMessageHistory.ts] *)

Module ChatHubMessageHistory.
Import Js Repo.

(** The LangChain messages, as the arguments their constructors are given. *)
Inductive BaseMessage :=
| HumanMessage (content : JsVal) (name : option string)
| AIMessage (content : JsVal) (name : option string) (tool_calls : JsVal)
| SystemMessage (content : JsVal)
| ToolMessage (content : JsVal) (tool_call_id : JsVal) (name : JsVal)
| ChatMessage (content : JsVal) (role : string).

(** [message._getType()]. *)
Definition _getType (message : BaseMessage) : string :=
  match message with
  | HumanMessage _ _ => "human"
  | AIMessage _ _ _ => "ai"
  | SystemMessage _ => "system"
  | ToolMessage _ _ _ => "tool"
  | ChatMessage _ _ => "generic"
  end.

Definition messageContent (message : BaseMessage) : JsVal :=
  match message with
  | HumanMessage c _ | AIMessage c _ _ | SystemMessage c | ToolMessage c _ _
  | ChatMessage c _ => c
  end.

(** The string that a value of TypeScript type [string] is. *)
Definition text_of (v : JsVal) : string :=
  match v with
  | JStr s => s
  | _ => EmptyString
  end.

(** [parseAIMessageContent]: the [try] block reads [parsed.content] and
    [parsed.toolCalls]; a [SyntaxError] of [JSON.parse] and a [TypeError] of
    the reads both end in the [catch]. *)
Definition parseAIMessageContent (content : string) : JsVal * JsVal :=
  match JSON_parse content with
  | Some parsed =>
      match get_prop parsed "content", get_prop parsed "toolCalls" with
      | Some c, Some t =>
          (if String.eqb (typeof c) "string" then c else JSON_stringify c,
           nullish t (JArr []))
      | _, _ => (JStr content, JArr [])
      end
  | None => (JStr content, JArr [])
  end.

(** [parseToolMessageContent]: whatever [JSON.parse] returns, or the
    fallback object. *)
Definition parseToolMessageContent (content : string) : JsVal :=
  match JSON_parse content with
  | Some parsed => parsed
  | None =>
      JObj [("toolCallId", JStr "unknown"); ("toolName", JStr "unknown");
            ("toolInput", JObj []); ("toolOutput", JStr content)]
  end.

Definition typeError : Error :=
  mkError TypeError "Cannot read properties of null".

(** A property read outside any [try]. *)
Definition read (v : JsVal) (k : string) : Error + JsVal :=
  match get_prop v k with
  | Some x => inr x
  | None => inl typeError
  end.

Definition convertToLangChainMessage (entry : ChatHubMemoryEntry.t) : Error + BaseMessage :=
  let role := ChatHubMemoryEntry.role entry in
  let content := ChatHubMemoryEntry.content entry in
  if String.eqb role "human" then
    inr (HumanMessage (JStr content) (ChatHubMemoryEntry.name entry))
  else if String.eqb role "ai" then
    let aiData := parseAIMessageContent content in
    inr (AIMessage (fst aiData) (ChatHubMemoryEntry.name entry) (snd aiData))
  else if String.eqb role "system" then
    inr (SystemMessage (JStr content))
  else if String.eqb role "tool" then
    let toolData := parseToolMessageContent content in
    toolOutput ← read toolData "toolOutput";
    toolCallId ← read toolData "toolCallId";
    toolName ← read toolData "toolName";
    inr (ToolMessage (JSON_stringify toolOutput) toolCallId toolName)
  else
    inr (SystemMessage (JStr content)).

(** [entries.map(convert)]: the first throw ends the map. *)
Fixpoint convertAll (entries : list ChatHubMemoryEntry.t) : Error + list BaseMessage :=
  match entries with
  | [] => inr []
  | e :: r =>
      match convertToLangChainMessage e with
      | inl err => inl err
      | inr m =>
          match convertAll r with
          | inl err => inl err
          | inr ms => inr (m :: ms)
          end
      end
  end.

(** What [addMessage] stores for an AI message. *)
Definition storedAIContent (content toolCalls : JsVal) : string :=
  text_of (JSON_stringify (JObj [("content", content); ("toolCalls", nullish toolCalls (JArr []))])).

Section History.
Context {St Title : Type}.
Variable memoryService : IChatHubMemoryService St Title.

Definition getMessages : Op St (list BaseMessage) :=
  entries ← getMemory memoryService;
  pure (lift (convertAll entries)).

Definition addMessage (message : BaseMessage) : Op St unit :=
  let messageType := _getType message in
  let content :=
    if String.eqb (typeof (messageContent message)) "string" then messageContent message
    else JSON_stringify (messageContent message) in
  match message with
  | HumanMessage _ _ => addHumanMessage memoryService (text_of content)
  | AIMessage _ _ tool_calls => addAIMessage memoryService (storedAIContent content tool_calls)
  | ToolMessage c tool_call_id name =>
      addToolMessage memoryService (text_of tool_call_id)
                     (text_of (nullish name (JStr "unknown"))) (JObj []) c
  | _ => mret tt
  end.

Fixpoint addMessages (messages : list BaseMessage) : Op St unit :=
  match messages with
  | [] => mret tt
  | m :: r => _ ← addMessage m; addMessages r
  end.

Definition addUserMessage (message : string) : Op St unit :=
  addMessage (HumanMessage (JStr message) None).

Definition addAIMessage (message : string) : Op St unit :=
  addMessage (AIMessage (JStr message) None JUndefined).

Definition clear : Op St unit := clearMemory memoryService.

End History.

End ChatHubMessageHistory.

(** ** A sample session *)

Module Sample.
Import Js Repo Proxy.

Definition message (i : string) (parent : option string) (role : string)
    (turn : option string) (at_ : nat) : ChatHubMessage.t :=
  ChatHubMessage.mk i "s1" parent role turn at_.

(** Two turns, T1 = (h1, a1) and T2 = (h2, a2). *)
Definition twoTurns : list ChatHubMessage.t :=
  [message "h1" None "human" None 1;
   message "a1" (Some "h1") "ai" (Some "t1") 2;
   message "h2" (Some "a1") "human" None 3;
   message "a2" (Some "h2") "ai" (Some "t2") 4].

(** The first human message of a new session, its answer not yet saved. *)
Definition firstMessage : list ChatHubMessage.t :=
  [message "h1" None "human" None 1].

(** Two messages that are each other's parent. *)
Definition cyclic : list ChatHubMessage.t :=
  [message "a" (Some "b") "human" None 1;
   message "b" (Some "a") "ai" None 2].

Definition row (i : string) (turn parent : option string) (role content : string) (at_ : nat)
  : ChatHubMemory.t :=
  ChatHubMemory.mk i "s1" "n1" turn parent role content
    (if String.eqb role "human" then Some "User" else Some "AI") at_.

(** The memory of node [n1] after the two turns, in the parent-message scheme. *)
Definition twoTurnsMemory : list ChatHubMemory.t :=
  [row "m1" None (Some "h1") "human" "hello" 1;
   row "m2" None (Some "h1") "ai" "hi" 2;
   row "m3" None (Some "h2") "human" "more" 3;
   row "m4" None (Some "h2") "ai" "sure" 4].

Definition uuids (n : nat) : string := String (ascii_of_nat (97 + n)) "-uuid".

Definition store (messages : list ChatHubMessage.t) (memories : list ChatHubMemory.t)
    (sessions : list ChatHubSession.t) : World :=
  mkWorld messages memories sessions uuids 0 10 [].

(** The store after the two turns. *)
Definition afterTwoTurns : World := store twoTurns twoTurnsMemory [].

(** A store without chat messages whose node has memory, as manual
    executions leave it. *)
Definition manualOnly : World :=
  store [] [row "m1" (Some "manual-1") None "human" "hello" 1] [].

Definition memoryNode : Workflow.INode :=
  Workflow.mkNode "n1" CHAT_HUB_MEMORY_TYPE (JObj []).

Definition otherNode : Workflow.INode :=
  Workflow.mkNode "n9" "n8n-nodes-base.set" (JObj []).

Definition chatTrigger (agentName : JsVal) : Workflow.INode :=
  Workflow.mkNode "n0" CHAT_TRIGGER_NODE_TYPE (JObj [("agentName", agentName)]).

Definition workflow : Workflow.t :=
  Workflow.mk (Some "wf1") (Some "Support flow") [chatTrigger (JStr "Helper"); memoryNode].

Definition toolCalls : list JsVal :=
  [JObj [("name", JStr "calculator");
         ("args", JObj [("expression", JStr "1 + 1"); ("precision", JNum "2")]);
         ("id", JStr "call_1");
         ("type", JStr "tool_call")]].

(** Two memory nodes of one workflow create the session [s1] at the same
    time: each checks, then the first inserts, then the second. *)
Definition firstCaller : Prog (unit * unit) :=
  ensureSession (TurnScheme.operations "s1" "n1" None "a-uuid" "u1" (Some "wf1") "Helper") tt tt.

Definition secondCaller : Prog (unit * unit) :=
  ensureSession (TurnScheme.operations "s1" "n2" None "b-uuid" "u1" (Some "wf1") "Helper") tt tt.

Definition race : Prog (unit * unit) * Prog (unit * unit) * World :=
  interleave [true; false; true; true; false; false] firstCaller secondCaller (store [] [] []).

(** A store in which the session id [s1] belongs to another owner. *)
Definition othersSession : World :=
  store [] [] [newSession "s1" "u2" "Theirs" 5 None "Theirs"].

End Sample.

(** ** [getChatHubHelperFunctions]: what the execution engine hands a node *)

(** [ChatHubProxyProvider]: the interface the chat-hub module registers in
    the additional data of an execution.  [S] is what a granted request
    resolves to. *)
Module ChatHubProxyProvider.
Record t (S : Type) := mk {
  getChatHubProxy :
    Workflow.t -> Workflow.INode -> string -> string -> option string -> bool ->
    option string -> Repo.Prog S
}.
Arguments mk {S}.
Arguments getChatHubProxy {S}.
End ChatHubProxyProvider.

(** [IWorkflowExecuteAdditionalData], as far as the helper reads it. *)
Module AdditionalData.
Record ChatHub (S : Type) := mkChatHub {
  chatHubProxyProvider : option (ChatHubProxyProvider.t S)
}.
Arguments mkChatHub {S}.
Arguments chatHubProxyProvider {S}.
Record t (S : Type) := mk {
  chat_hub : option (ChatHub S);      (* [additionalData['chat-hub']] *)
  userId : option string
}.
Arguments mk {S}.
Arguments chat_hub {S}.
Arguments userId {S}.
End AdditionalData.

Module HelperFunctions.
Import Js Repo Proxy.

(** [helpers.getChatHubProxy] of the first revision. *)
Definition ChatHubProxyFunction (S : Type) : Type :=
  string -> string -> option string -> bool -> Prog S.

(** [getChatHubHelperFunctions]: [None] is the empty object [{}]. *)
Definition getChatHubHelperFunctions {S : Type} (additionalData : AdditionalData.t S)
    (workflow : Workflow.t) (node : Workflow.INode) : option (ChatHubProxyFunction S) :=
  let chatHubProxyProvider :=
    AdditionalData.chat_hub additionalData ≫= AdditionalData.chatHubProxyProvider in
  match chatHubProxyProvider with
  | None => None
  | Some provider =>
      Some (fun sessionId memoryNodeId parentMessageId excludeCurrentFromMemory =>
              ChatHubProxyProvider.getChatHubProxy provider workflow node sessionId memoryNodeId
                parentMessageId excludeCurrentFromMemory (AdditionalData.userId additionalData))
  end.

(** A service object of the first revision with the variables its closures
    captured. *)
Definition ParentHandle : Type :=
  (IChatHubMemoryService ParentScheme.Closure (option string) * ParentScheme.Closure)%type.

(** [ChatHubProxyService implements ChatHubProxyProvider], first revision:
    a throw of the [async] method is a rejected promise. *)
Definition ChatHubProxyService : ChatHubProxyProvider.t ParentHandle :=
  ChatHubProxyProvider.mk
    (fun workflow node sessionId memoryNodeId parentMessageId excludeCurrentFromMemory ownerId =>
       lift (ParentScheme.getChatHubProxy workflow node sessionId memoryNodeId parentMessageId
                                          excludeCurrentFromMemory ownerId)).

End HelperFunctions.

(** ** The memory node ([MemoryChatHub.node.ts]) *)

Module Node.
Import Js.

(** What [new BufferWindowMemory({...})] is given; [chatHistory] is the
    [ChatHubMessageHistory] over the memory service. *)
Record BufferWindowMemory (H : Type) := mkMemory {
  k : JsVal;
  memoryKey : string;
  chatHistory : H;
  returnMessages : bool;
  inputKey : string;
  outputKey : string
}.
Arguments mkMemory {H}.
Arguments k {H}.
Arguments memoryKey {H}.
Arguments chatHistory {H}.
Arguments returnMessages {H}.
Arguments inputKey {H}.
Arguments outputKey {H}.

(** How [supplyData] ends when no error of the proxy passes through it:
    with the memory it supplies, or with the [NodeOperationError] it throws
    itself. *)
Inductive Outcome (A : Type) :=
| Supplied (response : A)
| NodeOperationError (node : Workflow.INode) (message : string).
Arguments Supplied {A}.
Arguments NodeOperationError {A}.

Definition notAvailable : string :=
  "Chat Hub module is not available. Ensure the chat-hub module is enabled.".

End Node.

(** First revision of the node: the hidden parameters are the parent
    message id and the regeneration mark. *)
Module ParentSchemeNode.
Import Js Repo Proxy Node HelperFunctions.

Record Options := mkOptions {
  autoCreateSession : option bool;
  sessionTitle : option string
}.

(** The values [getNodeParameter] finds; [None] is a parameter that is not
    set, for which the call's fallback is taken. *)
Record NodeParameters := mkParameters {
  contextWindowLength : JsVal;
  parentMessageId : option string;
  excludeCurrentFromMemory : option bool;
  options : option Options
}.

(** [supplyData], given the session id [getSessionId] found.  [logWrapper]
    instruments the memory and is left out. *)
Definition supplyData (helpers : option (ChatHubProxyFunction ParentHandle))
    (node : Workflow.INode) (sessionId : string) (p : NodeParameters)
  : Prog (Outcome (BufferWindowMemory (IChatHubMemoryService ParentScheme.Closure (option string))
                   * ParentScheme.Closure)) :=
  let contextWindowLength := contextWindowLength p in
  let parentMessageId := truthy (Some (default EmptyString (parentMessageId p))) in
  let excludeCurrentFromMemory := default false (excludeCurrentFromMemory p) in
  let options := default (mkOptions None None) (options p) in
  let memoryNodeId := Workflow.id node in
  match helpers with
  | None => Ret (NodeOperationError node notAvailable)
  | Some getChatHubProxy =>
      handle ← getChatHubProxy sessionId memoryNodeId parentMessageId excludeCurrentFromMemory;
      let memoryService := fst handle in
      after ← match autoCreateSession options with
              | Some false => Ret (tt, snd handle)
              | _ => ensureSession memoryService (sessionTitle options) (snd handle)
              end;
      Ret (Supplied (mkMemory contextWindowLength "chat_history" memoryService true
                              "input" "output",
                     snd after))
  end.

End ParentSchemeNode.

(** Second revision of the node: the hidden parameter is the turn id. *)
Module TurnSchemeNode.
Import Js Repo Proxy Node.

Record Options := mkOptions {
  autoCreateSession : option bool
}.

Record NodeParameters := mkParameters {
  contextWindowLength : JsVal;
  turnId : option string;
  options : option Options
}.

(** [helpers.getChatHubProxy] of the second revision. *)
Definition ChatHubProxyFunction : Type :=
  string -> string -> option string -> Prog (IChatHubMemoryService unit unit).

Definition supplyData (helpers : option ChatHubProxyFunction)
    (node : Workflow.INode) (sessionId : string) (p : NodeParameters)
  : Prog (Outcome (BufferWindowMemory (IChatHubMemoryService unit unit))) :=
  let contextWindowLength := contextWindowLength p in
  let turnId := truthy (Some (default EmptyString (turnId p))) in
  let options := default (mkOptions None) (options p) in
  let memoryNodeId := Workflow.id node in
  match helpers with
  | None => Ret (NodeOperationError node notAvailable)
  | Some getChatHubProxy =>
      memoryService ← getChatHubProxy sessionId memoryNodeId turnId;
      _ ← match autoCreateSession options with
          | Some false => Ret (tt, tt)
          | _ => ensureSession memoryService tt tt
          end;
      Ret (Supplied (mkMemory contextWindowLength "chat_history" memoryService true
                              "input" "output"))
  end.

(** Modelled from the spec: the helper of the second revision, whose
    [getChatHubHelperFunctions] is missing from the sources.  It forwards a
    request to the service with the workflow, the node and the user of the
    execution, as the helper of the first revision does ("gating, performed
    once per handle acquisition": the node's type and "an owning identity"
    reach the service with every request). *)
Definition forwardTo (workflow : Workflow.t) (node : Workflow.INode) (userId : option string)
  : ChatHubProxyFunction :=
  fun sessionId memoryNodeId turnId =>
    TurnScheme.getChatHubProxy workflow node sessionId memoryNodeId turnId userId.

End TurnSchemeNode.

(** ** What a stored message reads back as *)

Module ReadBack.
Import Js Repo Proxy ChatHubMessageHistory.

(** The string [addMessage] stores for a content. *)
Definition storedText (content : JsVal) : string :=
  text_of (if String.eqb (typeof content) "string" then content else JSON_stringify content).

(** The message [getMessages] returns for a message [addMessage] was given:
    a human or AI message under the fixed name of its row, a tool message
    with its content encoded once more, nothing for the other kinds. *)
Definition readBack (message : BaseMessage) : list BaseMessage :=
  match message with
  | HumanMessage c _ => [HumanMessage (JStr (storedText c)) (Some "User")]
  | AIMessage c _ t => [AIMessage (JStr (storedText c)) (Some "AI") (nullish t (JArr []))]
  | ToolMessage c i n => [ToolMessage (JSON_stringify c) i (nullish n (JStr "unknown"))]
  | _ => []
  end.

(** A message whose parts JSON text can hold (its content, and the tool
    calls of an AI message), and whose tool call id and tool name are
    strings as their types say. *)
Definition storable (message : BaseMessage) : bool :=
  match message with
  | HumanMessage c _ => representable c
  | AIMessage c _ t => representable c && representable (nullish t (JArr []))
  | ToolMessage c i n =>
      representable c && String.eqb (typeof i) "string"
      && String.eqb (typeof (nullish n (JStr "unknown"))) "string"
  | _ => true
  end.

(** The write [addMessage] makes for a message, if any. *)
Definition toWrite (message : BaseMessage) : option Write :=
  match message with
  | HumanMessage c _ => Some (writeHuman (storedText c))
  | AIMessage c _ t =>
      Some (writeAI (storedAIContent
                       (if String.eqb (typeof c) "string" then c else JSON_stringify c) t))
  | ToolMessage c i n =>
      Some (writeTool (text_of i) (text_of (nullish n (JStr "unknown"))) (JObj []) c)
  | _ => None
  end.

(** The calls made on the message repository and on the session repository
    so far. *)
Definition isMessageCall (c : Cmd) : bool :=
  match c with
  | getManyBySessionId _ => true
  | _ => false
  end.

Definition messageCalls (w : World) : list Cmd := List.filter isMessageCall (calls w).

(** The role, the content and the name of the row a write makes. *)
Definition writeRole (x : Write) : string :=
  match x with
  | writeHuman _ => "human"
  | writeAI _ => "ai"
  | writeTool _ _ _ _ => "tool"
  end.

Definition writeContent (x : Write) : string :=
  match x with
  | writeHuman c | writeAI c => c
  | writeTool i n a b => toolContent i n a b
  end.

Definition writeName (x : Write) : option string :=
  match x with
  | writeHuman _ => Some "User"
  | writeAI _ => Some "AI"
  | writeTool _ n _ _ => Some n
  end.

Definition isSessionCall (c : Cmd) : bool :=
  match c with
  | existsById _ _ | createChatSession _ => true
  | _ => false
  end.

Definition sessionCalls (w : World) : list Cmd := List.filter isSessionCall (calls w).

End ReadBack.

(** ** More sample data *)

Module Scenario.
Import Js Repo Proxy ChatHubMessageHistory.

Definition turnService (turn : option string) : IChatHubMemoryService unit unit :=
  TurnScheme.operations "s1" "n1" turn (default "manual-1" turn) "u1" (Some "wf1") "Helper".

Definition parentService (regenerating : bool)
  : IChatHubMemoryService ParentScheme.Closure (option string) :=
  ParentScheme.makeChatHubOperations "s1" "n1" regenerating "u1" (Some "wf1") "Helper".

(** One exchange with a tool call. *)
Definition exchange : list BaseMessage :=
  [HumanMessage (JStr "What is 1 + 1?") None;
   AIMessage (JStr "Let me compute that.") None (JArr Sample.toolCalls);
   ToolMessage (JStr "2") (JStr "call_1") (JStr "calculator");
   SystemMessage (JStr "You are terse.");
   AIMessage (JStr "It is 2.") None JUndefined].

(** The memory of node [n1] after the two turns, in the turn scheme. *)
Definition turnRow (i turn role content : string) (at_ : nat) : ChatHubMemory.t :=
  Sample.row i (Some turn) None role content at_.

Definition twoTurnsMemory : list ChatHubMemory.t :=
  [turnRow "m1" "t1" "human" "hello" 1;
   turnRow "m2" "t1" "ai" (storedAIContent (JStr "hi") JUndefined) 2;
   turnRow "m3" "t2" "human" "more" 3;
   turnRow "m4" "t2" "ai" (storedAIContent (JStr "sure") JUndefined) 4].

(** The store after the two turns, with the memory of another node. *)
Definition afterTwoTurns : World :=
  Sample.store Sample.twoTurns
    (twoTurnsMemory
     ++ [ChatHubMemory.mk "k1" "s1" "n2" (Some "t1") None "human" "elsewhere" (Some "User") 5])
    [].

Definition additionalData (user : option string)
  : AdditionalData.t HelperFunctions.ParentHandle :=
  AdditionalData.mk (Some (AdditionalData.mkChatHub (Some HelperFunctions.ChatHubProxyService)))
                    user.

Definition noChatHub : AdditionalData.t HelperFunctions.ParentHandle :=
  AdditionalData.mk None (Some "u1").

Definition parentParameters (autoCreate : option bool) : ParentSchemeNode.NodeParameters :=
  ParentSchemeNode.mkParameters (JNum "5") (Some EmptyString) None
    (Some (ParentSchemeNode.mkOptions autoCreate (Some "Support"))).

Definition turnParameters (turn : option string) (autoCreate : option bool)
  : TurnSchemeNode.NodeParameters :=
  TurnSchemeNode.mkParameters (JNum "5") turn (Some (TurnSchemeNode.mkOptions autoCreate)).

End Scenario.

(** ** The JSON values on which the model and JavaScript print the same text *)

(** [Js.stringify] prints a number as the literal it holds, an object in
    the order of its property list and a string byte by byte;
    [JSON.stringify] prints the double a number is, lists the properties
    whose names are array indices first, and escapes a lone surrogate.
    [Js.JSON_parse] likewise keeps the literal and the order of the text.
    The two agree on the values below, which are the values as JavaScript
    holds and prints them: a number in plain decimal notation as
    [Number.prototype.toString] writes it, with at most fifteen significant
    digits; a string that is well-formed Unicode text; an object none of
    whose property names is an array index. *)
Module Canonical.
Import Js.

Fixpoint all_digits (s : string) : bool :=
  match s with
  | EmptyString => true
  | String c r => is_digit c && all_digits r
  end.

Fixpoint leading_zeros (s : string) : nat :=
  match s with
  | String c r => if Ascii.eqb c "0" then S (leading_zeros r) else 0
  | EmptyString => 0
  end.

Fixpoint ends_in_zero (s : string) : bool :=
  match s with
  | EmptyString => false
  | String c EmptyString => Ascii.eqb c "0"
  | String _ r => ends_in_zero r
  end.

(** The text before the first point, and the text after it if there is one. *)
Fixpoint split_point (s : string) : string * option string :=
  match s with
  | EmptyString => (EmptyString, None)
  | String c r =>
      if Ascii.eqb c "." then (EmptyString, Some r)
      else (String c (fst (split_point r)), snd (split_point r))
  end.

(** Digits without a needless leading zero. *)
Definition plain_integer (i : string) : bool :=
  match i with
  | EmptyString => false
  | String c r => is_digit c && all_digits r && (negb (Ascii.eqb c "0") || String.eqb r EmptyString)
  end.

(** A literal that [Number.prototype.toString] prints: an integer of at
    most fifteen digits (and not [-0]), or a decimal fraction without
    trailing zero, of at most fifteen significant digits, and not smaller
    than [0.000001] in magnitude (below it, JavaScript writes an exponent). *)
Definition canonical_number (lit : string) : bool :=
  let negative := match lit with String c _ => Ascii.eqb c "-" | EmptyString => false end in
  let body := match lit with
              | String c r => if Ascii.eqb c "-" then r else lit
              | EmptyString => lit
              end in
  let i := fst (split_point body) in
  plain_integer i
  && match snd (split_point body) with
     | None => (String.length i <=? 15) && negb (negative && String.eqb i "0")
     | Some f =>
         negb (String.eqb f EmptyString) && all_digits f && negb (ends_in_zero f)
         && (if String.eqb i "0"
             then (leading_zeros f <=? 5) && (String.length f - leading_zeros f <=? 15)
             else String.length i + String.length f <=? 15)
     end.

(** A continuation byte of UTF-8. *)
Definition continuation (c : ascii) : bool :=
  (128 <=? nat_of_ascii c) && (nat_of_ascii c <=? 191).

(** Well-formed UTF-8: the text of a JavaScript string without lone
    surrogates. *)
Fixpoint well_formed (s : string) : bool :=
  match s with
  | EmptyString => true
  | String a r =>
      let n := nat_of_ascii a in
      if n <? 128 then well_formed r
      else
        match r with
        | String b r1 =>
            let m := nat_of_ascii b in
            if (194 <=? n) && (n <=? 223) then continuation b && well_formed r1
            else
              match r1 with
              | String c r2 =>
                  if (224 <=? n) && (n <=? 239) then
                    continuation b && continuation c
                    && (negb (n =? 224) || (160 <=? m))
                    && (negb (n =? 237) || (m <=? 159))
                    && well_formed r2
                  else
                    match r2 with
                    | String d r3 =>
                        (240 <=? n) && (n <=? 244)
                        && continuation b && continuation c && continuation d
                        && (negb (n =? 240) || (144 <=? m))
                        && (negb (n =? 244) || (m <=? 143))
                        && well_formed r3
                    | EmptyString => false
                    end
              | EmptyString => false
              end
        | EmptyString => false
        end
  end.

(** A property name that JavaScript may list out of insertion order: digits
    only (every array index is one). *)
Definition index_like (k : string) : bool :=
  negb (String.eqb k EmptyString) && all_digits k.

Fixpoint plain (v : JsVal) : bool :=
  match v with
  | JUndefined => false
  | JNull | JBool _ => true
  | JNum lit => canonical_number lit
  | JStr s => well_formed s
  | JArr items => forallb plain items
  | JObj fields =>
      forallb (fun kv => well_formed (fst kv) && negb (index_like (fst kv)) && plain (snd kv))
              fields
  end.

(** A value JSON text can hold, as JavaScript holds and prints it. *)
Definition canonical (v : JsVal) : bool := representable v && plain v.

End Canonical.

(** * Facts *)

(** ** Strings *)

Lemma append_assoc (a b c : string) : (a +:+ b) +:+ c = a +:+ (b +:+ c).
Proof. induction a as [|x a IH]; simpl; [reflexivity | now rewrite IH]. Qed.

Lemma append_empty_r (a : string) : a +:+ EmptyString = a.
Proof. induction a as [|x a IH]; simpl; [reflexivity | now rewrite IH]. Qed.

Lemma append_length (a b : string) :
  String.length (a +:+ b) = String.length a + String.length b.
Proof. induction a as [|x a IH]; simpl; [reflexivity | now rewrite IH]. Qed.

(** ** JSON text: what [JSON.parse] reads back from [JSON.stringify] *)

Section JsVal_induction.
Import Js.
Variable P : JsVal -> Prop.
Hypothesis Hundef : P JUndefined.
Hypothesis Hnull : P JNull.
Hypothesis Hbool : forall b, P (JBool b).
Hypothesis Hnum : forall lit, P (JNum lit).
Hypothesis Hstr : forall s, P (JStr s).
Hypothesis Harr : forall items, Forall P items -> P (JArr items).
Hypothesis Hobj : forall fields, Forall (fun kv => P (snd kv)) fields -> P (JObj fields).

Fixpoint JsVal_nested_ind (v : JsVal) : P v :=
  match v with
  | JUndefined => Hundef
  | JNull => Hnull
  | JBool b => Hbool b
  | JNum lit => Hnum lit
  | JStr s => Hstr s
  | JArr items =>
      Harr items
        ((fix all (l : list JsVal) : Forall P l :=
            match l with
            | [] => @List.Forall_nil _ P
            | x :: r => @List.Forall_cons _ P x r (JsVal_nested_ind x) (all r)
            end) items)
  | JObj fields =>
      Hobj fields
        ((fix all (l : list (string * JsVal)) : Forall (fun kv => P (snd kv)) l :=
            match l with
            | [] => @List.Forall_nil _ _
            | kv :: r => @List.Forall_cons _ _ kv r (JsVal_nested_ind (snd kv)) (all r)
            end) fields)
  end.
End JsVal_induction.

Section JsonText.
Import Js.

Ltac each_char c := destruct c as [[|] [|] [|] [|] [|] [|] [|] [|]].

(** *** String literals *)

Lemma scan_string_escape (c : ascii) (t : string) :
  scan_string (escape_char c +:+ t)
  = match scan_string t with
    | Some (l, r) => Some (unit_of c :: l, r)
    | None => None
    end.
Proof. each_char c; reflexivity. Qed.

Lemma scan_string_quote_body (s rest : string) :
  scan_string (quote_body s +:+ String dquote rest)
  = Some (map unit_of (list_ascii_of_string s), rest).
Proof.
  induction s as [|c s IH].
  - reflexivity.
  - change (quote_body (String c s)) with (escape_char c +:+ quote_body s).
    now rewrite append_assoc, scan_string_escape, IH.
Qed.

Lemma decode_units_unit_of (s : string) :
  decode_units (map unit_of (list_ascii_of_string s)) = s.
Proof.
  induction s as [|c s IH]; [reflexivity|].
  change (list_ascii_of_string (String c s)) with (c :: list_ascii_of_string s).
  rewrite map_cons.
  destruct (unit_of c) as [b|n] eqn:E.
  - assert (b = c) as ->.
    { unfold unit_of in E. destruct (_ && _); congruence. }
    simpl. now rewrite IH.
  - assert (n = nat_of_ascii c /\ n < 32) as [Hn Hlt].
    { unfold unit_of in E. destruct (nat_of_ascii c <? 32) eqn:L; simpl in E.
      - destruct (negb _); [|discriminate]. apply Nat.ltb_lt in L.
        split; congruence.
      - discriminate. }
    assert (utf8 n = String c EmptyString) as Hu.
    { unfold utf8. destruct (n <? 128) eqn:L.
      - now rewrite Hn, ascii_nat_embedding.
      - apply Nat.ltb_ge in L. lia. }
    assert (is_high_surrogate n = false) as Hs.
    { unfold is_high_surrogate. apply andb_false_intro1. apply Nat.leb_gt.
      apply Nat.lt_le_trans with 32; [exact Hlt|].
      apply Nat.leb_le. vm_compute. reflexivity. }
    destruct (map unit_of (list_ascii_of_string s)) as [|[b|lo] r] eqn:Er;
      cbn [decode_units] in *; rewrite ?Hs, Hu; cbn [andb String.append];
      now rewrite IH.
Qed.

(** A string literal is read back as the string it was written from. *)
Lemma scan_string_quote (s rest : string) :
  exists l, scan_string (quote_body s +:+ String dquote rest) = Some (l, rest)
            /\ decode_units l = s.
Proof.
  eexists. split; [apply scan_string_quote_body | apply decode_units_unit_of].
Qed.

(** *** Number literals *)

Lemma number_stops_head (c : ascii) (r : string) :
  number_stops (String c r) = true ->
  is_digit c = false /\ Ascii.eqb c "." = false
  /\ Ascii.eqb c "e" = false /\ Ascii.eqb c "E" = false.
Proof.
  unfold number_stops. rewrite negb_true_iff, !orb_false_iff. tauto.
Qed.

Lemma span_digits_app (s rest : string) :
  number_stops rest = true ->
  span_digits (s +:+ rest) = (fst (span_digits s), snd (span_digits s) +:+ rest).
Proof.
  intros Hstop. induction s as [|c s IH].
  - destruct rest as [|c r]; [reflexivity|].
    apply number_stops_head in Hstop as (Hd & _).
    cbn [String.append span_digits]. now rewrite Hd.
  - cbn [String.append span_digits]. destruct (is_digit c); [|reflexivity].
    now rewrite IH.
Qed.

Lemma digits1_app (s rest d t : string) :
  number_stops rest = true ->
  digits1 s = Some (d, t) -> digits1 (s +:+ rest) = Some (d, t +:+ rest).
Proof.
  intros Hstop. unfold digits1. rewrite (span_digits_app _ _ Hstop).
  destruct (span_digits s) as [[|c d'] t']; [discriminate|].
  cbn [fst snd]. congruence.
Qed.

Lemma scan_int_app (s rest i t : string) :
  number_stops rest = true ->
  scan_int s = Some (i, t) -> scan_int (s +:+ rest) = Some (i, t +:+ rest).
Proof.
  intros Hstop. destruct s as [|c s]; [discriminate|].
  cbn [String.append scan_int]. destruct (Ascii.eqb c "0").
  - congruence.
  - destruct (is_digit c); [|discriminate].
    rewrite (span_digits_app _ _ Hstop). cbn [fst snd]. congruence.
Qed.

Lemma scan_frac_app (s rest f t : string) :
  number_stops rest = true ->
  scan_frac s = Some (f, t) -> scan_frac (s +:+ rest) = Some (f, t +:+ rest).
Proof.
  intros Hstop. destruct s as [|c s].
  - intros [= <- <-]. destruct rest as [|c r]; [reflexivity|].
    apply number_stops_head in Hstop as (_ & Hp & _).
    cbn [String.append scan_frac]. now rewrite Hp.
  - cbn [String.append scan_frac]. destruct (Ascii.eqb c ".").
    + destruct (digits1 s) as [[d t']|] eqn:E; [|discriminate].
      rewrite (digits1_app _ _ _ _ Hstop E). congruence.
    + intros [= <- <-]. reflexivity.
Qed.

Lemma scan_exp_app (s rest e t : string) :
  number_stops rest = true ->
  scan_exp s = Some (e, t) -> scan_exp (s +:+ rest) = Some (e, t +:+ rest).
Proof.
  intros Hstop. destruct s as [|c s].
  - intros [= <- <-]. destruct rest as [|c r]; [reflexivity|].
    apply number_stops_head in Hstop as (_ & _ & He & HE).
    cbn [String.append scan_exp]. now rewrite He, HE.
  - cbn [String.append scan_exp]. destruct (Ascii.eqb c "e" || Ascii.eqb c "E").
    + destruct s as [|g s]; [discriminate|].
      cbn [String.append]. destruct (Ascii.eqb g "+" || Ascii.eqb g "-").
      * destruct (digits1 s) as [[d t']|] eqn:E; [|discriminate].
        rewrite (digits1_app _ _ _ _ Hstop E). congruence.
      * destruct (digits1 (String g s)) as [[d t']|] eqn:E; [|discriminate].
        change (String g (s +:+ rest)) with (String g s +:+ rest).
        rewrite (digits1_app _ _ _ _ Hstop E). congruence.
    + intros [= <- <-]. reflexivity.
Qed.

Lemma scan_unsigned_app (s rest l t : string) :
  number_stops rest = true ->
  scan_unsigned s = Some (l, t) -> scan_unsigned (s +:+ rest) = Some (l, t +:+ rest).
Proof.
  intros Hstop. unfold scan_unsigned.
  destruct (scan_int s) as [[i s1]|] eqn:Ei; [|discriminate].
  rewrite (scan_int_app _ _ _ _ Hstop Ei).
  destruct (scan_frac s1) as [[f s2]|] eqn:Ef; [|discriminate].
  rewrite (scan_frac_app _ _ _ _ Hstop Ef).
  destruct (scan_exp s2) as [[e s3]|] eqn:Ee; [|discriminate].
  rewrite (scan_exp_app _ _ _ _ Hstop Ee). congruence.
Qed.

(** A number literal is read the same whatever follows it, as long as what
    follows continues no literal. *)
Lemma scan_number_app (s rest l t : string) :
  number_stops rest = true ->
  scan_number s = Some (l, t) -> scan_number (s +:+ rest) = Some (l, t +:+ rest).
Proof.
  intros Hstop. destruct s as [|c s]; [discriminate|].
  cbn [String.append scan_number]. destruct (Ascii.eqb c "-").
  - destruct (scan_unsigned s) as [[l' t']|] eqn:E; [|discriminate].
    rewrite (scan_unsigned_app _ _ _ _ Hstop E). congruence.
  - intros E. change (String c (s +:+ rest)) with (String c s +:+ rest).
    now apply scan_unsigned_app.
Qed.

Lemma scan_number_head (s l t : string) :
  scan_number s = Some (l, t) ->
  exists c r, s = String c r /\ (is_digit c || Ascii.eqb c "-") = true.
Proof.
  destruct s as [|c r]; [discriminate|]. intros H. exists c, r. split; [reflexivity|].
  cbn [scan_number] in H. destruct (Ascii.eqb c "-") eqn:Em; [apply orb_true_r|].
  rewrite orb_false_r. unfold scan_unsigned in H. cbn [scan_int] in H.
  destruct (Ascii.eqb c "0") eqn:E0.
  - apply Ascii.eqb_eq in E0. now subst c.
  - destruct (is_digit c); [reflexivity | discriminate].
Qed.

(** *** Values *)

Lemma value_stops_number (rest : string) :
  value_stops rest = true -> number_stops rest = true.
Proof.
  destruct rest as [|c r]; [reflexivity|].
  unfold value_stops, number_stops.
  each_char c; intros H; cbv in H |- *; congruence.
Qed.

Lemma value_start_facts (c : ascii) :
  value_start c = true ->
  is_ws c = false /\ Ascii.eqb c "]" = false /\ Ascii.eqb c "}" = false.
Proof. each_char c; intros H; cbv in H |- *; try discriminate H; auto. Qed.

Lemma parse_value_number (f : nat) (c : ascii) (r : string) :
  (is_digit c || Ascii.eqb c "-") = true ->
  parse_value (S f) (String c r)
  = match scan_number (String c r) with
    | Some (lit, t) => Some (JNum lit, t)
    | None => None
    end.
Proof. each_char c; intros H; cbv in H; try discriminate H; reflexivity. Qed.

Lemma number_start (c : ascii) :
  (is_digit c || Ascii.eqb c "-") = true -> value_start c = true.
Proof.
  intros H. unfold value_start. rewrite <- !orb_assoc in *.
  rewrite orb_assoc, H. reflexivity.
Qed.

Lemma nodes_pos (v : JsVal) : 1 <= nodes v.
Proof. destruct v; simpl; lia. Qed.

Lemma quote_app (k t : string) :
  quote k +:+ t = String dquote (quote_body k +:+ String dquote t).
Proof. unfold quote. cbn [String.append]. now rewrite append_assoc. Qed.

(** [v] is read back from its text, whatever follows the text. *)
Definition reads_back (v : JsVal) : Prop :=
  representable v = true ->
  exists text,
    stringify v = Some text /\ starts_value text = true
    /\ nodes v <= String.length text
    /\ forall fuel rest,
        2 * nodes v <= fuel -> value_stops rest = true ->
        parse_value fuel (text +:+ rest) = Some (v, rest).

Lemma parse_elements_commas (items : list JsVal) :
  Forall reads_back items -> forallb representable items = true -> items <> [] ->
  exists body,
    commas (map (fun x => default "null" (stringify x)) items) = body
    /\ starts_value body = true
    /\ list_sum (map nodes items) <= String.length body
    /\ forall fuel rest,
        1 + 2 * list_sum (map nodes items) <= fuel ->
        parse_elements fuel (body +:+ String "]" rest) = Some (items, rest).
Proof.
  induction 1 as [|x l Hx Hl IH]; intros Hrep Hne; [congruence|].
  cbn [forallb] in Hrep. apply andb_true_iff in Hrep as [Rx Rl].
  destruct (Hx Rx) as (tx & Etx & Sx & Lx & Px). destruct l as [|y l'].
  - exists tx. cbn [map commas]. rewrite Etx. repeat split; [exact Sx| |].
    { cbn [list_sum fold_right]. lia. }
    intros fuel rest Hf. cbn [map list_sum fold_right] in Hf.
    destruct fuel as [|f]; [lia|]. cbn [parse_elements].
    rewrite Px by (reflexivity || lia). reflexivity.
  - destruct IH as (body & Eb & Sb & Lb & Pb); [exact Rl | discriminate |].
    exists (tx +:+ "," +:+ body). split; [|split; [|split]].
    + change (commas (map ?F (x :: y :: l')))
        with (F x +:+ "," +:+ commas (map F (y :: l'))).
      cbn beta. now rewrite Etx, Eb.
    + destruct tx; [discriminate Sx | exact Sx].
    + rewrite !append_length. cbn [map list_sum fold_right String.length] in Lb |- *. lia.
    + intros fuel rest Hf. cbn [map list_sum fold_right] in Hf. pose proof (nodes_pos x).
      destruct fuel as [|f]; [lia|]. cbn [parse_elements].
      rewrite !append_assoc. rewrite Px by (reflexivity || lia).
      cbn [String.append]. change (skip_ws (String "," ?t)) with (String "," t).
      cbn match. change (Ascii.eqb "," ",") with true. cbn match.
      rewrite Pb by (cbn [map list_sum fold_right]; lia). reflexivity.
Qed.

Lemma parse_members_commas (fields : list (string * JsVal)) :
  Forall (fun kv => reads_back (snd kv)) fields ->
  forallb (fun kv => representable (snd kv)) fields = true -> fields <> [] ->
  exists body,
    commas (omap (fun kv => (fun t => quote (fst kv) +:+ ":" +:+ t) <$> stringify (snd kv))
                 fields) = String dquote body
    /\ list_sum (map (fun kv => nodes (snd kv)) fields) <= String.length body
    /\ forall fuel rest,
        1 + 2 * list_sum (map (fun kv => nodes (snd kv)) fields) <= fuel ->
        parse_members fuel (String dquote body +:+ String "}" rest) = Some (fields, rest).
Proof.
  induction 1 as [|[k v] l Hv Hl IH]; intros Hrep Hne; [congruence|].
  cbn [forallb snd] in Hrep. apply andb_true_iff in Hrep as [Rv Rl].
  cbn [snd] in Hv. destruct (Hv Rv) as (tv & Etv & Sv & Lv & Pv). destruct l as [|m l'].
  - exists (quote_body k +:+ String dquote (":" +:+ tv)). split; [|split].
    + cbn [omap list_omap fst snd]. rewrite Etv. cbn [fmap option_fmap option_map commas].
      apply quote_app.
    + rewrite append_length. cbn [map list_sum fold_right snd String.length String.append]. lia.
    + intros fuel rest Hf. cbn [map list_sum fold_right snd] in Hf.
      destruct fuel as [|f]; [lia|].
      cbn [String.append]. rewrite !append_assoc. cbn [String.append].
      cbn [parse_members]. change (skip_ws (String dquote ?t)) with (String dquote t).
      cbn match. change (Ascii.eqb dquote dquote) with true. cbn match.
      rewrite scan_string_quote_body, decode_units_unit_of.
      change (skip_ws (String ":" ?t)) with (String ":" t).
      cbn match. change (Ascii.eqb ":" ":") with true. cbn match.
      rewrite Pv by (reflexivity || lia). reflexivity.
  - destruct IH as (body & Eb & Lb & Pb); [exact Rl | discriminate |].
    exists (quote_body k +:+ String dquote (":" +:+ tv +:+ "," +:+ String dquote body)).
    split; [|split].
    + change (omap ?F ((k, v) :: m :: l'))
        with (match F (k, v) with Some y => y :: omap F (m :: l') | None => omap F (m :: l') end).
      cbn [fst snd]. rewrite Etv. cbn [fmap option_fmap option_map].
      destruct (omap _ (m :: l')) as [|y ys] eqn:Eo; [discriminate Eb|].
      change (commas (?a :: y :: ys)) with (a +:+ "," +:+ commas (y :: ys)).
      rewrite Eb, !append_assoc. apply quote_app.
    + rewrite append_length. cbn [String.length String.append]. rewrite append_length.
      cbn [map list_sum fold_right snd String.length String.append] in Lb |- *. lia.
    + intros fuel rest Hf. cbn [map list_sum fold_right snd] in Hf.
      pose proof (nodes_pos v).
      destruct fuel as [|f]; [lia|].
      cbn [String.append]. rewrite !append_assoc. cbn [String.append].
      cbn [parse_members]. change (skip_ws (String dquote ?t)) with (String dquote t).
      cbn match. change (Ascii.eqb dquote dquote) with true. cbn match.
      rewrite scan_string_quote_body, decode_units_unit_of.
      change (skip_ws (String ":" ?t)) with (String ":" t).
      cbn match. change (Ascii.eqb ":" ":") with true. cbn match.
      rewrite !append_assoc. rewrite Pv by (reflexivity || lia).
      cbn [String.append]. change (skip_ws (String "," ?t)) with (String "," t).
      cbn match. change (Ascii.eqb "," ",") with true. cbn match.
      change (String dquote (body +:+ String "}" rest))
        with (String dquote body +:+ String "}" rest).
      rewrite Pb by (cbn [map list_sum fold_right]; lia). reflexivity.
Qed.

Lemma set_field_fresh (k : string) (v : JsVal) (acc : list (string * JsVal)) :
  existsb (String.eqb k) (map fst acc) = false ->
  set_field k v acc = (acc ++ [(k, v)])%list.
Proof.
  induction acc as [|[k' v'] acc IH]; [reflexivity|].
  cbn [map fst existsb set_field]. intros H. apply orb_false_iff in H as [E R].
  rewrite E. cbn [app]. now rewrite IH.
Qed.

Lemma build_object_from (fields acc : list (string * JsVal)) :
  distinct (map fst fields) = true ->
  (forall k, In k (map fst fields) -> existsb (String.eqb k) (map fst acc) = false) ->
  fold_left (fun a kv => set_field (fst kv) (snd kv) a) fields acc = (acc ++ fields)%list.
Proof.
  revert acc. induction fields as [|[k v] l IH]; intros acc Hd Hfresh.
  - cbn [fold_left]. now rewrite app_nil_r.
  - cbn [map fst distinct] in Hd. apply andb_true_iff in Hd as [Hk Hl].
    apply negb_true_iff in Hk.
    cbn [fold_left fst snd]. rewrite set_field_fresh by (apply Hfresh; now left).
    rewrite IH; [now rewrite <- app_assoc | exact Hl |].
    intros k' Hin. rewrite map_app, existsb_app. cbn [map fst existsb].
    rewrite (Hfresh k') by (now right). rewrite orb_false_r. cbn [orb].
    destruct (String.eqb k' k) eqn:E; [|reflexivity].
    apply String.eqb_eq in E. subst k'.
    assert (existsb (String.eqb k) (map fst l) = true) as Hex; [|congruence].
    apply existsb_exists. exists k. split; [exact Hin | apply String.eqb_refl].
Qed.

Lemma build_object_distinct (fields : list (string * JsVal)) :
  distinct (map fst fields) = true -> build_object fields = fields.
Proof.
  intros Hd. unfold build_object. now rewrite build_object_from.
Qed.

(** Every JSON value is read back from its text. *)
Lemma value_reads_back (v : JsVal) : reads_back v.
Proof.
  induction v as [| |b|lit|s|items IH|fields IH] using JsVal_nested_ind;
    intros Hrep; try discriminate Hrep.
  - exists "null". repeat split; [cbn; lia|].
    intros [|f] rest Hf _; [cbn in Hf; lia | reflexivity].
  - destruct b.
    + exists "true". repeat split; [cbn; lia|].
      intros [|f] rest Hf _; [cbn in Hf; lia | reflexivity].
    + exists "false". repeat split; [cbn; lia|].
      intros [|f] rest Hf _; [cbn in Hf; lia | reflexivity].
  - cbn [representable] in Hrep.
    destruct (scan_number lit) as [[l [|c t]]|] eqn:E; try discriminate Hrep.
    apply String.eqb_eq in Hrep. subst l.
    destruct (scan_number_head _ _ _ E) as (c & r & -> & Hc).
    exists (String c r). split; [reflexivity|]. split; [now apply number_start|].
    split; [cbn; lia|].
    intros [|f] rest Hf Hstop; [cbn in Hf; lia |].
    cbn [String.append]. rewrite parse_value_number by exact Hc.
    change (String c (r +:+ rest)) with (String c r +:+ rest).
    rewrite (scan_number_app _ _ _ _ (value_stops_number _ Hstop) E). reflexivity.
  - exists (quote s). split; [reflexivity|]. split; [reflexivity|].
    split; [cbn; lia|].
    intros [|f] rest Hf _; [cbn in Hf; lia |].
    rewrite quote_app. cbn [parse_value].
    change (skip_ws (String dquote ?t)) with (String dquote t).
    cbn match. change (Ascii.eqb dquote ?c) with false at 1 2.
    change (Ascii.eqb dquote dquote) with true. cbn match.
    now rewrite scan_string_quote_body, decode_units_unit_of.
  - cbn [representable] in Hrep. destruct items as [|x l].
    + exists "[]". repeat split; [cbn; lia|].
      intros [|f] rest Hf _; [cbn in Hf; lia | reflexivity].
    + destruct (parse_elements_commas _ IH Hrep) as (body & Eb & Sb & Lb & Pb); [discriminate|].
      exists ("[" +:+ body +:+ "]"). split; [|split; [reflexivity|split]].
      * cbn [stringify]. now rewrite Eb.
      * cbn [nodes String.append String.length]. rewrite append_length. lia.
      * intros [|f] rest Hf _; [cbn in Hf; lia |].
        cbn [String.append]. rewrite append_assoc. cbn [String.append].
        destruct body as [|c body']; [discriminate Sb|].
        destruct (value_start_facts _ Sb) as (Hws & Hb & _).
        cbn [parse_value]. change (skip_ws (String "[" ?t)) with (String "[" t).
        cbn match. change (Ascii.eqb "[" "[") with true. cbn match.
        cbn [String.append skip_ws]. rewrite Hws, Hb.
        change (String c (body' +:+ String "]" rest))
          with (String c body' +:+ String "]" rest).
        rewrite Pb by (cbn [nodes] in Hf; lia). reflexivity.
  - cbn [representable] in Hrep. apply andb_true_iff in Hrep as [Hrep Hd].
    destruct fields as [|kv l].
    + exists "{}". repeat split; [cbn; lia|].
      intros [|f] rest Hf _; [cbn in Hf; lia | reflexivity].
    + destruct (parse_members_commas _ IH Hrep) as (body & Eb & Lb & Pb); [discriminate|].
      exists ("{" +:+ String dquote body +:+ "}"). split; [|split; [reflexivity|split]].
      * cbn [stringify]. now rewrite Eb.
      * cbn [nodes String.append String.length]. rewrite append_length. lia.
      * intros [|f] rest Hf _; [cbn in Hf; lia |].
        cbn [String.append]. rewrite append_assoc. cbn [String.append].
        cbn [parse_value]. change (skip_ws (String "{" ?t)) with (String "{" t).
        cbn match. change (Ascii.eqb "{" "[") with false.
        change (Ascii.eqb "{" "{") with true. cbn match.
        change (skip_ws (String dquote ?t)) with (String dquote t).
        cbn match. change (Ascii.eqb dquote "}") with false. cbn match.
        change (String dquote (body +:+ String "}" rest))
          with (String dquote body +:+ String "}" rest).
        rewrite Pb by (cbn [nodes] in Hf; lia).
        now rewrite build_object_distinct.
Qed.

(** [JSON.parse(JSON.stringify(v))] is [v], for every JSON value [v]. *)
Lemma JSON_parse_stringify (v : JsVal) :
  representable v = true ->
  exists text, stringify v = Some text /\ JSON_parse text = Some v.
Proof.
  intros Hrep. destruct (value_reads_back v Hrep) as (text & Et & _ & Hlen & Hp).
  exists text. split; [exact Et|]. unfold JSON_parse.
  rewrite <- (append_empty_r text) at 2.
  rewrite Hp by (reflexivity || lia). reflexivity.
Qed.

End JsonText.

(** ** The active path *)

Section HistoryFacts.
Import History.
Implicit Types (index : gmap string ChatHubMessage.t) (cur : option string).

Lemma messageIndex_lookup (messages : list ChatHubMessage.t) (i : string) (m : ChatHubMessage.t) :
  messageIndex messages !! i = Some m -> ChatHubMessage.id m = i /\ In m messages.
Proof.
  unfold messageIndex. intros H. apply elem_of_list_to_map_2 in H.
  apply list_elem_of_fmap in H as (m' & [= -> ->] & Hin).
  split; [reflexivity | now apply list_elem_of_In].
Qed.

Lemma walk_more index (b b' : nat) cur (up : list ChatHubMessage.t) :
  walk index b cur = inr up -> b <= b' -> walk index b' cur = inr up.
Proof.
  revert b' cur up. induction b as [|b IH]; intros b' cur up H Hle.
  - destruct cur as [i|]; [|destruct b'; exact H].
    cbn [walk] in H. destruct (index !! i) eqn:E; [discriminate|].
    destruct b'; cbn [walk]; now rewrite E.
  - destruct b' as [|b']; [lia|]. destruct cur as [i|]; [|exact H].
    cbn [walk] in *. destruct (index !! i) as [m|]; [|exact H].
    destruct (walk index b (ChatHubMessage.parentId m)) as [e|up'] eqn:E; [discriminate|].
    rewrite (IH b' _ up' E) by lia. exact H.
Qed.

Lemma walk_same index (b1 b2 : nat) cur (u1 u2 : list ChatHubMessage.t) :
  walk index b1 cur = inr u1 -> walk index b2 cur = inr u2 -> u1 = u2.
Proof.
  intros H1 H2.
  apply (walk_more _ _ (Nat.max b1 b2)) in H1; [|lia].
  apply (walk_more _ _ (Nat.max b1 b2)) in H2; [|lia]. congruence.
Qed.

Lemma walk_error index (b : nat) cur (e : Error) :
  walk index b cur = inl e -> e = corruption.
Proof.
  revert cur e. induction b as [|b IH]; intros [i|] e H; cbn [walk] in H; try discriminate;
    destruct (index !! i) as [m|]; try discriminate.
  - congruence.
  - destruct (walk index b (ChatHubMessage.parentId m)) as [e'|up] eqn:E; [|discriminate].
    apply IH in E. congruence.
Qed.

(** The budget a walk needs is the number of messages it visits. *)
Lemma walk_length index (b : nat) cur (up : list ChatHubMessage.t) :
  walk index b cur = inr up -> walk index (length up) cur = inr up.
Proof.
  revert cur up. induction b as [|b IH]; intros [i|] up H; cbn [walk] in H.
  - destruct (index !! i) eqn:E; [discriminate|]. injection H as <-. cbn. now rewrite E.
  - now injection H as <-.
  - destruct (index !! i) as [m|] eqn:E.
    + destruct (walk index b (ChatHubMessage.parentId m)) as [e|up'] eqn:W; [discriminate|].
      injection H as <-. cbn [length walk]. rewrite E, (IH _ _ W). reflexivity.
    + injection H as <-. cbn. now rewrite E.
  - now injection H as <-.
Qed.

Lemma walk_cons index (b : nat) cur (m : ChatHubMessage.t) (up : list ChatHubMessage.t) :
  walk index b cur = inr (m :: up) ->
  exists i b', cur = Some i /\ b = S b' /\ index !! i = Some m
               /\ walk index b' (ChatHubMessage.parentId m) = inr up.
Proof.
  destruct b as [|b']; (destruct cur as [i|]; [|discriminate]); cbn [walk];
    (destruct (index !! i) as [m0|] eqn:E; [|discriminate]); [discriminate|].
  destruct (walk index b' (ChatHubMessage.parentId m0)) as [e|up'] eqn:W; [discriminate|].
  intros [= -> ->]. now exists i, b'.
Qed.

Lemma walk_nil index (b : nat) cur :
  walk index b cur = inr [] ->
  match cur with Some i => parentOf index i | None => None end = None.
Proof.
  destruct cur as [i|]; [|reflexivity]. unfold parentOf.
  destruct b as [|b']; cbn [walk]; (destruct (index !! i) as [m|]; [|reflexivity]);
    [discriminate|].
  destruct (walk index b' (ChatHubMessage.parentId m)); discriminate.
Qed.

Lemma reachesRoot_walk index cur :
  reachesRoot index cur -> exists b up, walk index b cur = inr up.
Proof.
  induction 1 as [|i m Hi _ (b & up & IH)].
  - now exists 0, (@nil ChatHubMessage.t).
  - exists (S b), (m :: up). cbn [walk]. now rewrite Hi, IH.
Qed.

Lemma ancestor_None index (n : nat) : ancestor index n None = None.
Proof. induction n as [|n IH]; [reflexivity | exact IH]. Qed.

Lemma ancestor_add index (a b : nat) cur :
  ancestor index (a + b) cur = ancestor index b (ancestor index a cur).
Proof.
  revert cur. induction a as [|a IH]; intros cur; [reflexivity|].
  cbn [Nat.add ancestor]. apply IH.
Qed.

Lemma ancestor_ends index (n n' : nat) cur :
  ancestor index n cur = None -> n <= n' -> ancestor index n' cur = None.
Proof.
  intros H Hle. replace n' with (n + (n' - n)) by lia.
  now rewrite ancestor_add, H, ancestor_None.
Qed.

Lemma ancestor_cycle index (k j : nat) (x : string) :
  ancestor index k (Some x) = Some x -> ancestor index (j * k) (Some x) = Some x.
Proof.
  intros H. induction j as [|j IH]; [reflexivity|].
  cbn [Nat.mul]. now rewrite ancestor_add, H.
Qed.

(** A walk that succeeds has left the messages after as many steps as it
    visited messages, and one more. *)
Lemma walk_ancestor index (b : nat) cur (up : list ChatHubMessage.t) :
  walk index b cur = inr up -> ancestor index (S (length up)) cur = None.
Proof.
  revert b cur. induction up as [|m up IH]; intros b cur H.
  - cbn [length ancestor]. now apply walk_nil in H.
  - apply walk_cons in H as (i & b' & -> & -> & Hi & W).
    cbn [length]. change (ancestor index (S (S (length up))) (Some i))
      with (ancestor index (S (length up)) (parentOf index i)).
    unfold parentOf. rewrite Hi. now apply (IH b').
Qed.

(** The cycle check: a walk that meets a cycle fails, whatever its budget. *)
Lemma walk_cycle index (b : nat) (h : string) :
  cycleFrom index h -> walk index b (Some h) = inl corruption.
Proof.
  intros (x & n & k & Hn & Hk & Hx).
  destruct (walk index b (Some h)) as [e|up] eqn:W.
  - f_equal. now apply walk_error in W.
  - exfalso. apply walk_ancestor in W.
    apply (ancestor_ends _ _ (n + S (length up) * k)) in W; [|nia].
    rewrite ancestor_add, Hn, (ancestor_cycle _ _ _ _ Hx) in W. discriminate.
Qed.

Section Keyed.
Variable index : gmap string ChatHubMessage.t.
Hypothesis keyed : forall i m, index !! i = Some m -> ChatHubMessage.id m = i.

(** What follows a message in a walk is the walk from that message. *)
Lemma walk_suffix (b : nat) cur (l1 l2 : list ChatHubMessage.t) (m : ChatHubMessage.t) :
  walk index b cur = inr (l1 ++ m :: l2) ->
  index !! ChatHubMessage.id m = Some m
  /\ walk index b (Some (ChatHubMessage.id m)) = inr (m :: l2).
Proof.
  revert b cur. induction l1 as [|x l1 IH]; intros b cur H.
  - cbn [app] in H. pose proof H as H0.
    apply walk_cons in H as (i & b' & -> & -> & Hi & W).
    rewrite (keyed _ _ Hi). now split.
  - cbn [app] in H. apply walk_cons in H as (i & b' & -> & -> & Hi & W).
    apply IH in W as [Hm W]. split; [exact Hm|].
    apply (walk_more _ _ _ _ _ W). lia.
Qed.

Lemma walk_NoDup (b : nat) cur (up : list ChatHubMessage.t) :
  walk index b cur = inr up -> List.NoDup (map ChatHubMessage.id up).
Proof.
  revert b cur. induction up as [|m up IH]; intros b cur H; [constructor|].
  pose proof H as H0. apply walk_cons in H as (i & b' & -> & -> & Hi & W).
  cbn [map]. constructor; [|now apply (IH b' _ W)].
  intros Hin. apply in_map_iff in Hin as (m' & Hid & Hm').
  apply in_split in Hm' as (l1 & l2 & ->).
  destruct (walk_suffix _ _ _ _ _ W) as [_ W'].
  rewrite Hid, (keyed _ _ Hi) in W'.
  pose proof (walk_same _ _ _ _ _ _ H0 W') as E.
  injection E as _ E. apply (f_equal (@length _)) in E.
  rewrite length_app in E. cbn [length] in E. lia.
Qed.

Lemma walk_members (b : nat) cur (up : list ChatHubMessage.t) (m : ChatHubMessage.t) :
  walk index b cur = inr up -> In m up -> index !! ChatHubMessage.id m = Some m.
Proof.
  intros W Hin. apply in_split in Hin as (l1 & l2 & ->).
  now destruct (walk_suffix _ _ _ _ _ W).
Qed.

End Keyed.

Lemma later_In (messages : list ChatHubMessage.t) (acc : option ChatHubMessage.t)
    (m : ChatHubMessage.t) :
  fold_left later messages acc = Some m -> In m messages \/ acc = Some m.
Proof.
  revert acc. induction messages as [|x l IH]; intros acc H; [now right|].
  cbn [fold_left] in H. apply IH in H as [H|H]; [left; now right|].
  unfold later in H. destruct acc as [a|].
  - destruct (_ <=? _); injection H as <-; [left; now left | now right].
  - injection H as <-. left; now left.
Qed.

Lemma latest_In (messages : list ChatHubMessage.t) (m : ChatHubMessage.t) :
  latest messages = Some m -> In m messages.
Proof. intros H. apply later_In in H as [H|H]; [exact H | discriminate]. Qed.

(** On a valid forest the walk ends within its budget, and visits each
    message at most once. *)
Lemma buildMessageHistory_forest (messages : list ChatHubMessage.t) (head : option string) :
  validForest messages ->
  exists path,
    buildMessageHistory messages head = inr path
    /\ List.NoDup (map ChatHubMessage.id path)
    /\ (forall m, In m path -> In m messages)
    /\ length path <= length messages.
Proof.
  intros [_ Hroot]. unfold buildMessageHistory.
  set (index := messageIndex messages). set (cur := headOf messages head).
  assert (keyed : forall i m, index !! i = Some m -> ChatHubMessage.id m = i).
  { intros i m H. now apply messageIndex_lookup in H. }
  assert (exists b up, walk index b cur = inr up) as (b & up & W).
  { destruct cur as [h|] eqn:Ec; [|now exists 0, (@nil ChatHubMessage.t)].
    destruct (index !! h) as [m|] eqn:Eh.
    - apply reachesRoot_walk. apply messageIndex_lookup in Eh as [<- Hin]. now apply Hroot.
    - exists 0, (@nil ChatHubMessage.t). cbn [walk]. now rewrite Eh. }
  pose proof (walk_NoDup _ keyed _ _ _ W) as Hnd.
  assert (Hin : forall m, In m up -> In m messages).
  { intros m Hm. apply (walk_members _ keyed _ _ _ _ W) in Hm.
    now apply messageIndex_lookup in Hm. }
  assert (Hlen : length up <= length messages).
  { rewrite <- (length_map ChatHubMessage.id up), <- (length_map ChatHubMessage.id messages).
    apply NoDup_incl_length; [exact Hnd|].
    intros i Hi. apply in_map_iff in Hi as (m & <- & Hm). apply in_map. now apply Hin. }
  apply walk_length in W. rewrite (walk_more _ _ _ _ _ W Hlen).
  exists (rev up). split; [reflexivity|]. split; [|split].
  - rewrite map_rev. now apply NoDup_rev.
  - intros m Hm. apply Hin. now apply in_rev.
  - now rewrite length_rev.
Qed.

Lemma buildMessageHistory_cycle (messages : list ChatHubMessage.t) (head : option string)
    (h : string) :
  headOf messages head = Some h -> cycleFrom (messageIndex messages) h ->
  buildMessageHistory messages head = inl corruption.
Proof.
  intros Hh Hc. unfold buildMessageHistory. rewrite Hh.
  now rewrite (walk_cycle _ _ _ Hc).
Qed.

(** The ids on the path a successful resolution returns are distinct. *)
Lemma buildMessageHistory_NoDup (messages : list ChatHubMessage.t) (head : option string)
    (path : list ChatHubMessage.t) :
  buildMessageHistory messages head = inr path -> List.NoDup (map ChatHubMessage.id path).
Proof.
  unfold buildMessageHistory.
  destruct (walk _ _ _) as [e|up] eqn:W; [discriminate|]. intros [= <-].
  rewrite map_rev. apply NoDup_rev.
  apply (walk_NoDup (messageIndex messages)) in W; [exact W|].
  intros i m H. now apply messageIndex_lookup in H.
Qed.

End HistoryFacts.

(** ** Programs *)

Section ProgFacts.
Import Repo.

Lemma run_bind {A B : Type} (p : Prog A) (f : A -> Prog B) (w : World) :
  run (bind p f) w
  = match run p w with
    | (inr a, w') => run (f a) w'
    | (inl e, w') => (inl e, w')
    end.
Proof.
  revert w. induction p as [a|e|c k IH]; intros w; cbn [bind run]; try reflexivity.
  destruct (perform c w) as [[e|r] w']; [reflexivity | apply IH].
Qed.

Lemma run_op_bind {St A B : Type} (p : Op St A) (f : A -> Op St B) (st : St) (w : World) :
  run ((p ≫= f) st) w
  = match run (p st) w with
    | (inr (a, st'), w') => run (f a st') w'
    | (inl e, w') => (inl e, w')
    end.
Proof.
  unfold mbind, Op_bind. rewrite run_bind.
  now destruct (run (p st) w) as [[e|[a st']] w'].
Qed.

Lemma memoryCalls_record (c : Cmd) (w : World) :
  memoryCalls (record c w)
  = (memoryCalls w ++ (if isMemoryCall c then [c] else []))%list.
Proof.
  unfold memoryCalls, record. cbn [calls]. rewrite List.filter_app. cbn [List.filter].
  now destruct (isMemoryCall c).
Qed.

End ProgFacts.

(** ** The service keyed by turn id *)

Section TurnFacts.
Import Js Repo Proxy.
#[local] Arguments History.buildMessageHistory : simpl never.
#[local] Arguments History.extractTurnIds : simpl never.
#[local] Arguments History.extractHumanMessageIds : simpl never.
#[local] Arguments messagesOf : simpl never.
#[local] Arguments memoryOf : simpl never.
#[local] Arguments record : simpl never.
#[local] Arguments appended : simpl never.
#[local] Arguments drawn : simpl never.

Variables (sid nid : string) (owner : string) (wf : option string) (agent : string).

(** With a turn id, a session without messages has no memory to read. *)
Lemma turn_getMemory_no_messages (t tid : string) (w : World) :
  messagesOf sid w = [] ->
  run (getMemory (TurnScheme.operations sid nid (Some t) tid owner wf agent) tt) w
  = (inr ([], tt), record (getManyBySessionId sid) w).
Proof.
  intros H. cbn. change (messagesOf sid (record ?c w)) with (messagesOf sid w).
  now rewrite H.
Qed.

(** With a turn id and no turn on the active path, there is no memory to read. *)
Lemma turn_getMemory_no_turns (t tid : string) (w : World) (chain : list ChatHubMessage.t) :
  History.buildMessageHistory (messagesOf sid w) None = inr chain ->
  History.extractTurnIds chain = [] ->
  run (getMemory (TurnScheme.operations sid nid (Some t) tid owner wf agent) tt) w
  = (inr ([], tt), record (getManyBySessionId sid) w).
Proof.
  intros Hc Ht. cbn. change (messagesOf sid (record ?c w)) with (messagesOf sid w).
  destruct (messagesOf sid w) as [|m l] eqn:E; [reflexivity|].
  rewrite Hc. cbn. now rewrite Ht.
Qed.

(** Without a turn id, the whole history of the node is read. *)
Lemma turn_getMemory_manual (tid : string) (w : World) :
  run (getMemory (TurnScheme.operations sid nid None tid owner wf agent) tt) w
  = (inr (map toEntry (memoryOf sid nid w), tt), record (getAllMemoryForNode sid nid) w).
Proof. reflexivity. Qed.

(** A write appends one row, stamped with the turn id of the object. *)
Lemma turn_write (p : option string) (tid : string) (x : Write) (w : World) :
  exists row w',
    run (write (TurnScheme.operations sid nid p tid owner wf agent) x tt) w = (inr (tt, tt), w')
    /\ memories w' = (memories w ++ [row])%list
    /\ ChatHubMemory.turnId row = Some tid
    /\ ChatHubMemory.sessionId row = sid
    /\ ChatHubMemory.memoryNodeId row = nid.
Proof.
  destruct x; eexists; eexists; (split; [reflexivity|]); cbn; auto.
Qed.

Lemma turn_writeAll (p : option string) (tid : string) (writes : list Write) (w : World) :
  exists rows w',
    run (writeAll (TurnScheme.operations sid nid p tid owner wf agent) writes tt) w
    = (inr (tt, tt), w')
    /\ memories w' = (memories w ++ rows)%list
    /\ length rows = length writes
    /\ Forall (fun row => ChatHubMemory.turnId row = Some tid
                           /\ ChatHubMemory.sessionId row = sid
                           /\ ChatHubMemory.memoryNodeId row = nid) rows.
Proof.
  revert w. induction writes as [|x l IH]; intros w.
  - exists [], w. cbn. rewrite app_nil_r. repeat split. constructor.
  - destruct (turn_write p tid x w) as (row & w1 & Hrun & Hmem & Ht & Hs & Hn).
    destruct (IH w1) as (rows & w2 & Hrun2 & Hmem2 & Hlen & Hall).
    exists (row :: rows), w2.
    cbn [writeAll]. rewrite run_op_bind, Hrun, Hrun2. split; [reflexivity|].
    split; [|split].
    + rewrite Hmem2, Hmem, <- app_assoc. reflexivity.
    + cbn [length]. now rewrite Hlen.
    + constructor; [auto | exact Hall].
Qed.

End TurnFacts.

(** ** The service keyed by parent message id *)

Section ParentFacts.
Import Js Repo Proxy.
#[local] Arguments History.buildMessageHistory : simpl never.
#[local] Arguments History.extractTurnIds : simpl never.
#[local] Arguments History.extractHumanMessageIds : simpl never.
#[local] Arguments ParentScheme.lookupIds : simpl never.
#[local] Arguments messagesOf : simpl never.
#[local] Arguments memoryOf : simpl never.
#[local] Arguments memoryByParentMessageIds : simpl never.
#[local] Arguments record : simpl never.

Lemma filter_all {A : Type} (f : A -> bool) (l : list A) :
  (forall x, In x l -> f x = true) -> List.filter f l = l.
Proof.
  induction l as [|x l IH]; intros H; [reflexivity|].
  cbn [List.filter]. rewrite (H x) by now left.
  f_equal. apply IH. intros y Hy. apply H. now right.
Qed.

Lemma removeFirst_NoDup (x : string) (l : list string) :
  List.NoDup l ->
  ParentScheme.removeFirst x l = List.filter (fun y => negb (String.eqb y x)) l.
Proof.
  induction 1 as [|y l Hy Hl IH]; [reflexivity|].
  cbn [ParentScheme.removeFirst List.filter]. destruct (String.eqb y x) eqn:E; cbn [negb].
  - apply String.eqb_eq in E. subst y. symmetry. apply filter_all.
    intros z Hz. apply negb_true_iff, String.eqb_neq. intros ->. contradiction.
  - now rewrite IH.
Qed.

Lemma dedup_NoDup (l : list string) : List.NoDup l -> History.dedup l = l.
Proof.
  induction 1 as [|x l Hx Hl IH]; [reflexivity|].
  cbn [History.dedup]. rewrite IH. f_equal. apply filter_all.
  intros y Hy. apply negb_true_iff, String.eqb_neq. intros ->. contradiction.
Qed.

Lemma humanIdsOnPath_NoDup (path : list ChatHubMessage.t) :
  List.NoDup (map ChatHubMessage.id path) ->
  List.NoDup (ParentScheme.humanIdsOnPath path).
Proof.
  unfold ParentScheme.humanIdsOnPath.
  induction path as [|m l IH]; cbn [map List.filter]; intros H; [constructor|].
  apply NoDup_cons_iff in H as [Hm Hl]. destruct (String.eqb _ _); [|now apply IH].
  cbn [map]. constructor; [|now apply IH].
  intros Hin. apply Hm. apply in_map_iff in Hin as (m' & E & Hm').
  apply filter_In in Hm' as [Hm' _]. apply in_map_iff. now exists m'.
Qed.

(** On a resolved path, the ids the code filters by are the filter set. *)
Lemma lookupIds_filterSet (messages : list ChatHubMessage.t) (head : option string)
    (path : list ChatHubMessage.t) (exclude : bool) (pid : string) :
  History.buildMessageHistory messages head = inr path ->
  ParentScheme.lookupIds exclude pid (History.extractHumanMessageIds path)
  = ParentScheme.filterSet exclude pid path.
Proof.
  intros H. apply buildMessageHistory_NoDup, humanIdsOnPath_NoDup in H.
  unfold History.extractHumanMessageIds. fold (ParentScheme.humanIdsOnPath path).
  rewrite (dedup_NoDup _ H). unfold ParentScheme.lookupIds, ParentScheme.filterSet.
  destruct exclude; [now apply removeFirst_NoDup|].
  destruct (existsb _ _) eqn:E.
  - rewrite bool_decide_eq_true_2; [reflexivity|].
    apply existsb_exists in E as (y & Hy & E). apply String.eqb_eq in E. subst y.
    now apply list_elem_of_In.
  - rewrite bool_decide_eq_false_2; [reflexivity|].
    intros Hin. assert (existsb (String.eqb pid) (ParentScheme.humanIdsOnPath path) = true)
      as E'; [|congruence].
    apply existsb_exists. exists pid.
    split; [now apply list_elem_of_In | apply String.eqb_refl].
Qed.

Variables (sid nid : string) (exclude : bool) (owner : string) (wf : option string)
  (agent : string).

Lemma resolveParentMessageId_run (cl : ParentScheme.Closure) (w : World) :
  run (ParentScheme.resolveParentMessageId sid cl) w
  = if ParentScheme.parentMessageIdResolved cl
    then (inr (ParentScheme.resolvedParentMessageId cl, cl), w)
    else
      match History.buildMessageHistory (messagesOf sid w) None with
      | inr chain =>
          (inr (last (History.extractHumanMessageIds chain),
                ParentScheme.mkClosure (last (History.extractHumanMessageIds chain)) true),
           record (getManyBySessionId sid) w)
      | inl e => (inl e, record (getManyBySessionId sid) w)
      end.
Proof.
  unfold ParentScheme.resolveParentMessageId.
  destruct (ParentScheme.parentMessageIdResolved cl); [reflexivity|].
  cbn. change (messagesOf sid (record ?c w)) with (messagesOf sid w).
  now destruct (History.buildMessageHistory _ _).
Qed.

(** Resolving the parent message id reads messages only. *)
Lemma resolveParentMessageId_store (cl cl1 : ParentScheme.Closure) (w w1 : World)
    (r : Error + option string * ParentScheme.Closure) :
  run (ParentScheme.resolveParentMessageId sid cl) w = (r, w1) ->
  messagesOf sid w1 = messagesOf sid w /\ memories w1 = memories w
  /\ memoryCalls w1 = memoryCalls w.
Proof.
  rewrite resolveParentMessageId_run.
  destruct (ParentScheme.parentMessageIdResolved cl).
  - intros [= _ <-]. auto.
  - assert (memoryCalls (record (getManyBySessionId sid) w) = memoryCalls w) as Hc.
    { rewrite memoryCalls_record. cbn. apply app_nil_r. }
    destruct (History.buildMessageHistory _ _); intros [= _ <-]; auto.
Qed.

(** What [getMemory] does once the parent message id is known. *)
Lemma parent_getMemory_run (cl cl1 : ParentScheme.Closure) (w w1 : World) (pid : string)
    (chain : list ChatHubMessage.t) :
  run (ParentScheme.resolveParentMessageId sid cl) w = (inr (Some pid, cl1), w1) ->
  pid <> EmptyString ->
  History.buildMessageHistory (messagesOf sid w1) (Some pid) = inr chain ->
  run (getMemory (ParentScheme.makeChatHubOperations sid nid exclude owner wf agent) cl) w
  = match ParentScheme.lookupIds exclude pid (History.extractHumanMessageIds chain) with
    | [] => (inr ([], cl1), record (getManyBySessionId sid) w1)
    | ids =>
        (inr (map toEntry (memoryByParentMessageIds sid nid ids w1), cl1),
         record (getMemoryByParentMessageIds sid nid ids) (record (getManyBySessionId sid) w1))
    end.
Proof.
  intros Hres Hpid Hchain.
  change (getMemory (ParentScheme.makeChatHubOperations sid nid exclude owner wf agent) cl)
    with (ParentScheme.getMemory sid nid exclude cl).
  unfold ParentScheme.getMemory.
  rewrite run_op_bind, Hres. cbn [truthy].
  apply String.eqb_neq in Hpid. rewrite Hpid.
  unfold mbind, Op_bind, pure. cbn.
  change (messagesOf sid (record ?c w1)) with (messagesOf sid w1).
  rewrite Hchain. cbn.
  now destruct (ParentScheme.lookupIds _ _ _).
Qed.

End ParentFacts.

(** * The claims *)

Section MemoryClaims.
Import Js Repo Proxy.
#[local] Arguments History.buildMessageHistory : simpl never.
#[local] Arguments History.extractTurnIds : simpl never.
#[local] Arguments History.extractHumanMessageIds : simpl never.
#[local] Arguments ParentScheme.lookupIds : simpl never.
#[local] Arguments messagesOf : simpl never.
#[local] Arguments memoryOf : simpl never.
#[local] Arguments memoryByParentMessageIds : simpl never.
#[local] Arguments record : simpl never.

(** C1: in the parent-message scheme, [getMemory] filters the memory by the
    ids of the human messages on the active path, in path order; when the
    call is marked as a regeneration the current parent message id is
    removed from them, and otherwise it is appended when absent.  So a
    regeneration leaves out the anchor of the turn being regenerated and
    keeps the anchors of the turns before it. *)
Theorem getMemory_filters_by_human_ids
    (sid nid : string) (exclude : bool) (owner : string) (wf : option string) (agent : string)
    (cl cl1 : ParentScheme.Closure) (w w1 : World) (pid : string)
    (path : list ChatHubMessage.t) :
  run (ParentScheme.resolveParentMessageId sid cl) w = (inr (Some pid, cl1), w1) ->
  pid <> EmptyString ->
  History.buildMessageHistory (messagesOf sid w1) (Some pid) = inr path ->
  run (getMemory (ParentScheme.makeChatHubOperations sid nid exclude owner wf agent) cl) w
  = match ParentScheme.filterSet exclude pid path with
    | [] => (inr ([], cl1), record (getManyBySessionId sid) w1)
    | ids =>
        (inr (map toEntry (memoryByParentMessageIds sid nid ids w1), cl1),
         record (getMemoryByParentMessageIds sid nid ids) (record (getManyBySessionId sid) w1))
    end
  /\ (exclude = true ->
      ~ In pid (ParentScheme.filterSet exclude pid path)
      /\ forall i, i <> pid -> In i (ParentScheme.humanIdsOnPath path) ->
                   In i (ParentScheme.filterSet exclude pid path))
  /\ (exclude = false ->
      In pid (ParentScheme.filterSet exclude pid path)
      /\ forall i, In i (ParentScheme.humanIdsOnPath path) ->
                   In i (ParentScheme.filterSet exclude pid path)).
Proof.
  intros Hres Hpid Hpath. split; [|split].
  - rewrite (parent_getMemory_run _ _ _ _ _ _ _ _ _ _ _ _ Hres Hpid Hpath).
    now rewrite (lookupIds_filterSet _ _ _ _ _ Hpath).
  - intros ->. unfold ParentScheme.filterSet. split.
    + intros Hin. apply filter_In in Hin as [_ Hin].
      now rewrite String.eqb_refl in Hin.
    + intros i Hi Hin. apply filter_In. split; [exact Hin|].
      now apply negb_true_iff, String.eqb_neq.
  - intros ->. unfold ParentScheme.filterSet. case_bool_decide as Hd.
    + split; [now apply list_elem_of_In | auto].
    + split; [apply in_or_app; right; now left | intros i Hi; apply in_or_app; now left].
Qed.

(** Regenerating T2 on the path T1, T2: the memory of T1 is read, and
    only it. *)
Lemma getMemory_filters_by_human_ids_witness :
  ParentScheme.filterSet true "h2" [Sample.message "h1" None "human" None 1;
                                    Sample.message "a1" (Some "h1") "ai" (Some "t1") 2;
                                    Sample.message "h2" (Some "a1") "human" None 3]
  = ["h1"]
  /\ fst (run (getMemory (ParentScheme.makeChatHubOperations "s1" "n1" true "u1" None "Agent")
                         (ParentScheme.initialClosure (Some "h2"))) Sample.afterTwoTurns)
     = inr ([toEntry (Sample.row "m1" None (Some "h1") "human" "hello" 1);
             toEntry (Sample.row "m2" None (Some "h1") "ai" "hi" 2)],
            ParentScheme.initialClosure (Some "h2")).
Proof.
  split; [reflexivity|].
  destruct (getMemory_filters_by_human_ids "s1" "n1" true "u1" None "Agent"
              (ParentScheme.initialClosure (Some "h2")) (ParentScheme.initialClosure (Some "h2"))
              Sample.afterTwoTurns Sample.afterTwoTurns "h2"
              [Sample.message "h1" None "human" None 1;
               Sample.message "a1" (Some "h1") "ai" (Some "t1") 2;
               Sample.message "h2" (Some "a1") "human" None 3]
              eq_refl ltac:(discriminate) eq_refl) as [Hrun _].
  rewrite Hrun. reflexivity.
Defined.

(** C2: when the correlation ids [getMemory] extracts (the turn ids, or the
    human message ids after the regeneration exclusion) are none, it
    returns no entry and makes no call on the memory repository. *)
Theorem getMemory_no_ids_no_query :
  (forall (sid nid t tid owner : string) (wf : option string) (agent : string) (w : World)
          (path : list ChatHubMessage.t),
      History.buildMessageHistory (messagesOf sid w) None = inr path ->
      History.extractTurnIds path = [] ->
      run (getMemory (TurnScheme.operations sid nid (Some t) tid owner wf agent) tt) w
      = (inr ([], tt), record (getManyBySessionId sid) w)
      /\ memoryCalls (record (getManyBySessionId sid) w) = memoryCalls w)
  /\
  (forall (sid nid : string) (exclude : bool) (owner : string) (wf : option string)
          (agent : string) (cl cl1 : ParentScheme.Closure) (w w1 : World) (pid : string)
          (path : list ChatHubMessage.t),
      run (ParentScheme.resolveParentMessageId sid cl) w = (inr (Some pid, cl1), w1) ->
      pid <> EmptyString ->
      History.buildMessageHistory (messagesOf sid w1) (Some pid) = inr path ->
      ParentScheme.lookupIds exclude pid (History.extractHumanMessageIds path) = [] ->
      run (getMemory (ParentScheme.makeChatHubOperations sid nid exclude owner wf agent) cl) w
      = (inr ([], cl1), record (getManyBySessionId sid) w1)
      /\ memoryCalls (record (getManyBySessionId sid) w1) = memoryCalls w).
Proof.
  split.
  - intros sid nid t tid owner wf agent w path Hpath Hids. split.
    + now apply (turn_getMemory_no_turns _ _ _ _ _ _ _ _ path).
    + rewrite memoryCalls_record. apply app_nil_r.
  - intros sid nid exclude owner wf agent cl cl1 w w1 pid path Hres Hpid Hpath Hids. split.
    + rewrite (parent_getMemory_run _ _ _ _ _ _ _ _ _ _ _ _ Hres Hpid Hpath).
      now rewrite Hids.
    + rewrite memoryCalls_record. cbn [isMemoryCall]. rewrite app_nil_r.
      now apply resolveParentMessageId_store in Hres as (_ & _ & ->).
Qed.

(** The first turn of a new session, in both schemes: the turn has no
    answer yet, and regenerating it leaves no anchor. *)
Lemma getMemory_no_ids_no_query_witness :
  run (getMemory (TurnScheme.operations "s1" "n1" (Some "t1") "t1" "u1" None "Agent") tt)
      (Sample.store Sample.firstMessage Sample.twoTurnsMemory [])
  = (inr ([], tt),
     record (getManyBySessionId "s1") (Sample.store Sample.firstMessage Sample.twoTurnsMemory []))
  /\
  run (getMemory (ParentScheme.makeChatHubOperations "s1" "n1" true "u1" None "Agent")
                 (ParentScheme.initialClosure (Some "h1")))
      (Sample.store Sample.firstMessage Sample.twoTurnsMemory [])
  = (inr ([], ParentScheme.initialClosure (Some "h1")),
     record (getManyBySessionId "s1") (Sample.store Sample.firstMessage Sample.twoTurnsMemory [])).
Proof.
  split.
  - apply (proj1 getMemory_no_ids_no_query "s1" "n1" "t1" "t1" "u1" None "Agent"
             (Sample.store Sample.firstMessage Sample.twoTurnsMemory [])
             Sample.firstMessage); reflexivity.
  - apply (proj2 getMemory_no_ids_no_query "s1" "n1" true "u1" None "Agent"
             (ParentScheme.initialClosure (Some "h1")) (ParentScheme.initialClosure (Some "h1"))
             (Sample.store Sample.firstMessage Sample.twoTurnsMemory [])
             (Sample.store Sample.firstMessage Sample.twoTurnsMemory [])
             "h1" Sample.firstMessage); [reflexivity | discriminate | reflexivity | reflexivity].
Defined.

(** C3, as the code has it: with a turn id, [getMemory] on a session
    without chat messages returns no entry and makes no call on the memory
    repository.  Without a turn id (manual execution) it reads the whole
    memory of the node from the repository, whatever the chat messages are;
    so does the parent-message scheme when no parent message id is given
    and the session has no message to resolve one from. *)
Theorem getMemory_empty_session :
  (forall (sid nid t tid owner : string) (wf : option string) (agent : string) (w : World),
      messagesOf sid w = [] ->
      run (getMemory (TurnScheme.operations sid nid (Some t) tid owner wf agent) tt) w
      = (inr ([], tt), record (getManyBySessionId sid) w)
      /\ memoryCalls (record (getManyBySessionId sid) w) = memoryCalls w)
  /\
  (forall (sid nid tid owner : string) (wf : option string) (agent : string) (w : World),
      run (getMemory (TurnScheme.operations sid nid None tid owner wf agent) tt) w
      = (inr (map toEntry (memoryOf sid nid w), tt), record (getAllMemoryForNode sid nid) w)
      /\ memoryCalls (record (getAllMemoryForNode sid nid) w)
         = (memoryCalls w ++ [getAllMemoryForNode sid nid])%list)
  /\
  (forall (sid nid : string) (exclude : bool) (owner : string) (wf : option string)
          (agent : string) (w : World),
      messagesOf sid w = [] ->
      run (getMemory (ParentScheme.makeChatHubOperations sid nid exclude owner wf agent)
                     (ParentScheme.initialClosure None)) w
      = (inr (map toEntry (memoryOf sid nid w), ParentScheme.mkClosure None true),
         record (getAllMemoryForNode sid nid) (record (getManyBySessionId sid) w))).
Proof.
  split; [|split].
  - intros sid nid t tid owner wf agent w H. split.
    + now apply turn_getMemory_no_messages.
    + rewrite memoryCalls_record. apply app_nil_r.
  - intros sid nid tid owner wf agent w. split; [reflexivity|].
    now rewrite memoryCalls_record.
  - intros sid nid exclude owner wf agent w H.
    change (getMemory (ParentScheme.makeChatHubOperations sid nid exclude owner wf agent))
      with (ParentScheme.getMemory sid nid exclude).
    unfold ParentScheme.getMemory.
    rewrite run_op_bind, resolveParentMessageId_run. cbn [ParentScheme.initialClosure
      ParentScheme.parentMessageIdResolved]. rewrite H. reflexivity.
Qed.

Lemma getMemory_empty_session_witness :
  run (getMemory (TurnScheme.operations "s1" "n1" (Some "t1") "t1" "u1" None "Agent") tt)
      Sample.manualOnly
  = (inr ([], tt), record (getManyBySessionId "s1") Sample.manualOnly)
  /\
  run (getMemory (ParentScheme.makeChatHubOperations "s1" "n1" false "u1" None "Agent")
                 (ParentScheme.initialClosure None)) Sample.manualOnly
  = (inr (map toEntry (memoryOf "s1" "n1" Sample.manualOnly),
          ParentScheme.mkClosure None true),
     record (getAllMemoryForNode "s1" "n1")
            (record (getManyBySessionId "s1") Sample.manualOnly)).
Proof.
  split.
  - apply (proj1 getMemory_empty_session "s1" "n1" "t1" "t1" "u1" None "Agent"
             Sample.manualOnly). reflexivity.
  - apply (proj2 (proj2 getMemory_empty_session) "s1" "n1" false "u1" None "Agent"
             Sample.manualOnly). reflexivity.
Defined.

(** A session without chat messages, read in manual execution: the memory
    repository is queried, and what it holds for the node is returned. *)
Lemma getMemory_empty_session_counterexample :
  messagesOf "s1" Sample.manualOnly = []
  /\ fst (run (service ← TurnScheme.makeChatHubOperations "s1" "n1" None "u1" None "Agent";
               getMemory service tt) Sample.manualOnly)
     = inr ([toEntry (Sample.row "m1" (Some "manual-1") None "human" "hello" 1)], tt)
  /\ memoryCalls (snd (run (service ← TurnScheme.makeChatHubOperations "s1" "n1" None "u1" None
                                        "Agent";
                            getMemory service tt) Sample.manualOnly))
     = [getAllMemoryForNode "s1" "n1"].
Proof. repeat split. Qed.

(** C4: on a valid forest, resolving the active path ends with a path,
    within the budget of one visit per message: no message is on the path
    twice, and every message of the path is a message of the session.  When
    a parent-pointer cycle can be reached from the head, the resolution
    ends with the structural-corruption error. *)
Theorem buildMessageHistory_terminates
    (messages : list ChatHubMessage.t) (head : option string) :
  (History.validForest messages ->
   exists path,
     History.buildMessageHistory messages head = inr path
     /\ List.NoDup (map ChatHubMessage.id path)
     /\ (forall m, In m path -> In m messages)
     /\ length path <= length messages)
  /\
  (forall h,
      History.headOf messages head = Some h ->
      History.cycleFrom (History.messageIndex messages) h ->
      History.buildMessageHistory messages head = inl History.corruption).
Proof.
  split.
  - apply buildMessageHistory_forest.
  - intros h. apply buildMessageHistory_cycle.
Qed.

Lemma buildMessageHistory_terminates_witness :
  (exists path,
      History.buildMessageHistory Sample.twoTurns None = inr path
      /\ List.NoDup (map ChatHubMessage.id path)
      /\ (forall m, In m path -> In m Sample.twoTurns)
      /\ length path <= length Sample.twoTurns)
  /\ History.buildMessageHistory Sample.cyclic (Some "a") = inl History.corruption.
Proof.
  split.
  - apply (proj1 (buildMessageHistory_terminates Sample.twoTurns None)). split.
    + apply NoDup_ListNoDup. apply (bool_decide_unpack _). vm_compute. exact I.
    + intros m [<-|[<-|[<-|[<-|[]]]]];
        repeat (eapply History.stepUp; [reflexivity|]); apply History.atRoot.
  - apply (proj2 (buildMessageHistory_terminates Sample.cyclic (Some "a")) "a");
      [reflexivity|].
    exists "a", 0, 2. repeat split. lia.
Defined.

End MemoryClaims.

Section SessionClaims.
Import Js Repo Proxy.
#[local] Arguments record : simpl never.
#[local] Arguments inserted : simpl never.
#[local] Arguments sessionExists : simpl never.
#[local] Arguments sessionIdTaken : simpl never.
#[local] Arguments newSession : simpl never.
#[local] Arguments extractAgentName : simpl never.

(** What the body of [ensureSession] does, with the title it gives a new
    row: nothing when the owner has the session; the insert otherwise, whose
    failure on a taken id is thrown. *)
Lemma ensureSession_body (sid owner sessionTitle : string) (wf : option string)
    (agent : string) (w : World) :
  run (exists_ ← call (existsById sid owner);
       if exists_ : bool then mret tt
       else now ← call newDate;
            call (createChatSession (newSession sid owner sessionTitle now wf agent))) w
  = if sessionExists sid owner w then (inr tt, record (existsById sid owner) w)
    else
      let row := newSession sid owner sessionTitle (clock w) wf agent in
      let w3 := record (createChatSession row)
                       (record newDate (record (existsById sid owner) w)) in
      if sessionIdTaken sid w then (inl duplicateKey, w3) else (inr tt, inserted row w3).
Proof.
  cbn. change (sessionExists sid owner (record ?c w)) with (sessionExists sid owner w).
  destruct (sessionExists sid owner w); [reflexivity|]. cbn.
  change (sessionIdTaken ?i (record ?a (record ?b (record ?c w)))) with (sessionIdTaken i w).
  change (ChatHubSession.id (newSession sid owner sessionTitle ?n wf agent)) with sid.
  now destruct (sessionIdTaken sid w).
Qed.

Lemma turn_ensureSession_run (sid owner : string) (wf : option string) (agent : string)
    (w : World) :
  run (TurnScheme.ensureSession sid owner wf agent tt tt) w
  = if sessionExists sid owner w then (inr (tt, tt), record (existsById sid owner) w)
    else
      let row := newSession sid owner agent (clock w) wf agent in
      let w3 := record (createChatSession row)
                       (record newDate (record (existsById sid owner) w)) in
      if sessionIdTaken sid w then (inl duplicateKey, w3) else (inr (tt, tt), inserted row w3).
Proof.
  unfold TurnScheme.ensureSession, pure. rewrite run_bind, ensureSession_body.
  destruct (sessionExists sid owner w); [reflexivity|]. cbn zeta.
  now destruct (sessionIdTaken sid w).
Qed.

Lemma parent_ensureSession_run (sid owner : string) (wf : option string) (agent : string)
    (title : option string) (cl : ParentScheme.Closure) (w : World) :
  run (ParentScheme.ensureSession sid owner wf agent title cl) w
  = if sessionExists sid owner w then (inr (tt, cl), record (existsById sid owner) w)
    else
      let row := newSession sid owner (default agent (truthy title)) (clock w) wf agent in
      let w3 := record (createChatSession row)
                       (record newDate (record (existsById sid owner) w)) in
      if sessionIdTaken sid w then (inl duplicateKey, w3) else (inr (tt, cl), inserted row w3).
Proof.
  unfold ParentScheme.ensureSession, pure. rewrite run_bind, ensureSession_body.
  destruct (sessionExists sid owner w); [reflexivity|]. cbn zeta.
  now destruct (sessionIdTaken sid w).
Qed.

(** C7, as the code has it: [ensureSession] does not catch a failure of the
    session insert.  When the owner has no session of the id and the id is
    taken all the same (by a caller that inserted after the existence
    check, or by another owner), the duplicate-key error is thrown to the
    caller and no row is added; when the id is free, one row is added. *)
Theorem ensureSession_throws_duplicate_key
    (sid owner : string) (wf : option string) (agent : string) (title : option string)
    (cl : ParentScheme.Closure) (w : World) :
  sessionExists sid owner w = false ->
  (sessionIdTaken sid w = true ->
   fst (run (TurnScheme.ensureSession sid owner wf agent tt tt) w) = inl duplicateKey
   /\ sessions (snd (run (TurnScheme.ensureSession sid owner wf agent tt tt) w)) = sessions w
   /\ fst (run (ParentScheme.ensureSession sid owner wf agent title cl) w) = inl duplicateKey
   /\ sessions (snd (run (ParentScheme.ensureSession sid owner wf agent title cl) w))
      = sessions w)
  /\
  (sessionIdTaken sid w = false ->
   fst (run (TurnScheme.ensureSession sid owner wf agent tt tt) w) = inr (tt, tt)
   /\ sessions (snd (run (TurnScheme.ensureSession sid owner wf agent tt tt) w))
      = (sessions w ++ [newSession sid owner agent (clock w) wf agent])%list
   /\ fst (run (ParentScheme.ensureSession sid owner wf agent title cl) w) = inr (tt, cl)
   /\ sessions (snd (run (ParentScheme.ensureSession sid owner wf agent title cl) w))
      = (sessions w ++ [newSession sid owner (default agent (truthy title)) (clock w) wf
                                   agent])%list)
  /\
  (* the race: the existence check has answered, the insert comes later *)
  (exists rest,
      step (TurnScheme.ensureSession sid owner wf agent tt tt) w
      = (rest, record (existsById sid owner) w)
      /\ forall w2, sessionIdTaken sid w2 = true ->
                    fst (run rest w2) = inl duplicateKey
                    /\ sessions (snd (run rest w2)) = sessions w2).
Proof.
  intros Hex. split; [|split].
  - intros Ht. rewrite turn_ensureSession_run, parent_ensureSession_run, Hex, Ht.
    now repeat split.
  - intros Ht. rewrite turn_ensureSession_run, parent_ensureSession_run, Hex, Ht.
    now repeat split.
  - eexists. split.
    + cbn. change (sessionExists sid owner (record ?c w)) with (sessionExists sid owner w).
      rewrite Hex. reflexivity.
    + intros w2 Ht. cbn.
      change (sessionIdTaken ?i (record ?a (record ?b w2))) with (sessionIdTaken i w2).
      change (ChatHubSession.id (newSession sid owner agent ?n wf agent)) with sid.
      rewrite Ht. now split.
Qed.

Lemma ensureSession_throws_duplicate_key_witness :
  fst (run (TurnScheme.ensureSession "s1" "u1" (Some "wf1") "Helper" tt tt) Sample.othersSession)
  = inl duplicateKey
  /\ sessions (snd (run (TurnScheme.ensureSession "s1" "u1" (Some "wf1") "Helper" tt tt)
                        Sample.othersSession))
     = sessions Sample.othersSession.
Proof.
  destruct (ensureSession_throws_duplicate_key "s1" "u1" (Some "wf1") "Helper" None
              (ParentScheme.initialClosure None) Sample.othersSession eq_refl)
    as [H _].
  destruct (H eq_refl) as (H1 & H2 & _). now split.
Defined.

(** Two callers create the same new session at the same time: one row
    results, and the second caller is thrown the duplicate-key error.  A
    caller whose session id belongs to another owner is thrown it too. *)
Lemma ensureSession_race_counterexample :
  fst (fst Sample.race) = Ret (tt, tt)
  /\ snd (fst Sample.race) = Throw duplicateKey
  /\ map ChatHubSession.id (sessions (snd Sample.race)) = ["s1"]
  /\ fst (run Sample.firstCaller Sample.othersSession) = inl duplicateKey.
Proof. repeat split. Qed.

(** C8, as the code has it: without an owner id, [getChatHubProxy] returns
    no service object.  It throws the owner error when the node is a Chat
    Hub memory node; the node type is checked first, so for any other node
    it throws the node-type error. *)
Theorem getChatHubProxy_requires_owner
    (workflow : Workflow.t) (node : Workflow.INode) (sid nid : string)
    (hint : option string) (exclude : bool) (ownerId : option string) (w : World) :
  truthy ownerId = None ->
  run (TurnScheme.getChatHubProxy workflow node sid nid hint ownerId) w
  = (inl (if isAllowedNode (Workflow.type node) then TurnScheme.ownerRequired
          else mkError UnexpectedError
                 "This proxy is only available for Chat Hub Memory nodes"), w)
  /\ ParentScheme.getChatHubProxy workflow node sid nid hint exclude ownerId
     = inl (if isAllowedNode (Workflow.type node) then ParentScheme.ownerRequired
            else mkError PlainError
                   "This proxy is only available for Chat Hub Memory nodes").
Proof.
  intros H. unfold TurnScheme.getChatHubProxy, ParentScheme.getChatHubProxy,
    TurnScheme.validateRequest, ParentScheme.validateRequest.
  destruct (isAllowedNode (Workflow.type node)); cbn; rewrite ?H; now split.
Qed.

Lemma getChatHubProxy_requires_owner_witness :
  run (TurnScheme.getChatHubProxy Sample.workflow Sample.memoryNode "s1" "n1" (Some "t1") None)
      (Sample.store [] [] [])
  = (inl TurnScheme.ownerRequired, Sample.store [] [] [])
  /\ ParentScheme.getChatHubProxy Sample.workflow Sample.memoryNode "s1" "n1" (Some "h1") false
                                  (Some EmptyString)
     = inl ParentScheme.ownerRequired.
Proof.
  split.
  - apply (getChatHubProxy_requires_owner Sample.workflow Sample.memoryNode "s1" "n1"
             (Some "t1") false None (Sample.store [] [] []) eq_refl).
  - apply (getChatHubProxy_requires_owner Sample.workflow Sample.memoryNode "s1" "n1"
             (Some "h1") false (Some EmptyString) (Sample.store [] [] []) eq_refl).
Defined.

(** A request without owner from a node that is no Chat Hub memory node
    fails with the node-type error, which is not the owner error. *)
Lemma getChatHubProxy_owner_counterexample :
  fst (run (TurnScheme.getChatHubProxy Sample.workflow Sample.otherNode "s1" "n9" None None)
           (Sample.store [] [] []))
  = inl (mkError UnexpectedError "This proxy is only available for Chat Hub Memory nodes")
  /\ mkError UnexpectedError "This proxy is only available for Chat Hub Memory nodes"
     <> TurnScheme.ownerRequired
  /\ ParentScheme.getChatHubProxy Sample.workflow Sample.otherNode "s1" "n9" None false None
     = inl (mkError PlainError "This proxy is only available for Chat Hub Memory nodes")
  /\ mkError PlainError "This proxy is only available for Chat Hub Memory nodes"
     <> ParentScheme.ownerRequired.
Proof. repeat split; discriminate. Qed.

Lemma truthy_name (o : option string) :
  match truthy o with
  | Some n => if negb (blank n) then n else NAME_FALLBACK
  | None => NAME_FALLBACK
  end
  = match o with
    | Some n => if blank n then NAME_FALLBACK else n
    | None => NAME_FALLBACK
    end.
Proof.
  destruct o as [m|]; [|reflexivity]. cbn [truthy].
  destruct (String.eqb m EmptyString) eqn:E.
  - apply String.eqb_eq in E. now subst m.
  - now destruct (blank m).
Qed.

Lemma extractAgentName_tiers (workflow : Workflow.t) :
  extractAgentName workflow = expectedTitle None workflow.
Proof.
  unfold extractAgentName, expectedTitle, triggerAgentName, workflowName, optional_get.
  cbn [providedTitle]. rewrite truthy_name.
  destruct (List.find _ _) as [n|].
  - destruct (get_prop (Workflow.parameters n) "agentName") as [[| | | |a| |]|];
      unfold default; cbn [from_option id];
      try destruct (blank a); cbn [negb];
      destruct (Workflow.name workflow) as [m|]; try reflexivity; now destruct (blank m).
  - destruct (Workflow.name workflow) as [m|]; try reflexivity; now destruct (blank m).
Qed.

Lemma title_tiers (title : option string) (workflow : Workflow.t) :
  default (extractAgentName workflow) (truthy title) = expectedTitle title workflow.
Proof.
  rewrite extractAgentName_tiers. unfold expectedTitle, truthy, providedTitle.
  destruct title as [t|]; [|reflexivity]. now destruct (String.eqb t EmptyString).
Qed.

Lemma sessionExists_taken (sid owner : string) (w : World) :
  sessionIdTaken sid w = false -> sessionExists sid owner w = false.
Proof.
  unfold sessionIdTaken, sessionExists.
  induction (sessions w) as [|s l IH]; [reflexivity|]. cbn [existsb].
  intros H. apply orb_false_iff in H as [Hs Hl]. now rewrite Hs, (IH Hl).
Qed.

(** C9: [ensureSession] creates a session row exactly when no session has
    the id; the row it appends is the session's, the owner's, and is titled
    with the title the caller gave, when it gave one (a string that is not
    empty, as [title || agentName] tests it; the second revision takes no
    title); otherwise with the chat trigger node's non-blank [agentName]
    parameter; otherwise with the workflow's non-blank name; otherwise with
    ["Workflow Chat"].  When a session has the id, no row is created. *)
Theorem ensureSession_title
    (workflow : Workflow.t) (node : Workflow.INode) (sid nid : string)
    (hint : option string) (exclude : bool) (ownerId : option string) :
  (forall service cl,
      ParentScheme.getChatHubProxy workflow node sid nid hint exclude ownerId
      = inr (service, cl) ->
      forall (title : option string) (st : ParentScheme.Closure) (w : World),
        (sessionIdTaken sid w = false ->
         exists row,
           fst (run (ensureSession service title st) w) = inr (tt, st)
           /\ sessions (snd (run (ensureSession service title st) w))
              = (sessions w ++ [row])%list
           /\ ChatHubSession.id row = sid
           /\ Some (ChatHubSession.ownerId row) = ownerId
           /\ ChatHubSession.title row = expectedTitle title workflow)
        /\ (sessionIdTaken sid w = true ->
            sessions (snd (run (ensureSession service title st) w)) = sessions w))
  /\
  (forall service w0 w1,
      run (TurnScheme.getChatHubProxy workflow node sid nid hint ownerId) w0
      = (inr service, w1) ->
      forall (w : World),
        (sessionIdTaken sid w = false ->
         exists row,
           fst (run (ensureSession service tt tt) w) = inr (tt, tt)
           /\ sessions (snd (run (ensureSession service tt tt) w))
              = (sessions w ++ [row])%list
           /\ ChatHubSession.id row = sid
           /\ Some (ChatHubSession.ownerId row) = ownerId
           /\ ChatHubSession.title row = expectedTitle None workflow)
        /\ (sessionIdTaken sid w = true ->
            sessions (snd (run (ensureSession service tt tt) w)) = sessions w)).
Proof.
  assert (Howner : forall owner, truthy ownerId = Some owner -> Some owner = ownerId).
  { intros owner. unfold truthy. destruct ownerId as [o|]; [|discriminate].
    destruct (String.eqb o EmptyString); [discriminate|]. now intros [= <-]. }
  split.
  - intros service cl H title st w. unfold ParentScheme.getChatHubProxy in H.
    destruct (ParentScheme.validateRequest node); [discriminate|].
    destruct (truthy ownerId) as [owner|] eqn:Eo; [|discriminate]. injection H as <- _.
    change (ensureSession (ParentScheme.makeChatHubOperations ?a ?b ?c ?d ?e ?f))
      with (ParentScheme.ensureSession a d e f).
    rewrite parent_ensureSession_run. split.
    + intros Hfree. rewrite (sessionExists_taken sid owner w Hfree). cbn zeta. rewrite Hfree.
      eexists. split; [reflexivity|]. split; [reflexivity|]. split; [reflexivity|].
      split; [now apply Howner | apply title_tiers].
    + intros Htaken. destruct (sessionExists sid owner w); [reflexivity|].
      cbn zeta. now rewrite Htaken.
  - intros service w0 w1 H w. unfold TurnScheme.getChatHubProxy in H.
    destruct (TurnScheme.validateRequest node); [discriminate|]. cbn in H.
    destruct (truthy ownerId) as [owner|] eqn:Eo; [|discriminate].
    assert (exists tid, service
              = TurnScheme.operations sid nid hint tid owner (Workflow.workflowId workflow)
                  (extractAgentName workflow)) as [tid ->].
    { destruct hint as [t|]; cbn in H; injection H as <- _; eexists; reflexivity. }
    change (ensureSession (TurnScheme.operations ?a ?b ?c ?d ?e ?f ?g))
      with (TurnScheme.ensureSession a e f g).
    rewrite turn_ensureSession_run. split.
    + intros Hfree. rewrite (sessionExists_taken sid owner w Hfree). cbn zeta. rewrite Hfree.
      eexists. split; [reflexivity|]. split; [reflexivity|]. split; [reflexivity|].
      split; [now apply Howner | apply extractAgentName_tiers].
    + intros Htaken. destruct (sessionExists sid owner w); [reflexivity|].
      cbn zeta. now rewrite Htaken.
Qed.

Lemma ensureSession_title_witness :
  (exists row,
      fst (run (ParentScheme.ensureSession "s1" "u1" (Some "wf1")
                  (extractAgentName Sample.workflow) (Some "My chat")
                  (ParentScheme.initialClosure None)) (Sample.store [] [] []))
      = inr (tt, ParentScheme.initialClosure None)
      /\ sessions (snd (run (ParentScheme.ensureSession "s1" "u1" (Some "wf1")
                               (extractAgentName Sample.workflow) (Some "My chat")
                               (ParentScheme.initialClosure None)) (Sample.store [] [] [])))
         = [row]
      /\ ChatHubSession.id row = "s1"
      /\ Some (ChatHubSession.ownerId row) = Some "u1"
      /\ ChatHubSession.title row = "My chat")
  /\ (exists row,
         fst (run (TurnScheme.ensureSession "s1" "u1" (Some "wf1")
                     (extractAgentName Sample.workflow) tt tt) (Sample.store [] [] []))
         = inr (tt, tt)
         /\ sessions (snd (run (TurnScheme.ensureSession "s1" "u1" (Some "wf1")
                                  (extractAgentName Sample.workflow) tt tt)
                               (Sample.store [] [] [])))
            = [row]
         /\ ChatHubSession.id row = "s1"
         /\ Some (ChatHubSession.ownerId row) = Some "u1"
         /\ ChatHubSession.title row = "Helper").
Proof.
  split.
  - exact (proj1 (proj1 (ensureSession_title Sample.workflow Sample.memoryNode "s1" "n1" None
                           false (Some "u1")) _ _ eq_refl (Some "My chat")
                        (ParentScheme.initialClosure None) (Sample.store [] [] []))
                 eq_refl).
  - exact (proj1 (proj2 (ensureSession_title Sample.workflow Sample.memoryNode "s1" "n1"
                           (Some "t1") false (Some "u1")) _ (Sample.store [] [] [])
                        (Sample.store [] [] []) eq_refl (Sample.store [] [] []))
                 eq_refl).
Defined.

(** C10: in the turn scheme, every row written through one service object
    carries one turn id: the given one, or else the one uuid drawn when the
    object was made, which the later writes share; the reads of an object
    made without a turn id do not use it, they return the whole memory of
    the node. *)
Theorem writes_share_turn_id
    (sid nid : string) (provided : option string) (owner : string) (wf : option string)
    (agent : string) (w : World) :
  exists (tid : string) (service : IChatHubMemoryService unit unit) (w1 : World),
    run (TurnScheme.makeChatHubOperations sid nid provided owner wf agent) w = (inr service, w1)
    /\ tid = match provided with
             | Some t => t
             | None => uuidSource w (uuidCount w)
             end
    /\ uuidCount w1 = uuidCount w + (match provided with Some _ => 0 | None => 1 end)
    /\ (forall (writes : list Write) (w2 : World),
          exists rows w3,
            run (writeAll service writes tt) w2 = (inr (tt, tt), w3)
            /\ memories w3 = (memories w2 ++ rows)%list
            /\ length rows = length writes
            /\ Forall (fun row => ChatHubMemory.turnId row = Some tid
                                   /\ ChatHubMemory.sessionId row = sid
                                   /\ ChatHubMemory.memoryNodeId row = nid) rows)
    /\ (provided = None ->
        forall w2 : World,
          run (getMemory service tt) w2
          = (inr (map toEntry (memoryOf sid nid w2), tt),
             record (getAllMemoryForNode sid nid) w2)).
Proof.
  destruct provided as [t|].
  - exists t, (TurnScheme.operations sid nid (Some t) t owner wf agent), w.
    split; [reflexivity|]. split; [reflexivity|]. split; [cbn; lia|]. split; [|discriminate].
    intros writes w2.
    destruct (turn_writeAll sid nid owner wf agent (Some t) t writes w2)
      as (rows & w3 & Hrun & Hmem & Hlen & Hall).
    now exists rows, w3.
  - exists (uuidSource w (uuidCount w)),
      (TurnScheme.operations sid nid None (uuidSource w (uuidCount w)) owner wf agent),
      (drawn (record uuid w)).
    split; [reflexivity|]. split; [reflexivity|].
    split; [unfold drawn, record; cbn; lia|]. split.
    + intros writes w2.
      destruct (turn_writeAll sid nid owner wf agent None (uuidSource w (uuidCount w)) writes w2)
        as (rows & w3 & Hrun & Hmem & Hlen & Hall).
      now exists rows, w3.
    + intros _ w2. reflexivity.
Qed.

End SessionClaims.

Section CodecClaims.
Import Js Repo Proxy ChatHubMessageHistory.
#[local] Arguments JSON_parse : simpl never.
#[local] Arguments stringify : simpl never.
#[local] Arguments record : simpl never.
#[local] Arguments drawn : simpl never.
#[local] Arguments appended : simpl never.

Lemma convertAll_app (l1 l2 : list ChatHubMemoryEntry.t) :
  convertAll (l1 ++ l2)
  = match convertAll l1 with
    | inl e => inl e
    | inr a =>
        match convertAll l2 with
        | inl e => inl e
        | inr b => inr (a ++ b)%list
        end
    end.
Proof.
  induction l1 as [|x l1 IH]; cbn [app convertAll].
  - now destruct (convertAll l2).
  - destruct (convertToLangChainMessage x); [reflexivity|]. rewrite IH.
    destruct (convertAll l1); [reflexivity|]. now destruct (convertAll l2).
Qed.






(** C6: an entry whose content [JSON.parse] rejects is converted without a
    throw.  An AI entry becomes its raw content with no tool calls; a tool
    entry becomes the tool identity ["unknown"] with the raw content as its
    output; so the entries around a corrupt one are converted as they would
    be without it. *)
Theorem corrupt_content_falls_back (content : string) :
  JSON_parse content = None ->
  parseAIMessageContent content = (JStr content, JArr [])
  /\ parseToolMessageContent content
     = JObj [("toolCallId", JStr "unknown"); ("toolName", JStr "unknown");
             ("toolInput", JObj []); ("toolOutput", JStr content)]
  /\ (forall entry : ChatHubMemoryEntry.t,
         ChatHubMemoryEntry.content entry = content ->
         exists m,
           convertToLangChainMessage entry = inr m
           /\ (ChatHubMemoryEntry.role entry = "ai" ->
               m = AIMessage (JStr content) (ChatHubMemoryEntry.name entry) (JArr []))
           /\ (ChatHubMemoryEntry.role entry = "tool" ->
               m = ToolMessage (JSON_stringify (JStr content)) (JStr "unknown")
                               (JStr "unknown")))
  /\ (forall (before after : list ChatHubMemoryEntry.t) (entry : ChatHubMemoryEntry.t)
             (bs ms : list BaseMessage),
         ChatHubMemoryEntry.content entry = content ->
         convertAll before = inr bs -> convertAll after = inr ms ->
         exists m,
           convertToLangChainMessage entry = inr m
           /\ convertAll (before ++ entry :: after) = inr (bs ++ m :: ms)%list).
Proof.
  intros Hparse.
  assert (Hai : parseAIMessageContent content = (JStr content, JArr [])).
  { unfold parseAIMessageContent. now rewrite Hparse. }
  assert (Htool : parseToolMessageContent content
                  = JObj [("toolCallId", JStr "unknown"); ("toolName", JStr "unknown");
                          ("toolInput", JObj []); ("toolOutput", JStr content)]).
  { unfold parseToolMessageContent. now rewrite Hparse. }
  assert (Hentry : forall entry : ChatHubMemoryEntry.t,
             ChatHubMemoryEntry.content entry = content ->
             exists m,
               convertToLangChainMessage entry = inr m
               /\ (ChatHubMemoryEntry.role entry = "ai" ->
                   m = AIMessage (JStr content) (ChatHubMemoryEntry.name entry) (JArr []))
               /\ (ChatHubMemoryEntry.role entry = "tool" ->
                   m = ToolMessage (JSON_stringify (JStr content)) (JStr "unknown")
                                   (JStr "unknown"))).
  { intros entry Hc. unfold convertToLangChainMessage. rewrite Hc, Hai, Htool.
    destruct (String.eqb (ChatHubMemoryEntry.role entry) "human") eqn:Eh.
    { apply String.eqb_eq in Eh. eexists. split; [reflexivity|].
      split; intros E; rewrite E in Eh; discriminate. }
    destruct (String.eqb (ChatHubMemoryEntry.role entry) "ai") eqn:Ea.
    { apply String.eqb_eq in Ea. eexists. split; [reflexivity|].
      split; [reflexivity | intros E; rewrite E in Ea; discriminate]. }
    destruct (String.eqb (ChatHubMemoryEntry.role entry) "system") eqn:Es.
    { apply String.eqb_eq in Es. eexists. split; [reflexivity|].
      split; intros E; rewrite E in Es; discriminate. }
    destruct (String.eqb (ChatHubMemoryEntry.role entry) "tool") eqn:Et.
    { eexists. split; [reflexivity|].
      apply String.eqb_eq in Et. split; [intros E; rewrite E in Et; discriminate | reflexivity]. }
    eexists. split; [reflexivity|].
    split; intros E; rewrite E in *; discriminate. }
  split; [exact Hai|]. split; [exact Htool|]. split; [exact Hentry|].
  intros before after entry bs ms Hc Hb Ha.
  destruct (Hentry entry Hc) as (m & Hm & _). exists m. split; [exact Hm|].
  rewrite convertAll_app, Hb. cbn [convertAll]. now rewrite Hm, Ha.
Qed.

Lemma corrupt_content_falls_back_witness :
  convertAll [ChatHubMemoryEntry.mk "m1" "human" "hello" (Some "User") 1;
              ChatHubMemoryEntry.mk "m2" "tool" "{not json" (Some "calculator") 2;
              ChatHubMemoryEntry.mk "m3" "ai" "{not json" (Some "AI") 3]
  = inr [HumanMessage (JStr "hello") (Some "User");
         ToolMessage (JSON_stringify (JStr "{not json")) (JStr "unknown") (JStr "unknown");
         AIMessage (JStr "{not json") (Some "AI") (JArr [])].
Proof.
  destruct (corrupt_content_falls_back "{not json" eq_refl) as (_ & _ & _ & H).
  destruct (H [ChatHubMemoryEntry.mk "m1" "human" "hello" (Some "User") 1]
              [ChatHubMemoryEntry.mk "m3" "ai" "{not json" (Some "AI") 3]
              (ChatHubMemoryEntry.mk "m2" "tool" "{not json" (Some "calculator") 2)
              [HumanMessage (JStr "hello") (Some "User")]
              [AIMessage (JStr "{not json") (Some "AI") (JArr [])]
              eq_refl eq_refl eq_refl) as (m & Hm & Hall).
  cbn [app] in Hall. rewrite Hall. injection Hm as <-. reflexivity.
Defined.

End CodecClaims.

(** ** The message history: what is stored and what is read back *)

Section HistoryExtras.
Import Js Repo Proxy ChatHubMessageHistory ReadBack.
#[local] Arguments JSON_parse : simpl never.
#[local] Arguments stringify : simpl never.
#[local] Arguments record : simpl never.
#[local] Arguments drawn : simpl never.
#[local] Arguments appended : simpl never.

(** [JSON.parse] never returns [undefined]. *)
Lemma parse_value_defined (fuel : nat) (s : string) (v : JsVal) (r : string) :
  parse_value fuel s = Some (v, r) -> v <> JUndefined.
Proof.
  destruct fuel as [|f]; [discriminate|]. cbn [parse_value].
  repeat case_match; intros [= <- <-]; discriminate.
Qed.

Lemma JSON_parse_defined (s : string) (v : JsVal) : JSON_parse s = Some v -> v <> JUndefined.
Proof.
  unfold JSON_parse. destruct (parse_value _ s) as [[v' r]|] eqn:E; [|discriminate].
  destruct (skip_ws r); [|discriminate]. intros [= <-]. now apply parse_value_defined in E.
Qed.

(** The text of a tool row is read back by [JSON.parse] as the object it
    was written from. *)
Lemma toolContent_parse (i n : string) (c : JsVal) :
  representable c = true ->
  JSON_parse (toolContent i n (JObj []) c)
  = Some (JObj [("toolCallId", JStr i); ("toolName", JStr n);
                ("toolInput", JObj []); ("toolOutput", c)]).
Proof.
  intros Hc.
  destruct (JSON_parse_stringify (JObj [("toolCallId", JStr i); ("toolName", JStr n);
                                        ("toolInput", JObj []); ("toolOutput", c)]))
    as (text & Etext & Eparse).
  { cbn [representable forallb snd fst map]. rewrite Hc. reflexivity. }
  unfold toolContent. now rewrite Etext.
Qed.

Lemma quote_body_length (s : string) : String.length s <= String.length (quote_body s).
Proof.
  induction s as [|c s IH]; [reflexivity|].
  cbn [quote_body String.length]. rewrite append_length.
  assert (1 <= String.length (escape_char c)); [|lia].
  unfold escape_char. repeat case_match; cbn; lia.
Qed.

Lemma quote_longer (s : string) : String.length (quote s) = String.length (quote_body s) + 2.
Proof. unfold quote. cbn [String.length]. rewrite append_length. cbn. lia. Qed.


Lemma stringify_representable (v : JsVal) :
  representable v = true -> exists text, stringify v = Some text.
Proof. intros H. destruct (JSON_parse_stringify v H) as (text & E & _). now exists text. Qed.

(** The content [addMessage] hands on is a string. *)
Lemma stored_content_string (c : JsVal) :
  representable c = true ->
  (if String.eqb (typeof c) "string" then c else JSON_stringify c) = JStr (storedText c).
Proof.
  intros H. unfold storedText.
  destruct (stringify_representable c H) as (text & E).
  destruct c; try discriminate; cbn [typeof String.eqb Ascii.eqb Bool.eqb text_of]; try reflexivity;
    unfold JSON_stringify; rewrite E; reflexivity.
Qed.

Lemma typeof_string (v : JsVal) : String.eqb (typeof v) "string" = true -> JStr (text_of v) = v.
Proof. destruct v; try discriminate. reflexivity. Qed.

Lemma storedAIContent_parse_any (s : string) (t : JsVal) :
  representable (nullish t (JArr [])) = true ->
  JSON_parse (storedAIContent (JStr s) t)
  = Some (JObj [("content", JStr s); ("toolCalls", nullish t (JArr []))]).
Proof.
  intros Ht.
  destruct (JSON_parse_stringify
              (JObj [("content", JStr s); ("toolCalls", nullish t (JArr []))]))
    as (text & Etext & Eparse).
  { cbn [representable forallb snd fst map]. rewrite Ht. reflexivity. }
  unfold storedAIContent, JSON_stringify. now rewrite Etext.
Qed.

Lemma convert_stored_ai (i s : string) (t : JsVal) (name : option string) (at_ : nat) :
  representable (nullish t (JArr [])) = true ->
  convertToLangChainMessage (ChatHubMemoryEntry.mk i "ai" (storedAIContent (JStr s) t) name at_)
  = inr (AIMessage (JStr s) name (nullish t (JArr []))).
Proof.
  intros Ht. unfold convertToLangChainMessage.
  cbn [ChatHubMemoryEntry.role ChatHubMemoryEntry.content ChatHubMemoryEntry.name
       String.eqb Ascii.eqb Bool.eqb].
  unfold parseAIMessageContent. rewrite (storedAIContent_parse_any _ _ Ht).
  cbn [get_prop lookup_field String.eqb Ascii.eqb Bool.eqb default from_option id typeof fst snd].
  destruct t; reflexivity.
Qed.

Lemma convert_stored_tool (i toolCallId toolName : string) (c : JsVal) (name : option string)
    (at_ : nat) :
  representable c = true ->
  convertToLangChainMessage
    (ChatHubMemoryEntry.mk i "tool" (toolContent toolCallId toolName (JObj []) c) name at_)
  = inr (ToolMessage (JSON_stringify c) (JStr toolCallId) (JStr toolName)).
Proof.
  intros Hc. unfold convertToLangChainMessage.
  cbn [ChatHubMemoryEntry.role ChatHubMemoryEntry.content ChatHubMemoryEntry.name
       String.eqb Ascii.eqb Bool.eqb].
  unfold parseToolMessageContent. rewrite (toolContent_parse _ _ _ Hc). reflexivity.
Qed.

(** In the turn scheme, [addMessage] appends the rows of its node that read
    back as [readBack] says, and nothing else changes in the tables. *)
Lemma turn_addMessage_stored (sid nid tid owner : string) (wf : option string) (agent : string)
    (p : option string) (m : BaseMessage) (w : World) :
  storable m = true ->
  exists rows w1,
    run (addMessage (TurnScheme.operations sid nid p tid owner wf agent) m tt) w
    = (inr (tt, tt), w1)
    /\ memories w1 = (memories w ++ rows)%list
    /\ messages w1 = messages w
    /\ Forall (fun row => ofSessionAndNode sid nid row = true
                          /\ ChatHubMemory.turnId row = Some tid) rows
    /\ convertAll (map toEntry rows) = inr (readBack m).
Proof.
  intros Hm.
  assert (Hnode : forall e at_, NewMemory.sessionId e = sid -> NewMemory.memoryNodeId e = nid ->
            ofSessionAndNode sid nid (stamp e at_) = true).
  { intros e at_ <- <-. unfold ofSessionAndNode. cbn. now rewrite !String.eqb_refl. }
  destruct m as [c name|c name t|c|c i n|c r]; cbn [storable] in Hm.
  - eexists [_], _. split; [reflexivity|]. split; [reflexivity|]. split; [reflexivity|]. split.
    + constructor; [|constructor]. split; [now apply Hnode | reflexivity].
    + cbn [map convertAll]. unfold convertToLangChainMessage.
      cbn. unfold storedText. reflexivity.
  - apply andb_true_iff in Hm as [Hc Ht].
    eexists [_], _. split; [reflexivity|]. split; [reflexivity|]. split; [reflexivity|]. split.
    + constructor; [|constructor]. split; [now apply Hnode | reflexivity].
    + cbn [map convertAll]. unfold toEntry, stamp.
      cbn [ChatHubMemory.id ChatHubMemory.role
           ChatHubMemory.content ChatHubMemory.name ChatHubMemory.createdAt
           NewMemory.id NewMemory.role NewMemory.content NewMemory.name messageContent].
      rewrite (stored_content_string c Hc), (convert_stored_ai _ _ _ _ _ Ht). reflexivity.
  - exists [], w. split; [reflexivity|]. rewrite app_nil_r.
    split; [reflexivity|]. split; [reflexivity|]. split; [constructor | reflexivity].
  - apply andb_true_iff in Hm as [Hm Hn]. apply andb_true_iff in Hm as [Hc Hi].
    eexists [_], _. split; [reflexivity|]. split; [reflexivity|]. split; [reflexivity|]. split.
    + constructor; [|constructor]. split; [now apply Hnode | reflexivity].
    + cbn [map convertAll]. unfold toEntry, stamp.
      cbn [ChatHubMemory.id ChatHubMemory.role
           ChatHubMemory.content ChatHubMemory.name ChatHubMemory.createdAt
           NewMemory.id NewMemory.role NewMemory.content NewMemory.name messageContent].
      rewrite (convert_stored_tool _ _ _ _ _ _ Hc), (typeof_string _ Hi), (typeof_string _ Hn).
      reflexivity.
  - exists [], w. split; [reflexivity|]. rewrite app_nil_r.
    split; [reflexivity|]. split; [reflexivity|]. split; [constructor | reflexivity].
Qed.

Lemma memoryOf_app (sid nid : string) (w w1 : World) (rows : list ChatHubMemory.t) :
  memories w1 = (memories w ++ rows)%list ->
  Forall (fun row => ofSessionAndNode sid nid row = true) rows ->
  memoryOf sid nid w1 = (memoryOf sid nid w ++ rows)%list.
Proof.
  intros E H. unfold memoryOf. rewrite E, List.filter_app. f_equal.
  apply filter_all. now apply List.Forall_forall.
Qed.


(** X1: through a service object of the turn scheme made without a turn
    id, [getMessages] after [addMessages] returns the messages read before
    followed by what each added message reads back as, in order: a human
    or AI message under the name of its row, a tool message with its
    content encoded once more, nothing for a system or generic message. *)
Theorem addMessages_then_getMessages (sid nid tid owner : string) (wf : option string)
    (agent : string) (ms : list BaseMessage) (w : World) (old : list BaseMessage) :
  forallb storable ms = true ->
  convertAll (map toEntry (memoryOf sid nid w)) = inr old ->
  fst (run ((_ ← addMessages (TurnScheme.operations sid nid None tid owner wf agent) ms;
             getMessages (TurnScheme.operations sid nid None tid owner wf agent)) tt) w)
  = inr ((old ++ flat_map readBack ms)%list, tt).
Proof.
  revert w old. induction ms as [|m ms IH]; intros w old Hms Hold.
  - rewrite run_op_bind. cbn [addMessages]. unfold mret at 1, Op_ret. cbn [run].
    unfold getMessages. rewrite run_op_bind, turn_getMemory_manual.
    unfold pure. rewrite run_bind. cbn [lift]. rewrite Hold. cbn. now rewrite app_nil_r.
  - cbn [forallb] in Hms. apply andb_true_iff in Hms as [Hm Hms].
    destruct (turn_addMessage_stored sid nid tid owner wf agent None m w Hm)
      as (rows & w1 & Hrun & Hmem & _ & Hrows & Hconv).
    assert (Hold1 : convertAll (map toEntry (memoryOf sid nid w1))
                    = inr (old ++ readBack m)%list).
    { rewrite (memoryOf_app sid nid w w1 rows Hmem).
      - now rewrite map_app, convertAll_app, Hold, Hconv.
      - eapply List.Forall_impl; [|exact Hrows]. now intros a [Ha _]. }
    specialize (IH w1 _ Hms Hold1).
    rewrite run_op_bind in IH |- *. cbn [addMessages]. rewrite run_op_bind, Hrun.
    cbn [flat_map]. rewrite app_assoc. exact IH.
Qed.



Lemma addMessages_then_getMessages_witness :
  fst (run ((_ ← addMessages (Scenario.turnService None) Scenario.exchange;
             getMessages (Scenario.turnService None)) tt) (Sample.store [] [] []))
  = inr ([HumanMessage (JStr "What is 1 + 1?") (Some "User");
          AIMessage (JStr "Let me compute that.") (Some "AI") (JArr Sample.toolCalls);
          ToolMessage (JStr (quote "2")) (JStr "call_1") (JStr "calculator");
          AIMessage (JStr "It is 2.") (Some "AI") (JArr [])], tt).
Proof.
  exact (addMessages_then_getMessages "s1" "n1" "manual-1" "u1" (Some "wf1") "Helper"
           Scenario.exchange (Sample.store [] [] []) [] eq_refl eq_refl).
Defined.

(** X2: a tool message that [addMessage] stored is read back with its tool
    call id and tool name, and with [JSON.stringify] of its content as
    content, for a content that is a JSON value as JavaScript holds and
    prints it; a content that is a string therefore comes back quoted,
    which is never the string that was stored. *)
Theorem tool_message_read_back (toolCallId toolName : string) (c : JsVal) :
  Canonical.canonical c = true ->
  (forall entry : ChatHubMemoryEntry.t,
      ChatHubMemoryEntry.role entry = "tool" ->
      ChatHubMemoryEntry.content entry = toolContent toolCallId toolName (JObj []) c ->
      convertToLangChainMessage entry
      = inr (ToolMessage (JSON_stringify c) (JStr toolCallId) (JStr toolName)))
  /\ (forall s : string, c = JStr s -> JSON_stringify c = JStr (quote s) /\ quote s <> s).
Proof.
  intros Hcanonical.
  assert (Hc : representable c = true).
  { unfold Canonical.canonical in Hcanonical. now apply andb_true_iff in Hcanonical as [H _]. }
  split.
  - intros [i role content name at_]. cbn [ChatHubMemoryEntry.role ChatHubMemoryEntry.content].
    intros -> ->. now apply convert_stored_tool.
  - intros s ->. split; [reflexivity|].
    intros E. pose proof (quote_longer s) as H1. pose proof (quote_body_length s) as H2.
    rewrite E in H1. lia.
Qed.

Lemma tool_message_read_back_witness :
  convertToLangChainMessage
    (ChatHubMemoryEntry.mk "m3" "tool" (toolContent "call_1" "calculator" (JObj []) (JStr "2"))
                           (Some "calculator") 3)
  = inr (ToolMessage (JStr (quote "2")) (JStr "call_1") (JStr "calculator")).
Proof.
  exact (proj1 (tool_message_read_back "call_1" "calculator" (JStr "2") eq_refl)
               (ChatHubMemoryEntry.mk "m3" "tool"
                  (toolContent "call_1" "calculator" (JObj []) (JStr "2"))
                  (Some "calculator") 3)
               eq_refl eq_refl).
Defined.

(** A property read on what [JSON.parse] returned fails on [null] only. *)
Lemma read_parsed (content k : string) (v : JsVal) :
  JSON_parse content = Some v ->
  (v = JNull /\ read v k = inl typeError) \/ (exists x, read v k = inr x).
Proof.
  intros H. apply JSON_parse_defined in H. unfold read.
  destruct v; try contradiction; cbn [get_prop]; eauto.
Qed.

Lemma convert_error (entry : ChatHubMemoryEntry.t) (e : Error) :
  convertToLangChainMessage entry = inl e ->
  e = typeError /\ ChatHubMemoryEntry.role entry = "tool"
  /\ JSON_parse (ChatHubMemoryEntry.content entry) = Some JNull.
Proof.
  unfold convertToLangChainMessage.
  destruct (String.eqb (ChatHubMemoryEntry.role entry) "human"); [discriminate|].
  destruct (String.eqb (ChatHubMemoryEntry.role entry) "ai"); [discriminate|].
  destruct (String.eqb (ChatHubMemoryEntry.role entry) "system"); [discriminate|].
  destruct (String.eqb (ChatHubMemoryEntry.role entry) "tool") eqn:Et; [|discriminate].
  apply String.eqb_eq in Et. unfold parseToolMessageContent.
  destruct (JSON_parse (ChatHubMemoryEntry.content entry)) as [v|] eqn:Ep; [|discriminate].
  destruct (read_parsed _ "toolOutput" v Ep) as [[-> _]|[x Hx]].
  { intros [= <-]. auto. }
  rewrite Hx. cbn [mbind Result_bind].
  destruct (read_parsed _ "toolCallId" v Ep) as [[-> _]|[y Hy]]; [discriminate|].
  rewrite Hy. cbn [mbind Result_bind].
  destruct (read_parsed _ "toolName" v Ep) as [[-> _]|[z Hz]]; [discriminate|].
  rewrite Hz. discriminate.
Qed.

Lemma convertAll_error (l : list ChatHubMemoryEntry.t) (e : Error) :
  convertAll l = inl e -> e = typeError.
Proof.
  induction l as [|x l IH]; [discriminate|]. cbn [convertAll].
  destruct (convertToLangChainMessage x) as [e'|m] eqn:Ex.
  - intros [= <-]. now apply convert_error in Ex.
  - destruct (convertAll l); [|discriminate]. intros [= <-]. now apply IH.
Qed.

(** X3: [convertToLangChainMessage] throws for exactly one kind of entry, a
    tool entry whose content is JSON text of [null]: the property reads on
    the parsed value are outside the [try].  One such row in the memory of a
    node makes [getMessages] throw. *)
Theorem convertToLangChainMessage_throws_iff (entry : ChatHubMemoryEntry.t) :
  ((exists e, convertToLangChainMessage entry = inl e)
   <-> ChatHubMemoryEntry.role entry = "tool"
       /\ JSON_parse (ChatHubMemoryEntry.content entry) = Some JNull)
  /\ (forall e, convertToLangChainMessage entry = inl e -> e = typeError)
  /\ (forall (sid nid tid owner : string) (wf : option string) (agent : string) (w : World)
             (row : ChatHubMemory.t),
         In row (memoryOf sid nid w) ->
         toEntry row = entry ->
         ChatHubMemoryEntry.role entry = "tool" ->
         JSON_parse (ChatHubMemoryEntry.content entry) = Some JNull ->
         fst (run (getMessages (TurnScheme.operations sid nid None tid owner wf agent) tt) w)
         = inl typeError).
Proof.
  assert (Hthrow : ChatHubMemoryEntry.role entry = "tool" ->
                   JSON_parse (ChatHubMemoryEntry.content entry) = Some JNull ->
                   convertToLangChainMessage entry = inl typeError).
  { intros Hr Hp. unfold convertToLangChainMessage, parseToolMessageContent.
    rewrite Hr, Hp. reflexivity. }
  split; [split|split].
  - intros [e He]. now destruct (convert_error entry e He) as (_ & Hr & Hp).
  - intros [Hr Hp]. exists typeError. now apply Hthrow.
  - intros e He. now destruct (convert_error entry e He).
  - intros sid nid tid owner wf agent w row Hin Hrow Hr Hp.
    unfold getMessages. rewrite run_op_bind, turn_getMemory_manual.
    unfold pure. rewrite run_bind.
    apply in_split in Hin as (before & after & ->).
    rewrite map_app, convertAll_app. cbn [map convertAll]. rewrite Hrow, (Hthrow Hr Hp).
    destruct (convertAll (map toEntry before)) as [e|ms] eqn:Eb; [|reflexivity].
    apply convertAll_error in Eb. now subst e.
Qed.

Lemma convertToLangChainMessage_throws_iff_witness :
  convertToLangChainMessage (ChatHubMemoryEntry.mk "m1" "tool" " null " (Some "AI") 1)
  = inl typeError
  /\ fst (run (getMessages (Scenario.turnService None) tt)
              (Sample.store []
                 [Sample.row "m0" (Some "t0") None "human" "hello" 0;
                  Sample.row "m1" (Some "t0") None "tool" " null " 1] []))
     = inl typeError.
Proof.
  destruct (convertToLangChainMessage_throws_iff
              (ChatHubMemoryEntry.mk "m1" "tool" " null " (Some "AI") 1))
    as ([_ Hthrows] & Honly & Hget).
  split.
  - destruct (Hthrows (conj eq_refl eq_refl)) as [e He].
    rewrite He. f_equal. exact (Honly e He).
  - apply (Hget "s1" "n1" "manual-1" "u1" (Some "wf1") "Helper" _
                (Sample.row "m1" (Some "t0") None "tool" " null " 1)).
    + right. left. reflexivity.
    + reflexivity.
    + reflexivity.
    + reflexivity.
Defined.

(** X4: an AI entry whose content is JSON text of a number, a string, a
    boolean or an array is not read as raw text: [parsed.content] is
    [undefined] there, and so is the content of the message.  The raw text
    is the content when [JSON.parse] throws, and when it returns [null]. *)
Theorem ai_content_not_an_object (content : string) :
  (forall v : JsVal,
      JSON_parse content = Some v ->
      v <> JNull ->
      (forall fields, v <> JObj fields) ->
      parseAIMessageContent content = (JUndefined, JArr [])
      /\ forall entry : ChatHubMemoryEntry.t,
           ChatHubMemoryEntry.role entry = "ai" ->
           ChatHubMemoryEntry.content entry = content ->
           convertToLangChainMessage entry
           = inr (AIMessage JUndefined (ChatHubMemoryEntry.name entry) (JArr [])))
  /\ (JSON_parse content = Some JNull \/ JSON_parse content = None ->
      parseAIMessageContent content = (JStr content, JArr [])).
Proof.
  split.
  - intros v Hp Hnull Hobj.
    assert (H : parseAIMessageContent content = (JUndefined, JArr [])).
    { unfold parseAIMessageContent. rewrite Hp. pose proof (JSON_parse_defined _ _ Hp) as Hu.
      destruct v; try contradiction; try reflexivity. now destruct (Hobj fields). }
    split; [exact H|].
    intros entry Hr Hc. unfold convertToLangChainMessage. rewrite Hr, Hc, H. reflexivity.
  - unfold parseAIMessageContent. intros [E|E]; rewrite E; reflexivity.
Qed.

Lemma ai_content_not_an_object_witness :
  parseAIMessageContent "42" = (JUndefined, JArr [])
  /\ convertToLangChainMessage (ChatHubMemoryEntry.mk "m1" "ai" "42" (Some "AI") 1)
     = inr (AIMessage JUndefined (Some "AI") (JArr []))
  /\ parseAIMessageContent "null" = (JStr "null", JArr []).
Proof.
  assert (Hn : JNum "42" <> JNull) by discriminate.
  assert (Ho : forall fields, JNum "42" <> JObj fields) by discriminate.
  destruct (proj1 (ai_content_not_an_object "42") (JNum "42") eq_refl Hn Ho) as (H1 & H2).
  split; [exact H1|]. split.
  - exact (H2 (ChatHubMemoryEntry.mk "m1" "ai" "42" (Some "AI") 1) eq_refl eq_refl).
  - exact (proj2 (ai_content_not_an_object "null") (or_introl eq_refl)).
Defined.

(** X5: [addUserMessage] and [addAIMessage] take any two strings, and
    [getMessages] returns them after the messages read before, as a human
    message named ["User"] and an AI message named ["AI"] without tool
    calls. *)
Theorem user_and_ai_text_round_trip (sid nid tid owner : string) (wf : option string)
    (agent : string) (input output : string) (w : World) (old : list BaseMessage) :
  convertAll (map toEntry (memoryOf sid nid w)) = inr old ->
  fst (run ((_ ← addUserMessage (TurnScheme.operations sid nid None tid owner wf agent) input;
             _ ← ChatHubMessageHistory.addAIMessage
                   (TurnScheme.operations sid nid None tid owner wf agent) output;
             getMessages (TurnScheme.operations sid nid None tid owner wf agent)) tt) w)
  = inr ((old ++ [HumanMessage (JStr input) (Some "User");
                  AIMessage (JStr output) (Some "AI") (JArr [])])%list, tt).
Proof.
  intros Hold. set (svc := TurnScheme.operations sid nid None tid owner wf agent).
  destruct (turn_addMessage_stored sid nid tid owner wf agent None
              (HumanMessage (JStr input) None) w eq_refl)
    as (rows1 & w1 & Hrun1 & Hmem1 & _ & Hrows1 & Hconv1).
  destruct (turn_addMessage_stored sid nid tid owner wf agent None
              (AIMessage (JStr output) None JUndefined) w1 eq_refl)
    as (rows2 & w2 & Hrun2 & Hmem2 & _ & Hrows2 & Hconv2).
  assert (Hnode : forall rows,
            Forall (fun row => ofSessionAndNode sid nid row = true
                               /\ ChatHubMemory.turnId row = Some tid) rows ->
            Forall (fun row => ofSessionAndNode sid nid row = true) rows).
  { intros rows H. eapply List.Forall_impl; [|exact H]. now intros a [Ha _]. }
  unfold addUserMessage, ChatHubMessageHistory.addAIMessage.
  rewrite run_op_bind. fold svc in Hrun1, Hrun2. rewrite Hrun1.
  rewrite run_op_bind, Hrun2.
  unfold getMessages. rewrite run_op_bind. unfold svc. rewrite turn_getMemory_manual.
  unfold pure. rewrite run_bind.
  rewrite (memoryOf_app sid nid w1 w2 rows2 Hmem2 (Hnode _ Hrows2)),
          (memoryOf_app sid nid w w1 rows1 Hmem1 (Hnode _ Hrows1)).
  rewrite !map_app, !convertAll_app, Hold, Hconv1, Hconv2. cbn.
  now rewrite <- app_assoc.
Qed.

Lemma user_and_ai_text_round_trip_witness :
  fst (run ((_ ← addUserMessage (Scenario.turnService None) "What is 1 + 1?";
             _ ← ChatHubMessageHistory.addAIMessage (Scenario.turnService None) "It is {2}.";
             getMessages (Scenario.turnService None)) tt) (Sample.store [] [] []))
  = inr ([HumanMessage (JStr "What is 1 + 1?") (Some "User");
          AIMessage (JStr "It is {2}.") (Some "AI") (JArr [])], tt).
Proof.
  exact (user_and_ai_text_round_trip "s1" "n1" "manual-1" "u1" (Some "wf1") "Helper"
           "What is 1 + 1?" "It is {2}." (Sample.store [] [] []) [] eq_refl).
Defined.

End HistoryExtras.

(** ** The service keyed by turn id: what reads see of writes *)

Section StoreExtras.
Import Js Repo Proxy ChatHubMessageHistory ReadBack.
#[local] Arguments History.buildMessageHistory : simpl never.
#[local] Arguments History.extractTurnIds : simpl never.
#[local] Arguments History.extractHumanMessageIds : simpl never.
#[local] Arguments record : simpl never.
#[local] Arguments drawn : simpl never.
#[local] Arguments appended : simpl never.
#[local] Arguments cleared : simpl never.

(** Rows of another node. *)
Lemma other_node (sid nid sid' nid' : string) (row : ChatHubMemory.t) :
  sid' <> sid \/ nid' <> nid ->
  ofSessionAndNode sid nid row = true -> ofSessionAndNode sid' nid' row = false.
Proof.
  unfold ofSessionAndNode. intros Hne H. apply andb_true_iff in H as [Hs Hn].
  apply String.eqb_eq in Hs, Hn. rewrite Hs, Hn.
  apply andb_false_iff. destruct Hne as [Hne|Hne]; [left|right]; apply String.eqb_neq; congruence.
Qed.

Lemma filter_none {A : Type} (f : A -> bool) (l : list A) :
  (forall x, In x l -> f x = false) -> List.filter f l = [].
Proof.
  induction l as [|x l IH]; intros H; [reflexivity|].
  cbn [List.filter]. rewrite (H x) by now left. apply IH. intros y Hy. apply H. now right.
Qed.

Lemma filter_filter {A : Type} (f g : A -> bool) (l : list A) :
  List.filter f (List.filter g l) = List.filter (fun x => g x && f x) l.
Proof.
  induction l as [|x l IH]; [reflexivity|]. cbn [List.filter].
  destruct (g x); cbn [List.filter andb]; [destruct (f x)|]; now rewrite IH.
Qed.

(** The result of [getMemory] in the turn scheme. *)
Lemma turn_getMemory_result (sid nid tid owner : string) (wf : option string) (agent : string)
    (p : option string) (w : World) :
  fst (run (getMemory (TurnScheme.operations sid nid p tid owner wf agent) tt) w)
  = match p with
    | None => inr (map toEntry (memoryOf sid nid w), tt)
    | Some _ =>
        match messagesOf sid w with
        | [] => inr ([], tt)
        | _ :: _ =>
            match History.buildMessageHistory (messagesOf sid w) None with
            | inl e => inl e
            | inr chain =>
                match History.extractTurnIds chain with
                | [] => inr ([], tt)
                | ids => inr (map toEntry (memoryByTurnIds sid nid ids w), tt)
                end
            end
        end
    end.
Proof.
  destruct p as [t|]; [|reflexivity]. cbn.
  change (messagesOf sid (record ?c w)) with (messagesOf sid w).
  destruct (messagesOf sid w) as [|m l]; [reflexivity|].
  destruct (History.buildMessageHistory _ _) as [e|chain]; [reflexivity|]. cbn.
  destruct (History.extractTurnIds chain); reflexivity.
Qed.


(** Writes leave the messages and the sessions alone. *)
Lemma turn_writeAll_tables (sid nid tid owner : string) (wf : option string) (agent : string)
    (p : option string) (writes : list Write) (w : World) :
  messages (snd (run (writeAll (TurnScheme.operations sid nid p tid owner wf agent) writes tt) w))
  = messages w
  /\ sessions (snd (run (writeAll (TurnScheme.operations sid nid p tid owner wf agent) writes tt)
                        w))
     = sessions w.
Proof.
  revert w. induction writes as [|x l IH]; intros w; [now split|].
  cbn [writeAll]. rewrite run_op_bind.
  destruct (turn_write sid nid owner wf agent p tid x w) as (row & w1 & Hrun & _).
  rewrite Hrun. destruct (IH w1) as [Hm Hs]. rewrite Hm, Hs.
  assert (H : snd (run (write (TurnScheme.operations sid nid p tid owner wf agent) x tt) w) = w1)
    by now rewrite Hrun.
  rewrite <- H. now destruct x.
Qed.

Lemma memoryOf_cleared (sid nid : string) (w : World) : memoryOf sid nid (cleared sid nid w) = [].
Proof.
  unfold memoryOf, cleared. cbn [memories]. rewrite filter_filter. apply filter_none.
  intros x _. now destruct (ofSessionAndNode sid nid x).
Qed.

Lemma memoryOf_cleared_other (sid nid sid' nid' : string) (w : World) :
  sid' <> sid \/ nid' <> nid ->
  memoryOf sid' nid' (cleared sid nid w) = memoryOf sid' nid' w.
Proof.
  intros Hne. unfold memoryOf, cleared. cbn [memories]. rewrite filter_filter.
  apply filter_ext. intros x. destruct (ofSessionAndNode sid nid x) eqn:E; [|reflexivity].
  cbn [negb andb]. symmetry. now apply (other_node sid nid).
Qed.

(** X6: [clear] deletes the memory of its own session and node, and of no
    other: a [getMessages] of the node then returns nothing, the memory of
    every other node and session is as before, and so are the chat messages
    and the sessions. *)
Theorem clear_empties_one_node (sid nid tid owner : string) (wf : option string)
    (agent : string) (p : option string) (w : World) :
  exists w1,
    run (clear (TurnScheme.operations sid nid p tid owner wf agent) tt) w = (inr (tt, tt), w1)
    /\ memoryOf sid nid w1 = []
    /\ (forall sid' nid', sid' <> sid \/ nid' <> nid ->
                          memoryOf sid' nid' w1 = memoryOf sid' nid' w)
    /\ messages w1 = messages w
    /\ sessions w1 = sessions w
    /\ fst (run (getMessages (TurnScheme.operations sid nid None tid owner wf agent) tt) w1)
       = inr ([], tt).
Proof.
  exists (cleared sid nid (record (deleteBySessionAndNode sid nid) w)).
  split; [reflexivity|]. split; [apply memoryOf_cleared|].
  split; [intros sid' nid' Hne; now rewrite memoryOf_cleared_other|].
  split; [reflexivity|]. split; [reflexivity|].
  unfold getMessages. rewrite run_op_bind, turn_getMemory_manual, memoryOf_cleared.
  reflexivity.
Qed.

(** X7: rows written through the service object of one node stay in that
    node: whatever is written, [getMemory] of an object for another node or
    another session returns what it returned before. *)
Theorem writes_stay_in_node (sid nid tid owner : string) (wf : option string) (agent : string)
    (p : option string) (sid' nid' tid' owner' : string) (wf' : option string)
    (agent' : string) (p' : option string) (writes : list Write) (w : World) :
  sid' <> sid \/ nid' <> nid ->
  exists w1,
    run (writeAll (TurnScheme.operations sid nid p tid owner wf agent) writes tt) w
    = (inr (tt, tt), w1)
    /\ memoryOf sid' nid' w1 = memoryOf sid' nid' w
    /\ fst (run (getMemory (TurnScheme.operations sid' nid' p' tid' owner' wf' agent') tt) w1)
       = fst (run (getMemory (TurnScheme.operations sid' nid' p' tid' owner' wf' agent') tt) w).
Proof.
  intros Hne.
  destruct (turn_writeAll sid nid owner wf agent p tid writes w)
    as (rows & w1 & Hrun & Hmem & _ & Hrows).
  destruct (turn_writeAll_tables sid nid tid owner wf agent p writes w) as [Hmsg _].
  rewrite Hrun in Hmsg. cbn [snd] in Hmsg.
  assert (Hrows' : forall x, In x rows -> ofSessionAndNode sid' nid' x = false).
  { intros x Hx. rewrite List.Forall_forall in Hrows. destruct (Hrows x Hx) as (_ & Hs & Hn).
    apply (other_node sid nid sid' nid' x Hne).
    unfold ofSessionAndNode. now rewrite Hs, Hn, !String.eqb_refl. }
  assert (Hother : forall f : ChatHubMemory.t -> bool,
            List.filter (fun r => ofSessionAndNode sid' nid' r && f r) (memories w1)
            = List.filter (fun r => ofSessionAndNode sid' nid' r && f r) (memories w)).
  { intros f. rewrite Hmem, List.filter_app, (filter_none _ rows), app_nil_r; [reflexivity|].
    intros x Hx. now rewrite (Hrows' x Hx). }
  assert (Hnode : memoryOf sid' nid' w1 = memoryOf sid' nid' w).
  { unfold memoryOf. now rewrite Hmem, List.filter_app, (filter_none _ rows Hrows'), app_nil_r. }
  exists w1. split; [exact Hrun|]. split; [exact Hnode|].
  rewrite !turn_getMemory_result.
  assert (messagesOf sid' w1 = messagesOf sid' w) as -> by (unfold messagesOf; now rewrite Hmsg).
  rewrite Hnode. destruct p' as [t'|]; [|reflexivity].
  destruct (messagesOf sid' w) as [|m l]; [reflexivity|].
  destruct (History.buildMessageHistory _ _) as [e|chain]; [reflexivity|].
  destruct (History.extractTurnIds chain) as [|i ids]; [reflexivity|].
  unfold memoryByTurnIds. now rewrite Hother.
Qed.

Lemma writes_stay_in_node_witness :
  exists w1,
    run (writeAll (Scenario.turnService (Some "t3")) [writeHuman "again"; writeAI "yes"] tt)
        Scenario.afterTwoTurns
    = (inr (tt, tt), w1)
    /\ memoryOf "s1" "n2" w1 = memoryOf "s1" "n2" Scenario.afterTwoTurns
    /\ fst (run (getMemory (TurnScheme.operations "s1" "n2" None "manual-2" "u1" (Some "wf1")
                                                  "Helper") tt) w1)
       = fst (run (getMemory (TurnScheme.operations "s1" "n2" None "manual-2" "u1" (Some "wf1")
                                                    "Helper") tt) Scenario.afterTwoTurns).
Proof.
  apply (writes_stay_in_node "s1" "n1" "t3" "u1" (Some "wf1") "Helper" (Some "t3")
           "s1" "n2" "manual-2" "u1" (Some "wf1") "Helper" None).
  right. discriminate.
Defined.


(** The rows a sequence of writes appends. *)
Lemma turn_writeAll_rows (sid nid tid owner : string) (wf : option string) (agent : string)
    (p : option string) (writes : list Write) (w : World) :
  exists rows w1,
    run (writeAll (TurnScheme.operations sid nid p tid owner wf agent) writes tt) w
    = (inr (tt, tt), w1)
    /\ memories w1 = (memories w ++ rows)%list
    /\ messages w1 = messages w
    /\ map (fun r => (ChatHubMemory.role r, ChatHubMemory.content r, ChatHubMemory.name r)) rows
       = map (fun x => (writeRole x, writeContent x, writeName x)) writes
    /\ Forall (fun row => ofSessionAndNode sid nid row = true
                          /\ ChatHubMemory.turnId row = Some tid) rows.
Proof.
  revert w. induction writes as [|x l IH]; intros w.
  - exists [], w. cbn. rewrite app_nil_r. repeat split. constructor.
  - assert (Hx : exists row,
               run (write (TurnScheme.operations sid nid p tid owner wf agent) x tt) w
               = (inr (tt, tt), appended row (record (createMemoryEntry row)
                                                     (drawn (record uuid w))))
               /\ NewMemory.role row = writeRole x /\ NewMemory.content row = writeContent x
               /\ NewMemory.name row = writeName x
               /\ NewMemory.sessionId row = sid /\ NewMemory.memoryNodeId row = nid
               /\ NewMemory.turnId row = Some tid).
    { destruct x; eexists; (split; [reflexivity|]); cbn; auto 10. }
    destruct Hx as (e & Hrun & Hr & Hc & Hn & Hs & Hnode & Ht).
    destruct (IH (appended e (record (createMemoryEntry e) (drawn (record uuid w)))))
      as (rows & w2 & Hrun2 & Hmem2 & Hmsg2 & Hmap & Hall).
    exists (stamp e (clock w) :: rows), w2.
    cbn [writeAll]. rewrite run_op_bind, Hrun, Hrun2. split; [reflexivity|].
    split; [|split; [|split]].
    + rewrite Hmem2. unfold appended. cbn [memories]. now rewrite <- app_assoc.
    + rewrite Hmsg2. reflexivity.
    + cbn [map]. rewrite Hmap. unfold stamp. cbn. now rewrite Hr, Hc, Hn.
    + constructor; [|exact Hall]. unfold ofSessionAndNode, stamp. cbn.
      now rewrite Hs, Hnode, Ht, !String.eqb_refl.
Qed.

Lemma keyIn_not_In (ids : list string) (t : string) : ~ In t ids -> keyIn ids (Some t) = false.
Proof.
  intros H. cbn [keyIn]. destruct (existsb (String.eqb t) ids) eqn:E; [|reflexivity].
  apply existsb_exists in E as (y & Hy & E). apply String.eqb_eq in E. now subst y.
Qed.

(** X8: in a manual execution a service object reads its own writes:
    [getMemory] after some writes returns the memory of the node before
    them followed by the written rows.  In a Chat Hub execution it does
    not, as long as no AI message on the active path carries the turn id
    of the execution: [getMemory] returns what it returned before the
    writes. *)
Theorem turn_reads_after_writes (sid nid owner : string) (wf : option string) (agent : string)
    (writes : list Write) (w : World) :
  (forall tid,
      exists rows w1,
        run (writeAll (TurnScheme.operations sid nid None tid owner wf agent) writes tt) w
        = (inr (tt, tt), w1)
        /\ map (fun r => (ChatHubMemoryEntry.role r, ChatHubMemoryEntry.content r,
                          ChatHubMemoryEntry.name r)) rows
           = map (fun x => (writeRole x, writeContent x, writeName x)) writes
        /\ fst (run (getMemory (TurnScheme.operations sid nid None tid owner wf agent) tt) w1)
           = inr ((map toEntry (memoryOf sid nid w) ++ rows)%list, tt))
  /\ (forall t path,
         History.buildMessageHistory (messagesOf sid w) None = inr path ->
         ~ In t (History.extractTurnIds path) ->
         exists w1,
           run (writeAll (TurnScheme.operations sid nid (Some t) t owner wf agent) writes tt) w
           = (inr (tt, tt), w1)
           /\ fst (run (getMemory (TurnScheme.operations sid nid (Some t) t owner wf agent) tt)
                       w1)
              = fst (run (getMemory (TurnScheme.operations sid nid (Some t) t owner wf agent) tt)
                         w)).
Proof.
  split.
  - intros tid.
    destruct (turn_writeAll_rows sid nid tid owner wf agent None writes w)
      as (rows & w1 & Hrun & Hmem & _ & Hmap & Hall).
    exists (map toEntry rows), w1. split; [exact Hrun|]. split.
    + rewrite map_map. exact Hmap.
    + rewrite turn_getMemory_manual. cbn [fst].
      rewrite (memoryOf_app sid nid w w1 rows Hmem), map_app; [reflexivity|].
      eapply List.Forall_impl; [|exact Hall]. now intros a [Ha _].
  - intros t path Hpath Ht.
    destruct (turn_writeAll_rows sid nid t owner wf agent (Some t) writes w)
      as (rows & w1 & Hrun & Hmem & Hmsg & _ & Hall).
    exists w1. split; [exact Hrun|]. rewrite !turn_getMemory_result.
    assert (messagesOf sid w1 = messagesOf sid w) as -> by (unfold messagesOf; now rewrite Hmsg).
    destruct (messagesOf sid w) as [|m l]; [reflexivity|]. rewrite Hpath.
    destruct (History.extractTurnIds path) as [|i ids] eqn:E; [reflexivity|].
    unfold memoryByTurnIds. rewrite Hmem, List.filter_app, (filter_none _ rows), app_nil_r;
      [reflexivity|].
    intros x Hx. rewrite List.Forall_forall in Hall. destruct (Hall x Hx) as [_ Hturn].
    rewrite Hturn, (keyIn_not_In _ _ Ht). apply andb_false_r.
Qed.

Lemma turn_reads_after_writes_witness :
  exists w1,
    run (writeAll (Scenario.turnService (Some "t3")) [writeHuman "again"; writeAI "yes"] tt)
        Scenario.afterTwoTurns
    = (inr (tt, tt), w1)
    /\ fst (run (getMemory (Scenario.turnService (Some "t3")) tt) w1)
       = fst (run (getMemory (Scenario.turnService (Some "t3")) tt) Scenario.afterTwoTurns).
Proof.
  apply (proj2 (turn_reads_after_writes "s1" "n1" "u1" (Some "wf1") "Helper"
                  [writeHuman "again"; writeAI "yes"] Scenario.afterTwoTurns)
               "t3" Sample.twoTurns eq_refl).
  intros [H|[H|[]]]; discriminate.
Defined.


(** X17: in a Chat Hub execution of the second revision, [getMemory] asks
    the memory repository for the rows of its node under the turn ids of
    the active path, whatever the turn id of the execution is; what it
    returns are the rows of the session and the node whose turn id is one
    of them, so a row of a turn that is not on the active path is never
    returned. *)
Theorem turn_getMemory_filters_by_turn_ids (sid nid t tid owner : string)
    (wf : option string) (agent : string) (w : World) (path : list ChatHubMessage.t) :
  messagesOf sid w <> [] ->
  History.buildMessageHistory (messagesOf sid w) None = inr path ->
  run (getMemory (TurnScheme.operations sid nid (Some t) tid owner wf agent) tt) w
  = match History.extractTurnIds path with
    | [] => (inr ([], tt), record (getManyBySessionId sid) w)
    | ids =>
        (inr (map toEntry (memoryByTurnIds sid nid ids w), tt),
         record (getMemoryByTurnIds sid nid ids) (record (getManyBySessionId sid) w))
    end
  /\ (forall row,
         In row (memoryByTurnIds sid nid (History.extractTurnIds path) w)
         <-> In row (memories w)
             /\ ChatHubMemory.sessionId row = sid
             /\ ChatHubMemory.memoryNodeId row = nid
             /\ exists turn, ChatHubMemory.turnId row = Some turn
                             /\ In turn (History.extractTurnIds path)).
Proof.
  intros Hmsg Hpath. split.
  - cbn. change (messagesOf sid (record ?c w)) with (messagesOf sid w).
    destruct (messagesOf sid w) as [|m l] eqn:E; [contradiction|].
    rewrite Hpath. cbn. now destruct (History.extractTurnIds path).
  - intros row. unfold memoryByTurnIds. rewrite filter_In.
    unfold ofSessionAndNode, keyIn. rewrite !andb_true_iff, !String.eqb_eq.
    split.
    + intros (Hin & (Hs & Hn) & Hk). split; [exact Hin|]. split; [exact Hs|].
      split; [exact Hn|]. destruct (ChatHubMemory.turnId row) as [turn|]; [|discriminate].
      exists turn. split; [reflexivity|].
      apply existsb_exists in Hk as (y & Hy & Ey). apply String.eqb_eq in Ey. now subst y.
    + intros (Hin & Hs & Hn & turn & Ht & Hturn). split; [exact Hin|]. split; [now split|].
      rewrite Ht. apply existsb_exists. exists turn. split; [exact Hturn | apply String.eqb_refl].
Qed.

Lemma turn_getMemory_filters_by_turn_ids_witness :
  run (getMemory (Scenario.turnService (Some "t3")) tt) Scenario.afterTwoTurns
  = (inr (map toEntry Scenario.twoTurnsMemory, tt),
     record (getMemoryByTurnIds "s1" "n1" ["t1"; "t2"])
            (record (getManyBySessionId "s1") Scenario.afterTwoTurns)).
Proof.
  assert (Hmsg : messagesOf "s1" Scenario.afterTwoTurns <> []) by discriminate.
  exact (proj1 (turn_getMemory_filters_by_turn_ids "s1" "n1" "t3" "t3" "u1" (Some "wf1")
                  "Helper" Scenario.afterTwoTurns Sample.twoTurns Hmsg eq_refl)).
Defined.

End StoreExtras.

(** ** Sessions and grants *)

Section SessionExtras.
Import Js Repo Proxy ChatHubMessageHistory ReadBack.
#[local] Arguments record : simpl never.
#[local] Arguments inserted : simpl never.
#[local] Arguments sessionExists : simpl never.
#[local] Arguments sessionIdTaken : simpl never.
#[local] Arguments newSession : simpl never.
#[local] Arguments extractAgentName : simpl never.

Lemma sessionExists_inserted (sid owner title : string) (now : nat) (wf : option string)
    (agent : string) (w : World) :
  sessionExists sid owner (inserted (newSession sid owner title now wf agent) w) = true.
Proof.
  unfold sessionExists, inserted. cbn [sessions]. rewrite existsb_app.
  apply orb_true_iff. right. unfold newSession. cbn. now rewrite !String.eqb_refl.
Qed.

Lemma sessionCalls_record (c : Cmd) (w : World) :
  sessionCalls (record c w) = (sessionCalls w ++ (if isSessionCall c then [c] else []))%list.
Proof.
  unfold sessionCalls, record. cbn [calls]. rewrite List.filter_app. cbn [List.filter].
  now destruct (isSessionCall c).
Qed.

(** X9: once [ensureSession] has returned, the owner has the session, and
    a further [ensureSession] of either revision only asks whether the
    session exists: it inserts nothing and does not throw. *)
Theorem ensureSession_idempotent (sid owner : string) (wf : option string) (agent : string)
    (title title' : option string) (cl : ParentScheme.Closure) (w : World) :
  (forall w1,
      run (TurnScheme.ensureSession sid owner wf agent tt tt) w = (inr (tt, tt), w1) ->
      sessionExists sid owner w1 = true
      /\ exists w2,
          run (TurnScheme.ensureSession sid owner wf agent tt tt) w1 = (inr (tt, tt), w2)
          /\ sessions w2 = sessions w1
          /\ sessionCalls w2 = (sessionCalls w1 ++ [existsById sid owner])%list)
  /\ (forall w1,
         run (ParentScheme.ensureSession sid owner wf agent title cl) w = (inr (tt, cl), w1) ->
         sessionExists sid owner w1 = true
         /\ exists w2,
             run (ParentScheme.ensureSession sid owner wf agent title' cl) w1
             = (inr (tt, cl), w2)
             /\ sessions w2 = sessions w1
             /\ sessionCalls w2 = (sessionCalls w1 ++ [existsById sid owner])%list).
Proof.
  assert (Hafter : forall (w1 : World),
            sessionExists sid owner w1 = true ->
            exists w2, (record (existsById sid owner) w1) = w2
                       /\ sessions w2 = sessions w1
                       /\ sessionCalls w2 = (sessionCalls w1 ++ [existsById sid owner])%list).
  { intros w1 _. eexists. split; [reflexivity|]. split; [reflexivity|].
    now rewrite sessionCalls_record. }
  split.
  - intros w1. rewrite turn_ensureSession_run.
    destruct (sessionExists sid owner w) eqn:E.
    + intros [= <-]. split; [exact E|]. rewrite turn_ensureSession_run.
      change (sessionExists sid owner (record ?c w)) with (sessionExists sid owner w).
      rewrite E. destruct (Hafter (record (existsById sid owner) w) E) as (w2 & <- & H).
      now eexists.
    + cbn zeta. destruct (sessionIdTaken sid w); [discriminate|]. intros [= <-].
      split; [apply sessionExists_inserted|]. rewrite turn_ensureSession_run.
      rewrite sessionExists_inserted.
      destruct (Hafter _ (sessionExists_inserted sid owner agent (clock w) wf agent
                            (record (createChatSession (newSession sid owner agent (clock w) wf agent))
                               (record newDate (record (existsById sid owner) w)))))
        as (w2 & <- & H).
      now eexists.
  - intros w1. rewrite parent_ensureSession_run.
    destruct (sessionExists sid owner w) eqn:E.
    + intros [= <-]. split; [exact E|]. rewrite parent_ensureSession_run.
      change (sessionExists sid owner (record ?c w)) with (sessionExists sid owner w).
      rewrite E. destruct (Hafter (record (existsById sid owner) w) E) as (w2 & <- & H).
      now eexists.
    + cbn zeta. destruct (sessionIdTaken sid w); [discriminate|]. intros [= <-].
      split; [apply sessionExists_inserted|]. rewrite parent_ensureSession_run.
      rewrite sessionExists_inserted.
      destruct (Hafter _ (sessionExists_inserted sid owner (default agent (truthy title))
                            (clock w) wf agent
                            (record (createChatSession
                                       (newSession sid owner (default agent (truthy title))
                                                   (clock w) wf agent))
                               (record newDate (record (existsById sid owner) w)))))
        as (w2 & <- & H).
      now eexists.
Qed.

Lemma ensureSession_idempotent_witness :
  exists w1 w2,
    run (TurnScheme.ensureSession "s1" "u1" (Some "wf1") "Helper" tt tt) (Sample.store [] [] [])
    = (inr (tt, tt), w1)
    /\ length (sessions w1) = 1
    /\ run (TurnScheme.ensureSession "s1" "u1" (Some "wf1") "Helper" tt tt) w1
       = (inr (tt, tt), w2)
    /\ sessions w2 = sessions w1.
Proof.
  eexists.
  destruct (proj1 (ensureSession_idempotent "s1" "u1" (Some "wf1") "Helper" None None
                     (ParentScheme.initialClosure None) (Sample.store [] [] []))
                  _ eq_refl) as (_ & w2 & Hrun & Hsame & _).
  exists w2. split; [reflexivity|]. split; [reflexivity|]. now split.
Defined.


Lemma isAllowedNode_iff (s : string) : isAllowedNode s = true <-> s = CHAT_HUB_MEMORY_TYPE.
Proof.
  unfold isAllowedNode, ALLOWED_NODES. cbn [existsb]. rewrite orb_false_r. apply String.eqb_eq.
Qed.

Lemma truthy_Some (o : option string) (s : string) :
  truthy o = Some s <-> o = Some s /\ s <> EmptyString.
Proof.
  unfold truthy. destruct o as [t|]; [|split; [discriminate | now intros [? _]]].
  destruct (String.eqb t EmptyString) eqn:E.
  - apply String.eqb_eq in E. subst t. split; [discriminate|]. intros [[= <-] H]. contradiction.
  - apply String.eqb_neq in E. split; [intros [= <-]; now split | now intros [[= <-] _]].
Qed.

(** X10: [getChatHubProxy] grants a service object exactly to a node of
    type Chat Hub memory with an owner id that is not empty; the object
    then answers [getOwnerId] with that owner, and granting it has written
    nothing to the tables. *)
Theorem getChatHubProxy_grants_iff (workflow : Workflow.t) (node : Workflow.INode)
    (sid nid : string) (hint : option string) (exclude : bool) (ownerId : option string)
    (w : World) :
  ((exists handle,
       ParentScheme.getChatHubProxy workflow node sid nid hint exclude ownerId = inr handle)
   <-> Workflow.type node = CHAT_HUB_MEMORY_TYPE
       /\ exists owner, ownerId = Some owner /\ owner <> EmptyString)
  /\ ((exists service w1,
          run (TurnScheme.getChatHubProxy workflow node sid nid hint ownerId) w
          = (inr service, w1))
      <-> Workflow.type node = CHAT_HUB_MEMORY_TYPE
          /\ exists owner, ownerId = Some owner /\ owner <> EmptyString)
  /\ (forall service cl,
         ParentScheme.getChatHubProxy workflow node sid nid hint exclude ownerId
         = inr (service, cl) ->
         Some (getOwnerId service) = ownerId /\ cl = ParentScheme.initialClosure hint)
  /\ (forall service w1,
         run (TurnScheme.getChatHubProxy workflow node sid nid hint ownerId) w
         = (inr service, w1) ->
         Some (getOwnerId service) = ownerId
         /\ messages w1 = messages w /\ memories w1 = memories w /\ sessions w1 = sessions w).
Proof.
  unfold ParentScheme.getChatHubProxy, TurnScheme.getChatHubProxy,
    ParentScheme.validateRequest, TurnScheme.validateRequest.
  pose proof (isAllowedNode_iff (Workflow.type node)) as Hnode.
  destruct (isAllowedNode (Workflow.type node)).
  - destruct (truthy ownerId) as [owner|] eqn:Eo.
    + apply truthy_Some in Eo as [-> Hne]. cbn [lift]. unfold mbind, Prog_bind. cbn [bind].
      assert (Hcond : Workflow.type node = CHAT_HUB_MEMORY_TYPE
                      /\ exists o, Some owner = Some o /\ o <> EmptyString).
      { split; [now apply Hnode | now exists owner]. }
      split; [|split; [|split]].
      * split; [intros _; exact Hcond | intros _; now eexists].
      * split; [intros _; exact Hcond|]. intros _.
        destruct hint as [t|]; cbn; now eexists; eexists.
      * intros service cl [= <- <-]. now split.
      * intros service w1. destruct hint as [t|]; cbn; intros [= <- <-]; now repeat split.
    + assert (Hno : ~ exists o, ownerId = Some o /\ o <> EmptyString).
      { intros (o & Ho & Hne). assert (truthy ownerId = Some o) as E by now apply truthy_Some.
        congruence. }
      cbn [lift]. unfold mbind, Prog_bind. cbn [bind run].
      split; [|split; [|split]].
      * split; [intros [h H]; discriminate | intros [_ H]; contradiction].
      * split; [intros (s & w1 & H); discriminate | intros [_ H]; contradiction].
      * intros service cl H. discriminate.
      * intros service w1 H. discriminate.
  - assert (Hno : Workflow.type node <> CHAT_HUB_MEMORY_TYPE).
    { intros H. apply Hnode in H. discriminate. }
    cbn [lift]. unfold mbind, Prog_bind. cbn [bind run].
    split; [|split; [|split]].
    * split; [intros [h H]; discriminate | intros [H _]; contradiction].
    * split; [intros (s & w1 & H); discriminate | intros [H _]; contradiction].
    * intros service cl H. discriminate.
    * intros service w1 H. discriminate.
Qed.

Lemma blank_fallback : blank NAME_FALLBACK = false.
Proof. reflexivity. Qed.

(** X11: the agent name [extractAgentName] finds is never blank, whatever
    the workflow; so a session row that [ensureSession] of the second
    revision creates has a title and an agent name that are not blank. *)
Theorem agentName_not_blank (workflow : Workflow.t) :
  blank (extractAgentName workflow) = false
  /\ (forall (node : Workflow.INode) (sid nid : string) (hint ownerId : option string)
             (service : IChatHubMemoryService unit unit) (w0 w1 w : World)
             (row : ChatHubSession.t),
         run (TurnScheme.getChatHubProxy workflow node sid nid hint ownerId) w0
         = (inr service, w1) ->
         In row (sessions (snd (run (ensureSession service tt tt) w))) ->
         In row (sessions w)
         \/ (blank (ChatHubSession.title row) = false
             /\ blank (ChatHubSession.agentName row) = false
             /\ Some (ChatHubSession.ownerId row) = ownerId)).
Proof.
  assert (Hblank : blank (extractAgentName workflow) = false).
  { rewrite extractAgentName_tiers. unfold expectedTitle, triggerAgentName, workflowName.
    cbn [providedTitle].
    destruct (List.find _ _) as [n|].
    - destruct (get_prop (Workflow.parameters n) "agentName") as [[| | | |a| |]|];
        try destruct (blank a) eqn:Ea; try exact Ea;
        destruct (Workflow.name workflow) as [m|]; try reflexivity;
        destruct (blank m) eqn:Em; try exact Em; reflexivity.
    - destruct (Workflow.name workflow) as [m|]; try reflexivity;
        destruct (blank m) eqn:Em; try exact Em; reflexivity. }
  split; [exact Hblank|].
  intros node sid nid hint ownerId service w0 w1 w row H Hin.
  unfold TurnScheme.getChatHubProxy in H.
  destruct (TurnScheme.validateRequest node); [discriminate|]. cbn in H.
  destruct (truthy ownerId) as [owner|] eqn:Eo; [|discriminate].
  apply truthy_Some in Eo as [-> _].
  assert (exists tid, service
            = TurnScheme.operations sid nid hint tid owner (Workflow.workflowId workflow)
                (extractAgentName workflow)) as [tid ->].
  { destruct hint as [t|]; cbn in H; injection H as <- _; eexists; reflexivity. }
  change (ensureSession (TurnScheme.operations ?a ?b ?c ?d ?e ?f ?g))
    with (TurnScheme.ensureSession a e f g) in Hin.
  rewrite turn_ensureSession_run in Hin.
  destruct (sessionExists sid owner w); [now left|]. cbn zeta in Hin.
  destruct (sessionIdTaken sid w); [now left|].
  unfold inserted in Hin. cbn [snd sessions] in Hin.
  apply in_app_or in Hin as [Hin|[<-|[]]]; [now left|]. right.
  unfold newSession. cbn. auto.
Qed.

End SessionExtras.

(** ** The service keyed by parent message id: writes and reads of one object *)

Section ParentExtras.
Import Js Repo Proxy ReadBack.
#[local] Arguments History.buildMessageHistory : simpl never.
#[local] Arguments History.extractTurnIds : simpl never.
#[local] Arguments History.extractHumanMessageIds : simpl never.
#[local] Arguments ParentScheme.lookupIds : simpl never.
#[local] Arguments messagesOf : simpl never.
#[local] Arguments record : simpl never.
#[local] Arguments drawn : simpl never.
#[local] Arguments appended : simpl never.

Variables (sid nid : string) (exclude : bool) (owner : string) (wf : option string)
  (agent : string).

Lemma messageCalls_record (c : Cmd) (w : World) :
  messageCalls (record c w) = (messageCalls w ++ (if isMessageCall c then [c] else []))%list.
Proof.
  unfold messageCalls, record. cbn [calls]. rewrite List.filter_app. cbn [List.filter].
  now destruct (isMessageCall c).
Qed.

(** A write of the first revision: the parent message id is resolved, a
    uuid is drawn, the row is appended. *)
Lemma parent_write_run (x : Write) (cl : ParentScheme.Closure) (w : World) :
  run (write (ParentScheme.makeChatHubOperations sid nid exclude owner wf agent) x cl) w
  = match run (ParentScheme.resolveParentMessageId sid cl) w with
    | (inr (pid, cl1), w1) =>
        let e := NewMemory.mk (uuidSource w1 (uuidCount w1)) sid nid None pid
                              (writeRole x) (writeContent x) (writeName x) in
        (inr (tt, cl1), appended e (record (createMemoryEntry e) (drawn (record uuid w1))))
    | (inl err, w1) => (inl err, w1)
    end.
Proof.
  destruct x; cbn [write addHumanMessage addAIMessage addToolMessage
                   ParentScheme.makeChatHubOperations];
    unfold ParentScheme.addHumanMessage, ParentScheme.addAIMessage,
      ParentScheme.addToolMessage;
    rewrite run_op_bind;
    destruct (run (ParentScheme.resolveParentMessageId sid cl) w) as [[err|[pid cl1]] w1];
    reflexivity.
Qed.

Lemma parent_writeAll_resolved (writes : list Write) (cl : ParentScheme.Closure) (w : World) :
  ParentScheme.parentMessageIdResolved cl = true ->
  exists rows w1,
    run (writeAll (ParentScheme.makeChatHubOperations sid nid exclude owner wf agent) writes cl)
        w
    = (inr (tt, cl), w1)
    /\ memories w1 = (memories w ++ rows)%list
    /\ messages w1 = messages w
    /\ messageCalls w1 = messageCalls w
    /\ map (fun r => (ChatHubMemory.role r, ChatHubMemory.content r, ChatHubMemory.name r)) rows
       = map (fun x => (writeRole x, writeContent x, writeName x)) writes
    /\ Forall (fun row => ofSessionAndNode sid nid row = true
                          /\ ChatHubMemory.parentMessageId row
                             = ParentScheme.resolvedParentMessageId cl
                          /\ ChatHubMemory.turnId row = None) rows.
Proof.
  intros Hcl. revert w. induction writes as [|x l IH]; intros w.
  - exists [], w. cbn. rewrite app_nil_r. repeat split. constructor.
  - cbn [writeAll]. rewrite run_op_bind, parent_write_run, resolveParentMessageId_run, Hcl.
    cbn zeta.
    set (e := NewMemory.mk (uuidSource w (uuidCount w)) sid nid None
                (ParentScheme.resolvedParentMessageId cl) (writeRole x) (writeContent x)
                (writeName x)).
    destruct (IH (appended e (record (createMemoryEntry e) (drawn (record uuid w)))))
      as (rows & w2 & Hrun2 & Hmem2 & Hmsg2 & Hcalls2 & Hmap & Hall).
    exists (stamp e (clock w) :: rows), w2. rewrite Hrun2. split; [reflexivity|].
    split; [|split; [|split; [|split]]].
    + rewrite Hmem2. unfold appended. cbn [memories]. now rewrite <- app_assoc.
    + rewrite Hmsg2. reflexivity.
    + rewrite Hcalls2. unfold messageCalls, appended, record, drawn. cbn [calls].
      rewrite !List.filter_app. cbn. now rewrite !app_nil_r.
    + cbn [map]. now rewrite Hmap.
    + constructor; [|exact Hall]. unfold ofSessionAndNode, stamp. cbn.
      now rewrite !String.eqb_refl.
Qed.

(** X12: every row written through one service object of the first
    revision carries one parent message id.  It is the id the object was
    made with; without one, it is the id of the last human message on the
    active path as the first write finds it, looked up once: the later
    writes do not ask the message repository again. *)
Theorem parent_writes_share_parent_id (writes : list Write) (w : World) :
  (forall p,
      exists rows w1,
        run (writeAll (ParentScheme.makeChatHubOperations sid nid exclude owner wf agent) writes
                      (ParentScheme.initialClosure (Some p))) w
        = (inr (tt, ParentScheme.initialClosure (Some p)), w1)
        /\ memories w1 = (memories w ++ rows)%list
        /\ length rows = length writes
        /\ Forall (fun row => ChatHubMemory.parentMessageId row = Some p
                              /\ ofSessionAndNode sid nid row = true) rows
        /\ messageCalls w1 = messageCalls w)
  /\ (forall x path,
         History.buildMessageHistory (messagesOf sid w) None = inr path ->
         exists rows w1,
           run (writeAll (ParentScheme.makeChatHubOperations sid nid exclude owner wf agent)
                         (x :: writes) (ParentScheme.initialClosure None)) w
           = (inr (tt, ParentScheme.mkClosure (last (History.extractHumanMessageIds path)) true),
              w1)
           /\ memories w1 = (memories w ++ rows)%list
           /\ length rows = S (length writes)
           /\ Forall (fun row => ChatHubMemory.parentMessageId row
                                 = last (History.extractHumanMessageIds path)
                                 /\ ofSessionAndNode sid nid row = true) rows
           /\ messageCalls w1 = (messageCalls w ++ [getManyBySessionId sid])%list)
  /\ (forall x e,
         History.buildMessageHistory (messagesOf sid w) None = inl e ->
         exists w1,
           run (writeAll (ParentScheme.makeChatHubOperations sid nid exclude owner wf agent)
                         (x :: writes) (ParentScheme.initialClosure None)) w
           = (inl e, w1)
           /\ memories w1 = memories w).
Proof.
  split; [|split].
  - intros p.
    destruct (parent_writeAll_resolved writes (ParentScheme.initialClosure (Some p)) w eq_refl)
      as (rows & w1 & Hrun & Hmem & _ & Hcalls & Hmap & Hall).
    exists rows, w1. split; [exact Hrun|]. split; [exact Hmem|]. split; [|split].
    + rewrite <- (length_map (fun r => (ChatHubMemory.role r, ChatHubMemory.content r,
                                        ChatHubMemory.name r)) rows), Hmap.
      apply length_map.
    + eapply List.Forall_impl; [|exact Hall]. now intros a (Ha & Hb & _).
    + exact Hcalls.
  - intros x path Hpath.
    set (pid := last (History.extractHumanMessageIds path)).
    set (e := NewMemory.mk (uuidSource w (uuidCount w)) sid nid None pid (writeRole x)
                (writeContent x) (writeName x)).
    set (w0 := record (getManyBySessionId sid) w).
    destruct (parent_writeAll_resolved writes (ParentScheme.mkClosure pid true)
                (appended e (record (createMemoryEntry e) (drawn (record uuid w0)))) eq_refl)
      as (rows & w1 & Hrun & Hmem & _ & Hcalls & Hmap & Hall).
    exists (stamp e (clock w) :: rows), w1.
    cbn [writeAll]. rewrite run_op_bind, parent_write_run, resolveParentMessageId_run.
    cbn [ParentScheme.initialClosure ParentScheme.parentMessageIdResolved]. rewrite Hpath.
    cbn zeta. fold pid. fold w0.
    change (uuidSource w0 (uuidCount w0)) with (uuidSource w (uuidCount w)). fold e.
    rewrite Hrun. split; [reflexivity|]. split; [|split; [|split]].
    + rewrite Hmem. unfold appended. cbn [memories]. now rewrite <- app_assoc.
    + cbn [length]. f_equal.
      rewrite <- (length_map (fun r => (ChatHubMemory.role r, ChatHubMemory.content r,
                                        ChatHubMemory.name r)) rows), Hmap.
      apply length_map.
    + constructor.
      * split; [reflexivity|]. unfold ofSessionAndNode, stamp. cbn. now rewrite !String.eqb_refl.
      * eapply List.Forall_impl; [|exact Hall]. now intros a (Ha & Hb & _).
    + rewrite Hcalls. unfold messageCalls, appended, record, drawn, w0, record. cbn [calls].
      rewrite !List.filter_app. cbn. now rewrite !app_nil_r.
  - intros x e Hpath. eexists.
    cbn [writeAll]. rewrite run_op_bind, parent_write_run, resolveParentMessageId_run.
    cbn [ParentScheme.initialClosure ParentScheme.parentMessageIdResolved]. rewrite Hpath.
    split; reflexivity.
Qed.


Lemma keyIn_In (ids : list string) (t : string) : In t ids -> keyIn ids (Some t) = true.
Proof.
  intros H. cbn [keyIn]. apply existsb_exists. exists t. split; [exact H | apply String.eqb_refl].
Qed.

Lemma filterSet_regenerating (pid : string) (path : list ChatHubMessage.t) :
  ~ In pid (ParentScheme.filterSet true pid path).
Proof.
  unfold ParentScheme.filterSet. intros H. apply filter_In in H as [_ H].
  now rewrite String.eqb_refl in H.
Qed.

Lemma filterSet_current (pid : string) (path : list ChatHubMessage.t) :
  In pid (ParentScheme.filterSet false pid path).
Proof.
  unfold ParentScheme.filterSet. destruct (bool_decide _) eqn:E.
  - apply bool_decide_eq_true_1 in E. now apply list_elem_of_In.
  - apply in_or_app. right. now left.
Qed.

(** X13: in the first revision, a row written through a service object made
    with a parent message id is returned by the next [getMemory] of that
    object, after what it returned before; but not when the object was
    made for a regeneration: then [getMemory] returns after the write what
    it returned before it. *)
Theorem parent_reads_after_write (x : Write) (pid : string) (path : list ChatHubMessage.t)
    (w : World) :
  pid <> EmptyString ->
  History.buildMessageHistory (messagesOf sid w) (Some pid) = inr path ->
  exists row w1,
    run (write (ParentScheme.makeChatHubOperations sid nid exclude owner wf agent) x
               (ParentScheme.initialClosure (Some pid))) w
    = (inr (tt, ParentScheme.initialClosure (Some pid)), w1)
    /\ memories w1 = (memories w ++ [row])%list
    /\ ChatHubMemory.parentMessageId row = Some pid
    /\ (ChatHubMemory.role row, ChatHubMemory.content row, ChatHubMemory.name row)
       = (writeRole x, writeContent x, writeName x)
    /\ (exclude = true ->
        fst (run (getMemory (ParentScheme.makeChatHubOperations sid nid exclude owner wf agent)
                            (ParentScheme.initialClosure (Some pid))) w1)
        = fst (run (getMemory (ParentScheme.makeChatHubOperations sid nid exclude owner wf agent)
                              (ParentScheme.initialClosure (Some pid))) w))
    /\ (exclude = false ->
        exists old,
          fst (run (getMemory (ParentScheme.makeChatHubOperations sid nid exclude owner wf agent)
                              (ParentScheme.initialClosure (Some pid))) w)
          = inr (old, ParentScheme.initialClosure (Some pid))
          /\ fst (run (getMemory
                         (ParentScheme.makeChatHubOperations sid nid exclude owner wf agent)
                         (ParentScheme.initialClosure (Some pid))) w1)
             = inr ((old ++ [toEntry row])%list, ParentScheme.initialClosure (Some pid))).
Proof.
  intros Hpid Hpath. set (cl := ParentScheme.initialClosure (Some pid)).
  set (e := NewMemory.mk (uuidSource w (uuidCount w)) sid nid None (Some pid) (writeRole x)
              (writeContent x) (writeName x)).
  set (w1 := appended e (record (createMemoryEntry e) (drawn (record uuid w)))).
  exists (stamp e (clock w)), w1.
  assert (Hres : forall w', run (ParentScheme.resolveParentMessageId sid cl) w'
                            = (inr (Some pid, cl), w')).
  { intros w'. now rewrite resolveParentMessageId_run. }
  split; [now rewrite parent_write_run, Hres|].
  split; [reflexivity|]. split; [reflexivity|]. split; [reflexivity|].
  assert (Hpath1 : History.buildMessageHistory (messagesOf sid w1) (Some pid) = inr path)
    by exact Hpath.
  pose proof (parent_getMemory_run sid nid exclude owner wf agent cl cl w w pid path
                (Hres w) Hpid Hpath) as Hget.
  pose proof (parent_getMemory_run sid nid exclude owner wf agent cl cl w1 w1 pid path
                (Hres w1) Hpid Hpath1) as Hget1.
  rewrite (lookupIds_filterSet _ _ _ exclude pid Hpath) in Hget, Hget1.
  assert (Hrows : forall ids,
            memoryByParentMessageIds sid nid ids w1
            = (memoryByParentMessageIds sid nid ids w
               ++ (if keyIn ids (Some pid) then [stamp e (clock w)] else []))%list).
  { intros ids. unfold memoryByParentMessageIds, w1, appended. cbn [memories].
    rewrite List.filter_app. f_equal. cbn [List.filter].
    unfold ofSessionAndNode, stamp, e. cbn. now rewrite !String.eqb_refl. }
  split.
  - intros ->. rewrite Hget, Hget1.
    pose proof (filterSet_regenerating pid path) as Hnot.
    destruct (ParentScheme.filterSet true pid path) as [|i ids]; [reflexivity|].
    cbn [fst]. now rewrite Hrows, (keyIn_not_In _ _ Hnot), app_nil_r.
  - intros ->. rewrite Hget, Hget1.
    pose proof (filterSet_current pid path) as Hin.
    destruct (ParentScheme.filterSet false pid path) as [|i ids]; [destruct Hin|].
    eexists. split; [reflexivity|]. cbn [fst].
    now rewrite Hrows, (keyIn_In _ _ Hin), map_app.
Qed.

End ParentExtras.

Section ParentExtrasWitnesses.
Import Js Repo Proxy ReadBack.

Lemma parent_writes_share_parent_id_witness :
  exists rows w1,
    run (writeAll (Scenario.parentService false) [writeHuman "again"; writeAI "yes"]
                  (ParentScheme.initialClosure None)) Sample.afterTwoTurns
    = (inr (tt, ParentScheme.mkClosure (Some "h2") true), w1)
    /\ memories w1 = (memories Sample.afterTwoTurns ++ rows)%list
    /\ length rows = 2
    /\ Forall (fun row => ChatHubMemory.parentMessageId row = Some "h2"
                          /\ ofSessionAndNode "s1" "n1" row = true) rows
    /\ messageCalls w1 = (messageCalls Sample.afterTwoTurns ++ [getManyBySessionId "s1"])%list.
Proof.
  exact (proj1 (proj2 (parent_writes_share_parent_id "s1" "n1" false "u1" (Some "wf1") "Helper"
                         [writeAI "yes"] Sample.afterTwoTurns))
               (writeHuman "again") Sample.twoTurns eq_refl).
Defined.

Lemma parent_reads_after_write_witness :
  exists w1,
    run (write (Scenario.parentService true) (writeAI "again")
               (ParentScheme.initialClosure (Some "h2"))) Sample.afterTwoTurns
    = (inr (tt, ParentScheme.initialClosure (Some "h2")), w1)
    /\ fst (run (getMemory (Scenario.parentService true)
                           (ParentScheme.initialClosure (Some "h2"))) w1)
       = fst (run (getMemory (Scenario.parentService true)
                             (ParentScheme.initialClosure (Some "h2"))) Sample.afterTwoTurns).
Proof.
  assert (Hpid : "h2" <> EmptyString) by discriminate.
  destruct (parent_reads_after_write "s1" "n1" true "u1" (Some "wf1") "Helper"
              (writeAI "again") "h2"
              [Sample.message "h1" None "human" None 1;
               Sample.message "a1" (Some "h1") "ai" (Some "t1") 2;
               Sample.message "h2" (Some "a1") "human" None 3]
              Sample.afterTwoTurns Hpid eq_refl)
    as (row & w1 & Hrun & _ & _ & _ & Hregen & _).
  exists w1. split; [exact Hrun | exact (Hregen eq_refl)].
Defined.

End ParentExtrasWitnesses.

(** ** The memory node and the helper it is handed *)

Section NodeExtras.
Import Js Repo Proxy ReadBack Node HelperFunctions.
#[local] Arguments record : simpl never.
#[local] Arguments inserted : simpl never.
#[local] Arguments sessionExists : simpl never.
#[local] Arguments sessionIdTaken : simpl never.
#[local] Arguments newSession : simpl never.
#[local] Arguments extractAgentName : simpl never.

(** X14: [supplyData] ends in its own [NodeOperationError] exactly when the
    additional data of the execution holds no Chat Hub proxy provider, so
    that [getChatHubHelperFunctions] hands the node no [getChatHubProxy];
    nothing has been asked of a repository then. *)
Theorem supplyData_without_provider
    (additionalData : AdditionalData.t ParentHandle) (workflow : Workflow.t)
    (node : Workflow.INode) (sessionId : string) (p : ParentSchemeNode.NodeParameters)
    (w : World) :
  ((exists n m,
       fst (run (ParentSchemeNode.supplyData
                   (getChatHubHelperFunctions additionalData workflow node) node sessionId p) w)
       = inr (NodeOperationError n m))
   <-> AdditionalData.chat_hub additionalData ≫= AdditionalData.chatHubProxyProvider = None)
  /\ (AdditionalData.chat_hub additionalData ≫= AdditionalData.chatHubProxyProvider = None ->
      run (ParentSchemeNode.supplyData
             (getChatHubHelperFunctions additionalData workflow node) node sessionId p) w
      = (inr (NodeOperationError node notAvailable), w)).
Proof.
  unfold getChatHubHelperFunctions.
  destruct (AdditionalData.chat_hub additionalData ≫= AdditionalData.chatHubProxyProvider)
    as [provider|].
  - split; [|discriminate]. split; [|discriminate]. intros (n & m & H). exfalso.
    unfold ParentSchemeNode.supplyData in H. cbn zeta in H.
    unfold mbind, Prog_bind in H. rewrite run_bind in H.
    destruct (run (ChatHubProxyProvider.getChatHubProxy _ _ _ _ _ _ _ _) w)
      as [[e|handle] w1]; [discriminate|].
    rewrite run_bind in H.
    destruct (run _ w1) as [[e|after] w2]; discriminate.
  - split; [|reflexivity]. split; [reflexivity|]. intros _. now exists node, notAvailable.
Qed.

Lemma supplyData_without_provider_witness :
  run (ParentSchemeNode.supplyData
         (getChatHubHelperFunctions Scenario.noChatHub Sample.workflow Sample.memoryNode)
         Sample.memoryNode "s1" (Scenario.parentParameters None)) (Sample.store [] [] [])
  = (inr (NodeOperationError Sample.memoryNode notAvailable), Sample.store [] [] []).
Proof.
  exact (proj2 (supplyData_without_provider Scenario.noChatHub Sample.workflow
                  Sample.memoryNode "s1" (Scenario.parentParameters None)
                  (Sample.store [] [] [])) eq_refl).
Defined.


(** X15: what [supplyData] of the first revision leaves behind, handed the
    helper of [getChatHubHelperFunctions] over the proxy service.  With the
    option [autoCreateSession] set to [false] it asks nothing of a
    repository.  When it supplies a memory, the node is a Chat Hub memory
    node, the memory service is the user's, the window is the
    [contextWindowLength] parameter, and, unless [autoCreateSession] is
    [false], the user has the session.  When it throws, it has created no
    session. *)
Theorem supplyData_session (workflow : Workflow.t) (node : Workflow.INode)
    (sessionId : string) (p : ParentSchemeNode.NodeParameters) (user : option string)
    (w : World) :
  (ParentSchemeNode.autoCreateSession
     (default (ParentSchemeNode.mkOptions None None) (ParentSchemeNode.options p)) = Some false ->
   snd (run (ParentSchemeNode.supplyData
               (getChatHubHelperFunctions
                  (AdditionalData.mk (Some (AdditionalData.mkChatHub (Some ChatHubProxyService)))
                                     user) workflow node) node sessionId p) w)
   = w)
  /\ (forall memory cl,
         fst (run (ParentSchemeNode.supplyData
                     (getChatHubHelperFunctions
                        (AdditionalData.mk
                           (Some (AdditionalData.mkChatHub (Some ChatHubProxyService))) user)
                        workflow node) node sessionId p) w)
         = inr (Supplied (memory, cl)) ->
         Workflow.type node = CHAT_HUB_MEMORY_TYPE
         /\ Some (getOwnerId (chatHistory memory)) = user
         /\ k memory = ParentSchemeNode.contextWindowLength p
         /\ (ParentSchemeNode.autoCreateSession
               (default (ParentSchemeNode.mkOptions None None) (ParentSchemeNode.options p))
             <> Some false ->
             sessionExists sessionId (getOwnerId (chatHistory memory))
               (snd (run (ParentSchemeNode.supplyData
                            (getChatHubHelperFunctions
                               (AdditionalData.mk
                                  (Some (AdditionalData.mkChatHub (Some ChatHubProxyService)))
                                  user) workflow node) node sessionId p) w))
             = true))
  /\ (forall e,
         fst (run (ParentSchemeNode.supplyData
                     (getChatHubHelperFunctions
                        (AdditionalData.mk
                           (Some (AdditionalData.mkChatHub (Some ChatHubProxyService))) user)
                        workflow node) node sessionId p) w)
         = inl e ->
         sessions (snd (run (ParentSchemeNode.supplyData
                               (getChatHubHelperFunctions
                                  (AdditionalData.mk
                                     (Some (AdditionalData.mkChatHub (Some ChatHubProxyService)))
                                     user) workflow node) node sessionId p) w))
         = sessions w).
Proof.
  unfold getChatHubHelperFunctions, ParentSchemeNode.supplyData.
  cbn [AdditionalData.chat_hub AdditionalData.chatHubProxyProvider AdditionalData.userId
       mbind option_bind ChatHubProxyService ChatHubProxyProvider.getChatHubProxy].
  cbn zeta.
  set (options := default (ParentSchemeNode.mkOptions None None) (ParentSchemeNode.options p)).
  set (pid := truthy (Some (default EmptyString (ParentSchemeNode.parentMessageId p)))).
  set (exclude := default false (ParentSchemeNode.excludeCurrentFromMemory p)).
  unfold ParentScheme.getChatHubProxy, ParentScheme.validateRequest.
  pose proof (isAllowedNode_iff (Workflow.type node)) as Hnode.
  unfold mbind, Prog_bind.
  destruct (isAllowedNode (Workflow.type node)); [|repeat split; intros; discriminate].
  destruct (truthy user) as [owner|] eqn:Eo; [|repeat split; intros; discriminate].
  apply truthy_Some in Eo as [-> _].
  cbn [lift bind fst snd].
  destruct (ParentSchemeNode.autoCreateSession options) as [[|]|] eqn:Ea.
  1, 3: change (ensureSession (ParentScheme.makeChatHubOperations ?a ?b ?c ?d ?e ?f))
          with (ParentScheme.ensureSession a d e f);
        rewrite run_bind, parent_ensureSession_run;
        (split; [discriminate|]);
        destruct (sessionExists sessionId owner w) eqn:Ex;
        [ split; [intros memory cl [= <- <-]; repeat split; [now apply Hnode | intros _; exact Ex]
                 | intros e H; discriminate]
        | cbn zeta; destruct (sessionIdTaken sessionId w);
          [ split; [intros memory cl H; discriminate | intros e _; reflexivity]
          | split; [intros memory cl [= <- <-]; repeat split;
                    [now apply Hnode | intros _; apply sessionExists_inserted]
                   | intros e H; discriminate] ] ].
  split; [reflexivity|]. split.
  - intros memory cl [= <- <-]. repeat split; [now apply Hnode | intros H; now destruct H].
  - intros e H. discriminate.
Qed.

Lemma supplyData_session_witness :
  exists memory cl,
    fst (run (ParentSchemeNode.supplyData
                (getChatHubHelperFunctions (Scenario.additionalData (Some "u1"))
                                           Sample.workflow Sample.memoryNode)
                Sample.memoryNode "s1" (Scenario.parentParameters None)) (Sample.store [] [] []))
    = inr (Supplied (memory, cl))
    /\ sessionExists "s1" "u1"
         (snd (run (ParentSchemeNode.supplyData
                      (getChatHubHelperFunctions (Scenario.additionalData (Some "u1"))
                                                 Sample.workflow Sample.memoryNode)
                      Sample.memoryNode "s1" (Scenario.parentParameters None))
                   (Sample.store [] [] [])))
       = true.
Proof.
  eexists. eexists. split; [reflexivity|].
  assert (Hauto : @None bool <> Some false) by discriminate.
  exact (proj2 (proj2 (proj2
           (proj1 (proj2 (supplyData_session Sample.workflow Sample.memoryNode "s1"
                            (Scenario.parentParameters None) (Some "u1")
                            (Sample.store [] [] [])))
                  _ _ eq_refl))) Hauto).
Defined.

(** X16: the node of the second revision reads its hidden [turnId]
    parameter with [|| null]: when the memory it supplies is used, every
    row is written under the session id, the id of the node and one turn
    id, which is the parameter when it is not empty and else the uuid drawn
    when the service object was made; with an empty or unset parameter the
    memory reads the whole history of the node. *)
Theorem supplyData_turn_id (workflow : Workflow.t) (node : Workflow.INode)
    (sessionId : string) (p : TurnSchemeNode.NodeParameters) (user : option string)
    (w w1 : World) (memory : BufferWindowMemory (IChatHubMemoryService unit unit)) :
  run (TurnSchemeNode.supplyData (Some (TurnSchemeNode.forwardTo workflow node user))
                                 node sessionId p) w
  = (inr (Supplied memory), w1) ->
  exists tid,
    tid = match TurnSchemeNode.turnId p with
          | Some t => if String.eqb t EmptyString then uuidSource w (uuidCount w) else t
          | None => uuidSource w (uuidCount w)
          end
    /\ (forall (writes : list Write) (w2 : World),
           exists rows w3,
             run (writeAll (chatHistory memory) writes tt) w2 = (inr (tt, tt), w3)
             /\ memories w3 = (memories w2 ++ rows)%list
             /\ length rows = length writes
             /\ Forall (fun row => ChatHubMemory.turnId row = Some tid
                                   /\ ChatHubMemory.sessionId row = sessionId
                                   /\ ChatHubMemory.memoryNodeId row = Workflow.id node) rows)
    /\ (default EmptyString (TurnSchemeNode.turnId p) = EmptyString ->
        forall w2 : World,
          fst (run (getMemory (chatHistory memory) tt) w2)
          = inr (map toEntry (memoryOf sessionId (Workflow.id node) w2), tt)).
Proof.
  unfold TurnSchemeNode.supplyData, TurnSchemeNode.forwardTo. cbn zeta.
  unfold mbind, Prog_bind. rewrite run_bind.
  unfold TurnScheme.getChatHubProxy, TurnScheme.validateRequest.
  destruct (isAllowedNode (Workflow.type node)); [|discriminate].
  cbn [lift mbind Prog_bind bind].
  destruct (truthy user) as [owner|]; [|discriminate].
  set (agent := extractAgentName workflow). set (wf := Workflow.workflowId workflow).
  set (nid := Workflow.id node).
  assert (Hmade : exists tid w0,
            run (TurnScheme.makeChatHubOperations sessionId nid
                   (truthy (Some (default EmptyString (TurnSchemeNode.turnId p)))) owner wf agent)
                w
            = (inr (TurnScheme.operations sessionId nid
                      (truthy (Some (default EmptyString (TurnSchemeNode.turnId p))))
                      tid owner wf agent), w0)
            /\ tid = match TurnSchemeNode.turnId p with
                     | Some t => if String.eqb t EmptyString then uuidSource w (uuidCount w)
                                 else t
                     | None => uuidSource w (uuidCount w)
                     end).
  { destruct (TurnSchemeNode.turnId p) as [t|]; cbn [default from_option id truthy].
    - destruct (String.eqb t EmptyString); eexists; eexists; split; reflexivity.
    - eexists; eexists; split; reflexivity. }
  destruct Hmade as (tid & w0 & -> & Htid). rewrite run_bind.
  destruct (run _ w0) as [[e|u] w2]; [discriminate|]. cbn [run].
  intros [= <- <-]. cbn [chatHistory].
  exists tid. split; [exact Htid|]. split.
  - intros writes w3. apply turn_writeAll.
  - intros E w3. rewrite E. reflexivity.
Qed.

Lemma supplyData_turn_id_witness :
  exists memory w1,
    run (TurnSchemeNode.supplyData
           (Some (TurnSchemeNode.forwardTo Sample.workflow Sample.memoryNode (Some "u1")))
           Sample.memoryNode "s1" (Scenario.turnParameters (Some EmptyString) (Some false)))
        (Sample.store [] [] [])
    = (inr (Supplied memory), w1)
    /\ forall w2 : World,
         fst (run (getMemory (chatHistory memory) tt) w2)
         = inr (map toEntry (memoryOf "s1" "n1" w2), tt).
Proof.
  eexists. eexists. split; [reflexivity|].
  destruct (supplyData_turn_id Sample.workflow Sample.memoryNode "s1"
              (Scenario.turnParameters (Some EmptyString) (Some false)) (Some "u1")
              (Sample.store [] [] []) _ _ eq_refl) as (tid & _ & _ & Hall).
  exact (Hall eq_refl).
Defined.

End NodeExtras.

(** ** The message history over the service keyed by parent message id *)

Section ParentHistoryExtras.
Import Js Repo Proxy ReadBack.
Import ChatHubMessageHistory(BaseMessage, HumanMessage, AIMessage, SystemMessage, ToolMessage,
  ChatMessage, convertToLangChainMessage, convertAll, getMessages, addMessage, addMessages,
  storedAIContent, text_of).
#[local] Arguments JSON_parse : simpl never.
#[local] Arguments stringify : simpl never.
#[local] Arguments History.buildMessageHistory : simpl never.
#[local] Arguments History.extractTurnIds : simpl never.
#[local] Arguments History.extractHumanMessageIds : simpl never.
#[local] Arguments ParentScheme.lookupIds : simpl never.
#[local] Arguments messagesOf : simpl never.
#[local] Arguments record : simpl never.
#[local] Arguments drawn : simpl never.
#[local] Arguments appended : simpl never.

Lemma addMessage_write {St Title : Type} (service : IChatHubMemoryService St Title)
    (m : BaseMessage) :
  addMessage service m
  = match toWrite m with
    | Some x => write service x
    | None => mret tt
    end.
Proof. now destruct m. Qed.

Lemma addMessages_writeAll {St Title : Type} (service : IChatHubMemoryService St Title)
    (ms : list BaseMessage) (st : St) (w : World) :
  run (addMessages service ms st) w = run (writeAll service (omap toWrite ms) st) w.
Proof.
  revert st w. induction ms as [|m ms IH]; intros st w; [reflexivity|].
  cbn [addMessages omap list_omap]. rewrite run_op_bind, addMessage_write.
  destruct (toWrite m) as [x|].
  - cbn [writeAll]. rewrite run_op_bind.
    destruct (run (write service x st) w) as [[e|[u st1]] w1]; [reflexivity | apply IH].
  - cbn [run]. apply IH.
Qed.

(** What a stored row converts to depends on its role, content and name. *)
Lemma convert_row (r : ChatHubMemory.t) :
  convertToLangChainMessage (toEntry r)
  = convertToLangChainMessage
      (ChatHubMemoryEntry.mk EmptyString (ChatHubMemory.role r) (ChatHubMemory.content r)
                             (ChatHubMemory.name r) 0).
Proof. reflexivity. Qed.

Lemma convert_written (ms : list BaseMessage) (rows : list ChatHubMemory.t) :
  forallb storable ms = true ->
  map (fun r => (ChatHubMemory.role r, ChatHubMemory.content r, ChatHubMemory.name r)) rows
  = map (fun x => (writeRole x, writeContent x, writeName x)) (omap toWrite ms) ->
  convertAll (map toEntry rows) = inr (flat_map readBack ms).
Proof.
  revert rows. induction ms as [|m ms IH]; intros rows Hms Hrows.
  - destruct rows; [reflexivity | discriminate].
  - cbn [forallb] in Hms. apply andb_true_iff in Hms as [Hm Hms].
    cbn [omap list_omap] in Hrows.
    destruct m as [c name|c name t|c|c i n|c role]; cbn [toWrite] in Hrows; cbn [flat_map readBack];
      try (now apply IH).
    + destruct rows as [|r rows]; [discriminate|]. cbn [map] in Hrows.
      injection Hrows as Hr Hc Hn Hrest. cbn [map convertAll].
      rewrite convert_row, Hr, Hc, Hn, (IH rows Hms Hrest). reflexivity.
    + destruct rows as [|r rows]; [discriminate|]. cbn [map] in Hrows.
      injection Hrows as Hr Hc Hn Hrest. cbn [map convertAll].
      cbn [storable] in Hm. apply andb_true_iff in Hm as [Hcont Ht].
      rewrite convert_row, Hr, Hc, Hn, (IH rows Hms Hrest). cbn [writeRole writeContent writeName].
      rewrite (stored_content_string c Hcont), (convert_stored_ai _ _ _ _ _ Ht). reflexivity.
    + destruct rows as [|r rows]; [discriminate|]. cbn [map] in Hrows.
      injection Hrows as Hr Hc Hn Hrest. cbn [map convertAll].
      cbn [storable] in Hm. apply andb_true_iff in Hm as [Hm Hname].
      apply andb_true_iff in Hm as [Hcont Hi].
      rewrite convert_row, Hr, Hc, Hn, (IH rows Hms Hrest). cbn [writeRole writeContent writeName].
      rewrite (convert_stored_tool _ _ _ _ _ _ Hcont), (typeof_string _ Hi),
        (typeof_string _ Hname). reflexivity.
Qed.

Variables (sid nid : string) (exclude : bool) (owner : string) (wf : option string)
  (agent : string).

(** X18: the history over a service object of the first revision made
    with a parent message id: [getMessages] after [addMessages] returns the
    messages read before followed by what each added message reads back as;
    but for a regeneration it returns the messages read before and none of
    the added ones. *)
Theorem parent_addMessages_then_getMessages (ms : list BaseMessage) (pid : string)
    (path : list ChatHubMessage.t) (w : World) (old : list BaseMessage) :
  pid <> EmptyString ->
  History.buildMessageHistory (messagesOf sid w) (Some pid) = inr path ->
  forallb storable ms = true ->
  fst (run (getMessages (ParentScheme.makeChatHubOperations sid nid exclude owner wf agent)
                        (ParentScheme.initialClosure (Some pid))) w)
  = inr (old, ParentScheme.initialClosure (Some pid)) ->
  fst (run ((_ ← addMessages (ParentScheme.makeChatHubOperations sid nid exclude owner wf agent)
                             ms;
             getMessages (ParentScheme.makeChatHubOperations sid nid exclude owner wf agent))
            (ParentScheme.initialClosure (Some pid))) w)
  = inr ((if exclude then old else old ++ flat_map readBack ms)%list,
         ParentScheme.initialClosure (Some pid)).
Proof.
  intros Hpid Hpath Hms Hold.
  set (cl := ParentScheme.initialClosure (Some pid)) in *.
  set (svc := ParentScheme.makeChatHubOperations sid nid exclude owner wf agent) in *.
  destruct (parent_writeAll_resolved sid nid exclude owner wf agent (omap toWrite ms) cl w
              eq_refl) as (rows & w1 & Hrun & Hmem & Hmsg & _ & Hmap & Hall).
  fold svc in Hrun.
  rewrite run_op_bind, addMessages_writeAll, Hrun.
  assert (Hres : forall w', run (ParentScheme.resolveParentMessageId sid cl) w'
                            = (inr (Some pid, cl), w')).
  { intros w'. now rewrite resolveParentMessageId_run. }
  assert (Hpath1 : History.buildMessageHistory (messagesOf sid w1) (Some pid) = inr path).
  { unfold messagesOf. rewrite Hmsg. exact Hpath. }
  pose proof (parent_getMemory_run sid nid exclude owner wf agent cl cl w w pid path
                (Hres w) Hpid Hpath) as Hget.
  pose proof (parent_getMemory_run sid nid exclude owner wf agent cl cl w1 w1 pid path
                (Hres w1) Hpid Hpath1) as Hget1.
  rewrite (lookupIds_filterSet _ _ _ exclude pid Hpath) in Hget, Hget1. fold svc in Hget, Hget1.
  assert (Hrows : forall ids,
            memoryByParentMessageIds sid nid ids w1
            = (memoryByParentMessageIds sid nid ids w
               ++ (if keyIn ids (Some pid) then rows else []))%list).
  { intros ids. unfold memoryByParentMessageIds. rewrite Hmem, List.filter_app. f_equal.
    destruct (keyIn ids (Some pid)) eqn:Ek.
    - apply filter_all. intros x Hx. rewrite List.Forall_forall in Hall.
      destruct (Hall x Hx) as (Hn & Hp & _). rewrite Hn, Hp. exact Ek.
    - apply filter_none. intros x Hx. rewrite List.Forall_forall in Hall.
      destruct (Hall x Hx) as (Hn & Hp & _). rewrite Hn, Hp. exact Ek. }
  pose proof (convert_written ms rows Hms Hmap) as Hconv.
  unfold getMessages in Hold |- *. rewrite run_op_bind in Hold |- *.
  rewrite Hget in Hold. rewrite Hget1. unfold pure in Hold |- *.
  destruct exclude.
  - pose proof (filterSet_regenerating pid path) as Hnot.
    destruct (ParentScheme.filterSet true pid path) as [|i ids].
    + rewrite run_bind in Hold |- *. exact Hold.
    + rewrite Hrows, (keyIn_not_In _ _ Hnot), app_nil_r.
      rewrite run_bind in Hold |- *.
      destruct (convertAll _) as [e|msgs]; [discriminate|]. exact Hold.
  - pose proof (filterSet_current pid path) as Hin.
    destruct (ParentScheme.filterSet false pid path) as [|i ids]; [destruct Hin|].
    rewrite Hrows, (keyIn_In _ _ Hin), map_app, run_bind, convertAll_app.
    rewrite run_bind in Hold.
    destruct (convertAll (map toEntry (memoryByParentMessageIds sid nid (i :: ids) w)))
      as [e|msgs]; [discriminate|].
    cbn in Hold. injection Hold as <-. rewrite Hconv. reflexivity.
Qed.

End ParentHistoryExtras.

Section ParentHistoryWitness.
Import Js Repo Proxy ReadBack.
Import ChatHubMessageHistory(BaseMessage, HumanMessage, AIMessage, SystemMessage, ToolMessage,
  ChatMessage, convertToLangChainMessage, convertAll, getMessages, addMessage, addMessages,
  storedAIContent, text_of).

Lemma parent_addMessages_then_getMessages_witness :
  fst (run ((_ ← addMessages (Scenario.parentService false) Scenario.exchange;
             getMessages (Scenario.parentService false))
            (ParentScheme.initialClosure (Some "h2"))) Sample.afterTwoTurns)
  = inr (([HumanMessage (JStr "hello") (Some "User");
           AIMessage (JStr "hi") (Some "AI") (JArr []);
           HumanMessage (JStr "more") (Some "User");
           AIMessage (JStr "sure") (Some "AI") (JArr [])]
          ++ flat_map readBack Scenario.exchange)%list,
         ParentScheme.initialClosure (Some "h2")).
Proof.
  assert (Hpid : "h2" <> EmptyString) by discriminate.
  exact (parent_addMessages_then_getMessages "s1" "n1" false "u1" (Some "wf1") "Helper"
           Scenario.exchange "h2"
           [Sample.message "h1" None "human" None 1;
            Sample.message "a1" (Some "h1") "ai" (Some "t1") 2;
            Sample.message "h2" (Some "a1") "human" None 3]
           Sample.afterTwoTurns
           [HumanMessage (JStr "hello") (Some "User");
            AIMessage (JStr "hi") (Some "AI") (JArr []);
            HumanMessage (JStr "more") (Some "User");
            AIMessage (JStr "sure") (Some "AI") (JArr [])]
           Hpid eq_refl eq_refl eq_refl).
Defined.

End ParentHistoryWitness.
